(** * Dragonfly core: synthesis engine and evaluators

    A shallow embedding of [dragonfly/core/types.py], [dragonfly/core/synth.py]
    and the evaluators of [dragonfly/core/nodes.py] that the synthesis
    properties refer to, followed by the callers of the core: the graph
    runner of [dragonfly/service/runtime/langgraph_runner.py] and the
    route of [dragonfly/service/api/routes.py].

    Conventions of the embedding.
    - Python [str] values are UTF-8 byte strings ([string]); substring
      search on UTF-8 bytes agrees with substring search on code points.
      [str.lower] belongs to the interpreter and is a parameter of the
      evaluators.
    - [UUID] values are numbers; [uuid4()] and [datetime.now(UTC)] are reads
      of an [Entropy] supply, threaded with a counter of the draws made.
    - A raised exception is the [Raise] branch of [result].
    - Python [float] arithmetic is taken through the interface [PyFloat],
      which has two instances: [Exact] (rationals, no rounding) and
      [Binary64] (IEEE 754 binary64 as CPython computes it).  The source
      functions are written once, over the interface. *)

From Stdlib Require Import List String Ascii ZArith QArith Qround Qminmax Lqa Lia Bool.
From Stdlib Require Import Permutation Floats.
From stdpp Require Import base decidable option list gmap strings pretty.
Import ListNotations.
Local Open Scope string_scope.

(** ** The Python runtime, as far as the core uses it *)

Inductive exn : Type :=
| ValueError (msg : string)
| IndexError (msg : string).

Inductive result (A : Type) : Type :=
| Ok (a : A)
| Raise (e : exn).
Arguments Ok {A} a.
Arguments Raise {A} e.

#[global] Instance result_ret : MRet result := @Ok.
#[global] Instance result_bind : MBind result :=
  λ A B f m, match m with Ok a => f a | Raise e => Raise e end.

Definition UUID : Type := N.
Definition datetime : Type := Z.

(** [uuid4()] and [datetime.now(UTC)]: the [n]-th draw of a run. *)
Record Entropy : Type := {
  uuid4 : nat → UUID;
  utc_now : nat → datetime
}.

(** [needle in hay] on [str]. *)
Fixpoint str_contains (needle hay : string) : bool :=
  String.prefix needle hay ||
  match hay with
  | EmptyString => false
  | String _ rest => str_contains needle rest
  end.

(** [l.index(x)]: position of the first element equal ([==]) to [x];
    raises [ValueError] when there is none. *)
Fixpoint list_index {A} `{EqDecision A} (l : list A) (x : A) : result nat :=
  match l with
  | [] => Raise (ValueError "x is not in list")
  | y :: rest =>
      if decide (y = x) then Ok 0%nat
      else i ← list_index rest x; Ok (S i)
  end.

(** [list.sort] and [sorted] are stable and use only [<] on the keys;
    insertion from the right gives the same list. *)
Fixpoint insert_sorted {K A} (lt : K → K → bool) (x : K * A) (l : list (K * A))
  : list (K * A) :=
  match l with
  | [] => [x]
  | y :: rest =>
      if lt (fst y) (fst x) then y :: insert_sorted lt x rest
      else x :: y :: rest
  end.

Definition stable_sort {K A} (lt : K → K → bool) (l : list (K * A))
  : list (K * A) :=
  foldr (insert_sorted lt) [] l.

(** [sorted(l, key=key, reverse=True)]: CPython reverses the list, sorts
    it stably and reverses the outcome, so that equal keys keep their
    original order. *)
Definition sorted_reverse {K A} (lt : K → K → bool) (key : A → K) (l : list A)
  : list A :=
  map snd (rev (stable_sort lt (map (λ a, (key a, a)) (rev l)))).

(** ** Python floats *)

Class PyFloat (R : Type) : Type := {
  float_lit : Q → R;          (* a decimal literal of the source *)
  fadd : R → R → R;
  fsub : R → R → R;
  fmul : R → R → R;
  fneg : R → R;
  flt : R → R → bool;         (* [x < y] *)
  feq : R → R → bool;         (* [x == y] *)
  py_sum : list R → R;        (* the builtin [sum] *)
  format_2f : R → string      (* [f"{x:.2f}"] *)
}.

(** [max(a, b)]: the first argument unless the second is greater. *)
Definition py_max {R} `{PyFloat R} (a b : R) : R :=
  if flt a b then b else a.

(** [f"{q:.2f}"] of an exact value: round half to even at two decimals. *)
Definition round_half_even (q : Q) : Z :=
  let fl := Qfloor q in
  let r := (q - inject_Z fl)%Q in
  match Qcompare r (1 # 2) with
  | Lt => fl
  | Gt => (fl + 1)%Z
  | Eq => if Z.even fl then fl else (fl + 1)%Z
  end.

Definition two_digits (n : Z) : string :=
  (if (n <? 10)%Z then "0" else "") +:+ pretty n.

Definition format_2f_Q (q : Q) : string :=
  let n := round_half_even (q * 100)%Q in
  (if Qle_bool 0 q then "" else "-")
    +:+ pretty (Z.abs n / 100)%Z +:+ "." +:+ two_digits (Z.abs n mod 100)%Z.

Definition Qlt_bool (x y : Q) : bool := negb (Qle_bool y x).

(** Rationals: the arithmetic of the source without rounding. *)
#[global] Instance Exact : PyFloat Q := {|
  float_lit q := q;
  fadd := Qplus;
  fsub := Qminus;
  fmul := Qmult;
  fneg := Qopp;
  flt := Qlt_bool;
  feq := Qeq_bool;
  py_sum l := fold_left Qplus l 0%Q;
  format_2f := format_2f_Q
|}.

(** The value of a binary64 number, when it is finite. *)
Definition SF2Q (x : spec_float) : option Q :=
  match x with
  | S754_zero _ => Some 0%Q
  | S754_finite s m e =>
      let v := match e with
               | Z0 => inject_Z (Zpos m)
               | Zpos p => inject_Z (Zpos m * 2 ^ Zpos p)
               | Zneg p => (Zpos m # 2 ^ p)%Q
               end in
      Some (if s then Qopp v else v)
  | _ => None
  end.

Definition float_of_Z (z : Z) : float :=
  if (z <? 0)%Z then PrimFloat.opp (PrimFloat.of_uint63 (Uint63.of_Z (- z)))
  else PrimFloat.of_uint63 (Uint63.of_Z z).

(** IEEE 754 binary64, round to nearest even: the [float] of CPython.
    A decimal literal denotes the nearest binary64 number, which is what
    the correctly rounded quotient of numerator and denominator gives.
    [sum] adds from the left, starting at 0 (CPython up to 3.11; later
    versions add a compensation term). *)
#[global] Instance Binary64 : PyFloat float := {|
  float_lit q := PrimFloat.div (float_of_Z (Qnum q)) (float_of_Z (Zpos (Qden q)));
  fadd := PrimFloat.add;
  fsub := PrimFloat.sub;
  fmul := PrimFloat.mul;
  fneg := PrimFloat.opp;
  flt := PrimFloat.ltb;
  feq := PrimFloat.eqb;
  py_sum l := fold_left PrimFloat.add l PrimFloat.zero;
  format_2f x :=
    match SF2Q (Prim2SF x) with
    | Some q => (if PrimFloat.get_sign x then
                   if Qeq_bool q 0 then "-" else ""
                 else "") +:+ format_2f_Q q
    | None => if PrimFloat.is_nan x then "nan"
              else if PrimFloat.get_sign x then "-inf" else "inf"
    end
|}.

(** ** Domain model ([types.py])

    The [Literal] aliases of the source are not enforced at run time: the
    fields hold arbitrary strings, and the scoring functions give unknown
    values a default. *)

Module Observation.
Record t : Type := {
  content : string;
  source : string;
  reliability : string;
  id : UUID;
  timestamp : datetime
}.
End Observation.

Module ActionSpec.
Record t : Type := {
  name : string;
  description : string;
  reversibility : string;
  id : UUID;
  time_sensitivity : option string
}.

(** The dataclass [__eq__]: field by field. *)
#[global] Instance eq_dec : EqDecision t.
Proof. solve_decision. Defined.
End ActionSpec.

Module Situation.
Record t : Type := {
  tenant_id : string;
  goal : string;
  time_horizon : string;
  stakes : string;
  observations : list Observation.t;
  candidate_actions : list ActionSpec.t;
  id : UUID;
  context : gmap string string;   (* opaque to the core *)
  created_at : datetime
}.
End Situation.

Module Assessment.
Record t : Type := {
  situation_id : UUID;
  agent_type : string;
  claim : string;
  support : list UUID;
  confidence : string;
  severity : string;
  reversibility : string;
  is_hard_constraint : bool;
  id : UUID;
  action_id : option UUID;
  recommended_tests : list string;
  created_at : datetime
}.
End Assessment.

Module MonitoringTrigger.
Record t : Type := {
  condition : string;
  action_on_trigger : string
}.
End MonitoringTrigger.

Module Decision.
Record t : Type := {
  situation_id : UUID;
  tenant_id : string;
  selected_action : ActionSpec.t;
  alternatives_considered : list ActionSpec.t;
  robustness_basis : string;
  assessments_used : list UUID;
  monitoring : list MonitoringTrigger.t;
  id : UUID;
  created_at : datetime
}.
End Decision.

(** ** Synthesis ([synth.py]) *)

Section Synth.
Context {R : Type} `{PyFloat R}.

Definition REVERSIBILITY_SCORES : gmap string R :=
  {[ "reversible" := float_lit 1.0;
     "costly" := float_lit 0.5;
     "irreversible" := float_lit 0.0 ]}.

Definition SEVERITY_WEIGHTS : gmap string R :=
  {[ "low" := float_lit 0.1;
     "medium" := float_lit 0.2;
     "high" := float_lit 0.3 ]}.

(** [d.get(k, dflt)] *)
Definition dict_get (d : gmap string R) (k : string) (dflt : R) : R :=
  default dflt (d !! k).

Definition filter_by_constraints
    (actions : list ActionSpec.t) (assessments : list Assessment.t)
  : list ActionSpec.t :=
  let violated_action_ids : gset UUID :=
    list_to_set
      (omap (λ a, if Assessment.is_hard_constraint a
                  then Assessment.action_id a else None)
            assessments) in
  List.filter
    (λ action, bool_decide (ActionSpec.id action ∉ violated_action_ids))
    actions.

Definition score_robustness
    (action : ActionSpec.t) (assessments : list Assessment.t) : R :=
  let rev_score :=
    dict_get REVERSIBILITY_SCORES (ActionSpec.reversibility action)
             (float_lit 0.5) in
  let action_warnings :=
    List.filter
      (λ a, bool_decide (Assessment.action_id a = Some (ActionSpec.id action))
            && negb (Assessment.is_hard_constraint a))
      assessments in
  let warning_penalty :=
    py_sum (map (λ w, dict_get SEVERITY_WEIGHTS (Assessment.severity w)
                               (float_lit 0.2))
                action_warnings) in
  let constraint_score :=
    py_max (float_lit 0.0) (fsub (float_lit 1.0) warning_penalty) in
  fadd (fmul (float_lit 0.6) rev_score)
       (fmul (float_lit 0.4) constraint_score).

(** The sort key of [select_action], [(-score, index)], and [<] on such
    tuples: the first components decide unless they are equal. *)
Definition key_lt (k1 k2 : R * nat) : bool :=
  if feq (fst k1) (fst k2) then (snd k1 <? snd k2)%nat
  else flt (fst k1) (fst k2).

Definition select_action
    (actions : list ActionSpec.t) (assessments : list Assessment.t)
  : result ActionSpec.t :=
  match actions with
  | [] => Raise (ValueError "Cannot select from empty action list")
  | _ =>
      let scored :=
        map (λ action, (action, score_robustness action assessments))
            actions in
      keyed ← mapM (λ x, i ← list_index actions (fst x);
                         Ok ((fneg (snd x), i), x)) scored;
      match stable_sort key_lt keyed with
      | [] => Raise (IndexError "list index out of range")
      | first :: _ => Ok (fst (snd first))
      end
  end.

Definition generate_monitoring (assessments : list Assessment.t)
  : list MonitoringTrigger.t :=
  foldl
    (λ triggers assessment,
       if negb (Assessment.is_hard_constraint assessment)
          && bool_decide (Assessment.severity assessment = "high")
       then (triggers ++
            [ {| MonitoringTrigger.condition :=
                   "Monitor: " +:+ Assessment.claim assessment;
                 MonitoringTrigger.action_on_trigger := "alert" |} ])%list
       else triggers)
    [] assessments.

Definition _find_most_reversible (actions : list ActionSpec.t)
  : result ActionSpec.t :=
  match actions with
  | [] => Raise (ValueError "Cannot find most reversible from empty list")
  | _ =>
      let sorted_actions :=
        sorted_reverse flt
          (λ a, dict_get REVERSIBILITY_SCORES (ActionSpec.reversibility a)
                         (float_lit 0.5))
          actions in
      match sorted_actions with
      | [] => Raise (IndexError "list index out of range")
      | first :: _ => Ok first
      end
  end.

Definition synthesize (e : Entropy) (n : nat)
    (situation : Situation.t) (assessments : list Assessment.t)
  : result Decision.t :=
  let surviving_actions :=
    filter_by_constraints (Situation.candidate_actions situation)
                          assessments in
  let monitoring := generate_monitoring assessments in
  let assessments_used := map Assessment.id assessments in
  '(selected_action, robustness_basis) ←
    match surviving_actions with
    | _ :: _ =>
        selected_action ← select_action surviving_actions assessments;
        let score := score_robustness selected_action assessments in
        Ok (selected_action,
            "Passed all hard constraints. "
            +:+ "Selected '" +:+ ActionSpec.name selected_action
            +:+ "' with robustness score " +:+ format_2f score +:+ ". "
            +:+ "Action is " +:+ ActionSpec.reversibility selected_action
            +:+ ".")
    | [] =>
        selected_action ←
          _find_most_reversible (Situation.candidate_actions situation);
        Ok (selected_action,
            "No action passed all hard constraints. "
            +:+ "Selected '" +:+ ActionSpec.name selected_action
            +:+ "' as most reversible fallback option.")
    end;
  let alternatives :=
    List.filter
      (λ a, bool_decide (ActionSpec.id a ≠ ActionSpec.id selected_action))
      (Situation.candidate_actions situation) in
  Ok {| Decision.situation_id := Situation.id situation;
        Decision.tenant_id := Situation.tenant_id situation;
        Decision.selected_action := selected_action;
        Decision.alternatives_considered := alternatives;
        Decision.robustness_basis := robustness_basis;
        Decision.assessments_used := assessments_used;
        Decision.monitoring := monitoring;
        Decision.id := uuid4 e n;
        Decision.created_at := utc_now e n |}.

End Synth.

(** ** Evaluators ([nodes.py]) *)

Definition DEADLINE_KEYWORDS : gset string :=
  list_to_set
    [ "deadline"; "due"; "by friday"; "by monday"; "by tuesday";
      "by wednesday"; "by thursday"; "end of"; "must complete";
      "time limit"; "urgent"; "asap"; "immediately"; "today"; "tomorrow";
      "this week" ].

Definition INCREASE_KEYWORDS : gset string :=
  list_to_set
    [ "increase"; "grow"; "rise"; "up"; "higher"; "more"; "expand"; "gain" ].

Definition DECREASE_KEYWORDS : gset string :=
  list_to_set
    [ "decrease"; "drop"; "fall"; "down"; "lower"; "less"; "shrink";
      "decline" ].

(** [any(kw in text for kw in keywords)] *)
Definition any_keyword_in (keywords : gset string) (text : string) : bool :=
  existsb (λ kw, str_contains kw text) (elements keywords).

(** State of an [assess] loop: the list built so far and the number of
    draws made from the entropy supply. *)
Definition emitted : Type := (list Assessment.t * nat)%type.

(** [assessments.append(Assessment(...))]: the default factories of
    [id] and [created_at] run at construction. *)
Definition emit (e : Entropy) (st : emitted)
    (mk : UUID → datetime → Assessment.t) : emitted :=
  ((fst st ++ [mk (uuid4 e (snd st)) (utc_now e (snd st))])%list, S (snd st)).

Section Evaluators.
Context (lower : string → string).    (* [str.lower] *)
Context (e : Entropy).

Definition ConstraintAgent_agent_type : string := "constraint".

Definition ConstraintAgent_has_deadline_indicator (situation : Situation.t)
  : bool :=
  existsb
    (λ obs, let content_lower := lower (Observation.content obs) in
            any_keyword_in DEADLINE_KEYWORDS content_lower)
    (Situation.observations situation).

(** The body of the loop over [situation.candidate_actions]. *)
Definition ConstraintAgent_assess_action (situation : Situation.t)
    (has_deadline : bool) (st : emitted) (action : ActionSpec.t) : emitted :=
  let st1 :=
    if has_deadline
       && bool_decide (ActionSpec.time_sensitivity action = Some "flexible")
    then
      emit e st (λ fresh now,
        {| Assessment.situation_id := Situation.id situation;
           Assessment.agent_type := ConstraintAgent_agent_type;
           Assessment.claim :=
             "Action '" +:+ ActionSpec.name action
             +:+ "' may miss deadline due to flexible timing";
           Assessment.support :=
             map Observation.id (Situation.observations situation);
           Assessment.confidence := "high";
           Assessment.severity := "high";
           Assessment.reversibility := "irreversible";
           Assessment.is_hard_constraint := true;
           Assessment.id := fresh;
           Assessment.action_id := Some (ActionSpec.id action);
           Assessment.recommended_tests := [];
           Assessment.created_at := now |})
    else st in
  if bool_decide (ActionSpec.reversibility action = "irreversible")
     && bool_decide (Situation.stakes situation = "high")
  then
    emit e st1 (λ fresh now,
      {| Assessment.situation_id := Situation.id situation;
         Assessment.agent_type := ConstraintAgent_agent_type;
         Assessment.claim :=
           "Irreversible action '" +:+ ActionSpec.name action
           +:+ "' in high-stakes situation";
         Assessment.support := [];
         Assessment.confidence := "high";
         Assessment.severity := "high";
         Assessment.reversibility := "irreversible";
         Assessment.is_hard_constraint := false;
         Assessment.id := fresh;
         Assessment.action_id := Some (ActionSpec.id action);
         Assessment.recommended_tests := [];
         Assessment.created_at := now |})
  else if bool_decide (ActionSpec.reversibility action = "irreversible")
          && bool_decide (Situation.stakes situation = "medium")
  then
    emit e st1 (λ fresh now,
      {| Assessment.situation_id := Situation.id situation;
         Assessment.agent_type := ConstraintAgent_agent_type;
         Assessment.claim :=
           "Irreversible action '" +:+ ActionSpec.name action
           +:+ "' limits future options";
         Assessment.support := [];
         Assessment.confidence := "medium";
         Assessment.severity := "medium";
         Assessment.reversibility := "irreversible";
         Assessment.is_hard_constraint := false;
         Assessment.id := fresh;
         Assessment.action_id := Some (ActionSpec.id action);
         Assessment.recommended_tests := [];
         Assessment.created_at := now |})
  else st1.

(** [ConstraintAgent.assess], started after [n] draws; returns the
    assessments and the number of draws made. *)
Definition ConstraintAgent_assess (n : nat) (situation : Situation.t)
  : emitted :=
  let has_deadline := ConstraintAgent_has_deadline_indicator situation in
  foldl (ConstraintAgent_assess_action situation has_deadline)
        ([], n) (Situation.candidate_actions situation).

Definition RealityCheckAgent_agent_type : string := "reality_check".

Definition RealityCheckAgent_detect_conflicts
    (observations : list Observation.t)
  : list (Observation.t * Observation.t) :=
  let '(increase_obs, decrease_obs) :=
    foldl
      (λ '(increase_obs, decrease_obs) obs,
         let content_lower := lower (Observation.content obs) in
         let has_increase := any_keyword_in INCREASE_KEYWORDS content_lower in
         let has_decrease := any_keyword_in DECREASE_KEYWORDS content_lower in
         if has_increase && negb has_decrease
         then ((increase_obs ++ [obs])%list, decrease_obs)
         else if has_decrease && negb has_increase
         then (increase_obs, (decrease_obs ++ [obs])%list)
         else (increase_obs, decrease_obs))
      ([], []) observations in
  flat_map (λ inc_obs, map (λ dec_obs, (inc_obs, dec_obs)) decrease_obs)
           increase_obs.

Definition RealityCheckAgent_assess (n : nat) (situation : Situation.t)
  : emitted :=
  (* low reliability under stakes *)
  let st1 :=
    foldl
      (λ st obs,
         if bool_decide (Observation.reliability obs = "low")
            && (bool_decide (Situation.stakes situation = "high")
                || bool_decide (Situation.stakes situation = "medium"))
         then
           let severity :=
             if bool_decide (Situation.stakes situation = "high")
             then "high" else "medium" in
           emit e st (λ fresh now,
             {| Assessment.situation_id := Situation.id situation;
                Assessment.agent_type := RealityCheckAgent_agent_type;
                Assessment.claim :=
                  "Low reliability source '" +:+ Observation.source obs
                  +:+ "' informing " +:+ Situation.stakes situation
                  +:+ "-stakes decision";
                Assessment.support := [Observation.id obs];
                Assessment.confidence := "high";
                Assessment.severity := severity;
                Assessment.reversibility := "reversible";
                Assessment.is_hard_constraint := false;
                Assessment.id := fresh;
                Assessment.action_id := None;
                Assessment.recommended_tests :=
                  ["Verify information from " +:+ Observation.source obs];
                Assessment.created_at := now |})
         else st)
      ([], n) (Situation.observations situation) in
  (* conflicting observations *)
  let conflicts :=
    RealityCheckAgent_detect_conflicts (Situation.observations situation) in
  let st2 :=
    foldl
      (λ st '(obs1, obs2),
         emit e st (λ fresh now,
           {| Assessment.situation_id := Situation.id situation;
              Assessment.agent_type := RealityCheckAgent_agent_type;
              Assessment.claim :=
                "Conflicting observations: '" +:+ Observation.source obs1
                +:+ "' vs '" +:+ Observation.source obs2 +:+ "'";
              Assessment.support := [Observation.id obs1; Observation.id obs2];
              Assessment.confidence := "high";
              Assessment.severity := "medium";
              Assessment.reversibility := "reversible";
              Assessment.is_hard_constraint := false;
              Assessment.id := fresh;
              Assessment.action_id := None;
              Assessment.recommended_tests :=
                ["Gather additional data to resolve conflict"];
              Assessment.created_at := now |}))
      st1 conflicts in
  (* missing observations *)
  match Situation.observations situation, Situation.candidate_actions situation
  with
  | [], _ :: _ =>
      emit e st2 (λ fresh now,
        {| Assessment.situation_id := Situation.id situation;
           Assessment.agent_type := RealityCheckAgent_agent_type;
           Assessment.claim := "No observations available to inform decision";
           Assessment.support := [];
           Assessment.confidence := "high";
           Assessment.severity := "medium";
           Assessment.reversibility := "reversible";
           Assessment.is_hard_constraint := false;
           Assessment.id := fresh;
           Assessment.action_id := None;
           Assessment.recommended_tests :=
             ["Gather relevant observations before deciding"];
           Assessment.created_at := now |})
  | _, _ => st2
  end.

End Evaluators.

(** *** [StabilityAgent] *)

Definition StabilityAgent_agent_type : string := "stability".

Definition REVERSIBILITY_SEVERITY : gmap string string :=
  {[ "reversible" := "low"; "costly" := "medium"; "irreversible" := "high" ]}.

(** The body of the loop of [StabilityAgent.assess]. *)
Definition StabilityAgent_assess_action (e : Entropy)
    (situation : Situation.t) (st : emitted) (action : ActionSpec.t)
  : emitted :=
  let severity0 :=
    default "medium"
            (REVERSIBILITY_SEVERITY !! ActionSpec.reversibility action) in
  let severity :=
    if bool_decide (Situation.stakes situation = "high")
       && bool_decide (ActionSpec.reversibility action = "irreversible")
    then "high" else severity0 in
  if bool_decide (ActionSpec.reversibility action = "irreversible") then
    emit e st (λ fresh now,
      {| Assessment.situation_id := Situation.id situation;
         Assessment.agent_type := StabilityAgent_agent_type;
         Assessment.claim :=
           "Action '" +:+ ActionSpec.name action
           +:+ "' is irreversible and reduces future options";
         Assessment.support := [];
         Assessment.confidence := "high";
         Assessment.severity := severity;
         Assessment.reversibility := "irreversible";
         Assessment.is_hard_constraint := false;
         Assessment.id := fresh;
         Assessment.action_id := Some (ActionSpec.id action);
         Assessment.recommended_tests := [];
         Assessment.created_at := now |})
  else if bool_decide (ActionSpec.reversibility action = "costly") then
    emit e st (λ fresh now,
      {| Assessment.situation_id := Situation.id situation;
         Assessment.agent_type := StabilityAgent_agent_type;
         Assessment.claim :=
           "Action '" +:+ ActionSpec.name action +:+ "' is costly to reverse";
         Assessment.support := [];
         Assessment.confidence := "medium";
         Assessment.severity := severity;
         Assessment.reversibility := "costly";
         Assessment.is_hard_constraint := false;
         Assessment.id := fresh;
         Assessment.action_id := Some (ActionSpec.id action);
         Assessment.recommended_tests := [];
         Assessment.created_at := now |})
  else
    emit e st (λ fresh now,
      {| Assessment.situation_id := Situation.id situation;
         Assessment.agent_type := StabilityAgent_agent_type;
         Assessment.claim :=
           "Action '" +:+ ActionSpec.name action
           +:+ "' preserves optionality (reversible)";
         Assessment.support := [];
         Assessment.confidence := "high";
         Assessment.severity := "low";
         Assessment.reversibility := "reversible";
         Assessment.is_hard_constraint := false;
         Assessment.id := fresh;
         Assessment.action_id := Some (ActionSpec.id action);
         Assessment.recommended_tests := [];
         Assessment.created_at := now |}).

Definition StabilityAgent_assess (e : Entropy) (n : nat)
    (situation : Situation.t) : emitted :=
  foldl (StabilityAgent_assess_action e situation)
        ([], n) (Situation.candidate_actions situation).

(** ** The runner ([langgraph_runner.py])

    [StateGraph] is LangGraph's; the part of it that [_build_graph] uses
    is modelled: named nodes, an entry point, one edge out of every node,
    and state keys without reducers, so that a node's returned dict
    replaces the keys it holds.  An exception raised in a node leaves
    [invoke]. *)

Module DragonflyState.
Record t : Type := {
  situation : Situation.t;
  assessments : list Assessment.t;
  decision : option Decision.t
}.
End DragonflyState.

(** The dict that a node returns. *)
Inductive state_update : Type :=
| UpdateAssessments (assessments : list Assessment.t)
| UpdateDecision (decision : Decision.t).

Definition apply_update (state : DragonflyState.t) (u : state_update)
  : DragonflyState.t :=
  match u with
  | UpdateAssessments l =>
      {| DragonflyState.situation := DragonflyState.situation state;
         DragonflyState.assessments := l;
         DragonflyState.decision := DragonflyState.decision state |}
  | UpdateDecision d =>
      {| DragonflyState.situation := DragonflyState.situation state;
         DragonflyState.assessments := DragonflyState.assessments state;
         DragonflyState.decision := Some d |}
  end.

(** A node: from the state and the number of entropy draws made so far
    to its update and the new number of draws. *)
Definition node : Type :=
  nat → DragonflyState.t → result (state_update * nat).

Definition END : string := "__end__".

Module StateGraph.
Record t : Type := {
  nodes : list (string * node);
  entry_point : string;
  edges : list (string * string)
}.
End StateGraph.

Definition assoc {V} (key : string) (l : list (string * V)) : option V :=
  snd <$> List.find (λ kv, bool_decide (fst kv = key)) l.

(** [app.invoke(state)]; [fuel] bounds the number of node runs. *)
Fixpoint invoke_from (g : StateGraph.t) (fuel : nat) (current : string)
    (n : nat) (state : DragonflyState.t) : option (result DragonflyState.t) :=
  if bool_decide (current = END) then Some (Ok state)
  else
    match fuel with
    | O => None
    | S fuel' =>
        match assoc current (StateGraph.nodes g),
              assoc current (StateGraph.edges g) with
        | Some run_node, Some next =>
            match run_node n state with
            | Raise err => Some (Raise err)
            | Ok (u, n') => invoke_from g fuel' next n' (apply_update state u)
            end
        | _, _ => None
        end
    end.

Definition invoke (g : StateGraph.t) (fuel : nat) (n : nat)
    (state : DragonflyState.t) : option (result DragonflyState.t) :=
  invoke_from g fuel (StateGraph.entry_point g) n state.

Section Runner.
Context {R : Type} `{PyFloat R}.
Context (lower : string → string).    (* [str.lower] *)
Context (e : Entropy).

Definition _constraint_node : node :=
  λ n state,
    let '(new_assessments, n') :=
      ConstraintAgent_assess lower e n (DragonflyState.situation state) in
    Ok (UpdateAssessments
          (DragonflyState.assessments state ++ new_assessments)%list, n').

Definition _stability_node : node :=
  λ n state,
    let '(new_assessments, n') :=
      StabilityAgent_assess e n (DragonflyState.situation state) in
    Ok (UpdateAssessments
          (DragonflyState.assessments state ++ new_assessments)%list, n').

Definition _reality_check_node : node :=
  λ n state,
    let '(new_assessments, n') :=
      RealityCheckAgent_assess lower e n (DragonflyState.situation state) in
    Ok (UpdateAssessments
          (DragonflyState.assessments state ++ new_assessments)%list, n').

Definition _synthesis_node : node :=
  λ n state,
    decision ← synthesize (R:=R) e n (DragonflyState.situation state)
                          (DragonflyState.assessments state);
    Ok (UpdateDecision decision, S n).

Definition _build_graph : StateGraph.t :=
  {| StateGraph.nodes :=
       [ ("constraint", _constraint_node);
         ("stability", _stability_node);
         ("reality_check", _reality_check_node);
         ("synthesis", _synthesis_node) ];
     StateGraph.entry_point := "constraint";
     StateGraph.edges :=
       [ ("constraint", "stability");
         ("stability", "reality_check");
         ("reality_check", "synthesis");
         ("synthesis", END) ] |}.

(** [DragonflyRunner.run], started after [n] entropy draws. *)
Definition DragonflyRunner_run (fuel : nat) (n : nat)
    (situation : Situation.t) : option (result Decision.t) :=
  let initial_state :=
    {| DragonflyState.situation := situation;
       DragonflyState.assessments := [];
       DragonflyState.decision := None |} in
  match invoke _build_graph fuel n initial_state with
  | None => None
  | Some (Raise err) => Some (Raise err)
  | Some (Ok state) =>
      match DragonflyState.decision state with
      | None =>
          Some (Raise (ValueError "Graph execution did not produce a decision"))
      | Some decision => Some (Ok decision)
      end
  end.

End Runner.

(** ** The HTTP route ([routes.py])

    The request and response models are pydantic's: a request reaches
    [decide] with its fields typed as declared.  [HTTPException] is
    FastAPI's: raising it ends the call with that status and detail.
    [str] of a UUID and [datetime.isoformat] are the standard library's
    and stay abstract. *)

Module routes.

Module ObservationRequest.
Record t : Type := {
  content : string;
  source : string;
  reliability : string
}.
End ObservationRequest.

Module ActionSpecRequest.
Record t : Type := {
  name : string;
  description : string;
  reversibility : string;
  time_sensitivity : option string
}.
End ActionSpecRequest.

Module SituationRequest.
Record t : Type := {
  tenant_id : string;
  goal : string;
  time_horizon : string;
  stakes : string;
  observations : list ObservationRequest.t;
  candidate_actions : list ActionSpecRequest.t;
  context : gmap string string
}.
End SituationRequest.

Module MonitoringTriggerResponse.
Record t : Type := {
  condition : string;
  action_on_trigger : string
}.
End MonitoringTriggerResponse.

Module ActionSpecResponse.
Record t : Type := {
  id : string;
  name : string;
  description : string;
  reversibility : string;
  time_sensitivity : option string
}.
End ActionSpecResponse.

Module DecisionResponse.
Record t : Type := {
  id : string;
  situation_id : string;
  tenant_id : string;
  selected_action : ActionSpecResponse.t;
  alternatives_considered : list ActionSpecResponse.t;
  robustness_basis : string;
  assessments_used : list string;
  monitoring : list MonitoringTriggerResponse.t;
  created_at : string
}.
End DecisionResponse.

(** How a route handler ends: with its response, or by raising
    [HTTPException]. *)
Inductive http_result (A : Type) : Type :=
| Respond (a : A)
| HTTPException (status_code : Z) (detail : string).
Arguments Respond {A} a.
Arguments HTTPException {A} status_code detail.

Section Routes.
Context {R : Type} `{PyFloat R}.
Context (lower : string → string).      (* [str.lower] *)
Context (e : Entropy).
Context (uuid_str : UUID → string).     (* [str] on [UUID] *)
Context (isoformat : datetime → string).

(** The dataclass fills [id] and [timestamp] from their default
    factories: the [n]-th draw. *)
Definition _observation_from_request (n : nat) (req : ObservationRequest.t)
  : Observation.t :=
  {| Observation.content := ObservationRequest.content req;
     Observation.source := ObservationRequest.source req;
     Observation.reliability := ObservationRequest.reliability req;
     Observation.id := uuid4 e n;
     Observation.timestamp := utc_now e n |}.

Definition _action_spec_from_request (n : nat) (req : ActionSpecRequest.t)
  : ActionSpec.t :=
  {| ActionSpec.name := ActionSpecRequest.name req;
     ActionSpec.description := ActionSpecRequest.description req;
     ActionSpec.reversibility := ActionSpecRequest.reversibility req;
     ActionSpec.id := uuid4 e n;
     ActionSpec.time_sensitivity := ActionSpecRequest.time_sensitivity req |}.

Definition action_spec_response (action : ActionSpec.t)
  : ActionSpecResponse.t :=
  {| ActionSpecResponse.id := uuid_str (ActionSpec.id action);
     ActionSpecResponse.name := ActionSpec.name action;
     ActionSpecResponse.description := ActionSpec.description action;
     ActionSpecResponse.reversibility := ActionSpec.reversibility action;
     ActionSpecResponse.time_sensitivity :=
       ActionSpec.time_sensitivity action |}.

Definition _decision_to_response (decision : Decision.t)
  : DecisionResponse.t :=
  {| DecisionResponse.id := uuid_str (Decision.id decision);
     DecisionResponse.situation_id :=
       uuid_str (Decision.situation_id decision);
     DecisionResponse.tenant_id := Decision.tenant_id decision;
     DecisionResponse.selected_action :=
       action_spec_response (Decision.selected_action decision);
     DecisionResponse.alternatives_considered :=
       map action_spec_response (Decision.alternatives_considered decision);
     DecisionResponse.robustness_basis := Decision.robustness_basis decision;
     DecisionResponse.assessments_used :=
       map uuid_str (Decision.assessments_used decision);
     DecisionResponse.monitoring :=
       map (λ t,
              {| MonitoringTriggerResponse.condition :=
                   MonitoringTrigger.condition t;
                 MonitoringTriggerResponse.action_on_trigger :=
                   MonitoringTrigger.action_on_trigger t |})
           (Decision.monitoring decision);
     DecisionResponse.created_at := isoformat (Decision.created_at decision) |}.

(** The situation that [decide] builds, after [n] draws: one draw per
    observation, then one per action, then one for the situation. *)
Definition situation_of_request (n : nat) (request : SituationRequest.t)
  : Situation.t * nat :=
  let observations :=
    imap (λ i o, _observation_from_request (n + i) o)
         (SituationRequest.observations request) in
  let n := (n + length (SituationRequest.observations request))%nat in
  let actions :=
    imap (λ i a, _action_spec_from_request (n + i) a)
         (SituationRequest.candidate_actions request) in
  let n := (n + length (SituationRequest.candidate_actions request))%nat in
  ({| Situation.tenant_id := SituationRequest.tenant_id request;
      Situation.goal := SituationRequest.goal request;
      Situation.time_horizon := SituationRequest.time_horizon request;
      Situation.stakes := SituationRequest.stakes request;
      Situation.observations := observations;
      Situation.candidate_actions := actions;
      Situation.id := uuid4 e n;
      Situation.context := SituationRequest.context request;
      Situation.created_at := utc_now e n |}, S n).

(** [POST /decide].  [get_runner()] hands out the one [DragonflyRunner],
    which keeps nothing between runs.  A [ValueError] becomes status 400
    with its message, any other exception status 500. *)
Definition decide (fuel : nat) (n : nat) (request : SituationRequest.t)
  : option (http_result DecisionResponse.t) :=
  let '(situation, n) := situation_of_request n request in
  match DragonflyRunner_run (R:=R) lower e fuel n situation with
  | None => None
  | Some (Ok decision) => Some (Respond (_decision_to_response decision))
  | Some (Raise (ValueError msg)) => Some (HTTPException 400 msg)
  | Some (Raise (IndexError msg)) =>
      Some (HTTPException 500 ("Internal error: " +:+ msg))
  end.

End Routes.

End routes.

(** ** Serialization ([types.py])

    [to_dict] and [from_dict] work on [dict[str, Any]].  The core reads
    the fields of the dataclasses at their declared types, as in the
    records above; [from_dict] does not check them: it stores what the
    dict holds.  The objects of this part therefore keep every field that
    [from_dict] copies as a value, and type only the fields that it
    builds ([UUID], [datetime], nested objects).  [to_dict] puts the
    object's own lists and dicts into its result, not copies; values
    only are modelled here. *)

Module types.

Inductive exception : Type :=
| KeyError (key : string)
| TypeError
| AttributeError
| ValueError.

Inductive outcome (A : Type) : Type :=
| Returns (a : A)
| Raises (err : exception).
Arguments Returns {A} a.
Arguments Raises {A} err.

#[global] Instance outcome_ret : MRet outcome := @Returns.
#[global] Instance outcome_bind : MBind outcome :=
  λ A B f m, match m with Returns a => f a | Raises err => Raises err end.

(** The values of a serialized object.  A dict keeps its keys in
    insertion order. *)
#[warnings="-register-all"]
Inductive pyval : Type :=
| PNone
| PBool (b : bool)
| PInt (z : Z)
| PStr (s : string)
| PList (l : list pyval)
| PDict (d : list (string * pyval)).

(** What the standard library does: [str] of a UUID, [UUID(x)],
    [isoformat], [datetime.fromisoformat(x)], and the characters of a
    [str]. *)
Class Runtime : Type := {
  uuid_str : UUID → string;
  UUID_of : pyval → outcome UUID;
  isoformat : datetime → string;
  fromisoformat : pyval → outcome datetime;
  str_chars : string → list string
}.

(** [data[key]] for a [str] key *)
Definition getitem (data : pyval) (key : string) : outcome pyval :=
  match data with
  | PDict d =>
      match assoc key d with
      | Some v => Returns v
      | None => Raises (KeyError key)
      end
  | _ => Raises TypeError
  end.

(** [data.get(key, dflt)] *)
Definition get (data : pyval) (key : string) (dflt : pyval) : outcome pyval :=
  match data with
  | PDict d => Returns (default dflt (assoc key d))
  | _ => Raises AttributeError
  end.

(** Truth value of [if v]. *)
Definition truthy (v : pyval) : bool :=
  match v with
  | PNone => false
  | PBool b => b
  | PInt z => negb (z =? 0)%Z
  | PStr s => negb (bool_decide (s = ""))
  | PList l => match l with [] => false | _ => true end
  | PDict d => match d with [] => false | _ => true end
  end.

(** The items of [for x in v]. *)
Definition iter `{Runtime} (v : pyval) : outcome (list pyval) :=
  match v with
  | PList l => Returns l
  | PStr s => Returns (PStr <$> str_chars s)
  | PDict d => Returns ((λ kv, PStr (fst kv)) <$> d)
  | _ => Raises TypeError
  end.

(** [[f(x) for x in v]] *)
Definition list_comprehension `{Runtime} {A} (f : pyval → outcome A)
    (v : pyval) : outcome (list A) :=
  items ← iter v; mapM f items.

Module Observation.
Record t : Type := {
  content : pyval;
  source : pyval;
  reliability : pyval;
  id : UUID;
  timestamp : datetime
}.

Definition to_dict `{Runtime} (self : t) : pyval :=
  PDict [ ("id", PStr (uuid_str (id self)));
          ("content", content self);
          ("source", source self);
          ("reliability", reliability self);
          ("timestamp", PStr (isoformat (timestamp self))) ].

Definition from_dict `{Runtime} (data : pyval) : outcome t :=
  id ← getitem data "id" ≫= UUID_of;
  content ← getitem data "content";
  source ← getitem data "source";
  reliability ← getitem data "reliability";
  timestamp ← getitem data "timestamp" ≫= fromisoformat;
  Returns {| id := id; content := content; source := source;
             reliability := reliability; timestamp := timestamp |}.
End Observation.

Module ActionSpec.
Record t : Type := {
  name : pyval;
  description : pyval;
  reversibility : pyval;
  id : UUID;
  time_sensitivity : pyval
}.

Definition to_dict `{Runtime} (self : t) : pyval :=
  PDict [ ("id", PStr (uuid_str (id self)));
          ("name", name self);
          ("description", description self);
          ("reversibility", reversibility self);
          ("time_sensitivity", time_sensitivity self) ].

Definition from_dict `{Runtime} (data : pyval) : outcome t :=
  id ← getitem data "id" ≫= UUID_of;
  name ← getitem data "name";
  description ← getitem data "description";
  reversibility ← getitem data "reversibility";
  time_sensitivity ← get data "time_sensitivity" PNone;
  Returns {| id := id; name := name; description := description;
             reversibility := reversibility;
             time_sensitivity := time_sensitivity |}.
End ActionSpec.

Module Situation.
Record t : Type := {
  tenant_id : pyval;
  goal : pyval;
  time_horizon : pyval;
  stakes : pyval;
  observations : list Observation.t;
  candidate_actions : list ActionSpec.t;
  id : UUID;
  context : pyval;
  created_at : datetime
}.

Definition to_dict `{Runtime} (self : t) : pyval :=
  PDict [ ("id", PStr (uuid_str (id self)));
          ("tenant_id", tenant_id self);
          ("goal", goal self);
          ("time_horizon", time_horizon self);
          ("stakes", stakes self);
          ("observations",
           PList (Observation.to_dict <$> observations self));
          ("candidate_actions",
           PList (ActionSpec.to_dict <$> candidate_actions self));
          ("context", context self);
          ("created_at", PStr (isoformat (created_at self))) ].

Definition from_dict `{Runtime} (data : pyval) : outcome t :=
  id ← getitem data "id" ≫= UUID_of;
  tenant_id ← getitem data "tenant_id";
  goal ← getitem data "goal";
  time_horizon ← getitem data "time_horizon";
  stakes ← getitem data "stakes";
  observations ←
    getitem data "observations"
      ≫= list_comprehension Observation.from_dict;
  candidate_actions ←
    getitem data "candidate_actions"
      ≫= list_comprehension ActionSpec.from_dict;
  context ← get data "context" (PDict []);
  created_at ← getitem data "created_at" ≫= fromisoformat;
  Returns {| id := id; tenant_id := tenant_id; goal := goal;
             time_horizon := time_horizon; stakes := stakes;
             observations := observations;
             candidate_actions := candidate_actions;
             context := context; created_at := created_at |}.
End Situation.

Module Assessment.
Record t : Type := {
  situation_id : UUID;
  agent_type : pyval;
  claim : pyval;
  support : list UUID;
  confidence : pyval;
  severity : pyval;
  reversibility : pyval;
  is_hard_constraint : pyval;
  id : UUID;
  action_id : option UUID;
  recommended_tests : pyval;
  created_at : datetime
}.

(** A [UUID] object is always true, so [if self.action_id] tests for
    [None]. *)
Definition to_dict `{Runtime} (self : t) : pyval :=
  PDict [ ("id", PStr (uuid_str (id self)));
          ("situation_id", PStr (uuid_str (situation_id self)));
          ("agent_type", agent_type self);
          ("claim", claim self);
          ("support", PList ((λ s, PStr (uuid_str s)) <$> support self));
          ("confidence", confidence self);
          ("severity", severity self);
          ("reversibility", reversibility self);
          ("is_hard_constraint", is_hard_constraint self);
          ("action_id",
           match action_id self with
           | Some u => PStr (uuid_str u)
           | None => PNone
           end);
          ("recommended_tests", recommended_tests self);
          ("created_at", PStr (isoformat (created_at self))) ].

Definition from_dict `{Runtime} (data : pyval) : outcome t :=
  id ← getitem data "id" ≫= UUID_of;
  situation_id ← getitem data "situation_id" ≫= UUID_of;
  agent_type ← getitem data "agent_type";
  claim ← getitem data "claim";
  support ← getitem data "support" ≫= list_comprehension UUID_of;
  confidence ← getitem data "confidence";
  severity ← getitem data "severity";
  reversibility ← getitem data "reversibility";
  is_hard_constraint ← getitem data "is_hard_constraint";
  action_id ←
    (present ← get data "action_id" PNone;
     if truthy present
     then u ← getitem data "action_id" ≫= UUID_of; Returns (Some u)
     else Returns None);
  recommended_tests ← get data "recommended_tests" (PList []);
  created_at ← getitem data "created_at" ≫= fromisoformat;
  Returns {| id := id; situation_id := situation_id;
             agent_type := agent_type; claim := claim; support := support;
             confidence := confidence; severity := severity;
             reversibility := reversibility;
             is_hard_constraint := is_hard_constraint;
             action_id := action_id;
             recommended_tests := recommended_tests;
             created_at := created_at |}.
End Assessment.

Module MonitoringTrigger.
Record t : Type := {
  condition : pyval;
  action_on_trigger : pyval
}.

Definition to_dict (self : t) : pyval :=
  PDict [ ("condition", condition self);
          ("action_on_trigger", action_on_trigger self) ].

Definition from_dict (data : pyval) : outcome t :=
  condition ← getitem data "condition";
  action_on_trigger ← getitem data "action_on_trigger";
  Returns {| condition := condition;
             action_on_trigger := action_on_trigger |}.
End MonitoringTrigger.

Module Decision.
Record t : Type := {
  situation_id : UUID;
  tenant_id : pyval;
  selected_action : ActionSpec.t;
  alternatives_considered : list ActionSpec.t;
  robustness_basis : pyval;
  assessments_used : list UUID;
  monitoring : list MonitoringTrigger.t;
  id : UUID;
  created_at : datetime
}.

Definition to_dict `{Runtime} (self : t) : pyval :=
  PDict [ ("id", PStr (uuid_str (id self)));
          ("situation_id", PStr (uuid_str (situation_id self)));
          ("tenant_id", tenant_id self);
          ("selected_action", ActionSpec.to_dict (selected_action self));
          ("alternatives_considered",
           PList (ActionSpec.to_dict <$> alternatives_considered self));
          ("robustness_basis", robustness_basis self);
          ("assessments_used",
           PList ((λ a, PStr (uuid_str a)) <$> assessments_used self));
          ("monitoring",
           PList (MonitoringTrigger.to_dict <$> monitoring self));
          ("created_at", PStr (isoformat (created_at self))) ].

Definition from_dict `{Runtime} (data : pyval) : outcome t :=
  id ← getitem data "id" ≫= UUID_of;
  situation_id ← getitem data "situation_id" ≫= UUID_of;
  tenant_id ← getitem data "tenant_id";
  selected_action ← getitem data "selected_action" ≫= ActionSpec.from_dict;
  alternatives_considered ←
    getitem data "alternatives_considered"
      ≫= list_comprehension ActionSpec.from_dict;
  robustness_basis ← getitem data "robustness_basis";
  assessments_used ←
    getitem data "assessments_used" ≫= list_comprehension UUID_of;
  monitoring ←
    getitem data "monitoring"
      ≫= list_comprehension MonitoringTrigger.from_dict;
  created_at ← getitem data "created_at" ≫= fromisoformat;
  Returns {| id := id; situation_id := situation_id; tenant_id := tenant_id;
             selected_action := selected_action;
             alternatives_considered := alternatives_considered;
             robustness_basis := robustness_basis;
             assessments_used := assessments_used;
             monitoring := monitoring; created_at := created_at |}.
End Decision.

End types.

(** ASCII lower-casing, the restriction of [str.lower] to ASCII text. *)
Definition ascii_lower_char (c : ascii) : ascii :=
  let n := nat_of_ascii c in
  if (65 <=? n)%nat && (n <=? 90)%nat then ascii_of_nat (n + 32) else c.

Fixpoint ascii_lower (s : string) : string :=
  match s with
  | EmptyString => EmptyString
  | String c rest => String (ascii_lower_char c) (ascii_lower rest)
  end.

(** ** Statements of the synthesis properties *)

(** An action id is hard-constrained by an assessment list when some
    assessment of the list is a hard constraint naming that id. *)
Definition hard_constrained (assessments : list Assessment.t) (aid : UUID)
  : Prop :=
  Exists (λ x, Assessment.is_hard_constraint x = true
               ∧ Assessment.action_id x = Some aid) assessments.

#[global] Instance hard_constrained_dec assessments aid :
  Decision (hard_constrained assessments aid).
Proof. unfold hard_constrained. apply _. Defined.

(** The scoring formula in the words of the specification. *)
Definition spec_reversibility_score (reversibility : string) : Q :=
  if decide (reversibility = "reversible") then 1.0
  else if decide (reversibility = "costly") then 0.5
  else if decide (reversibility = "irreversible") then 0.0
  else 0.5.


(** An assessment is a warning for an action when it is not a hard
    constraint and names the action's id. *)
Definition is_warning_for (action : ActionSpec.t) (a : Assessment.t) : bool :=
  negb (Assessment.is_hard_constraint a)
  && bool_decide (Assessment.action_id a = Some (ActionSpec.id action)).



(** The trigger that monitoring derives from an assessment. *)
Definition alert_trigger (a : Assessment.t) : MonitoringTrigger.t :=
  {| MonitoringTrigger.condition := "Monitor: " +:+ Assessment.claim a;
     MonitoringTrigger.action_on_trigger := "alert" |}.

Definition needs_monitoring (a : Assessment.t) : bool :=
  negb (Assessment.is_hard_constraint a)
  && bool_decide (Assessment.severity a = "high").

(** A situation bears a deadline when the lower-cased content of one of
    its observations contains a deadline keyword. *)
Definition deadline_bearing (lower : string → string)
    (situation : Situation.t) : Prop :=
  ∃ obs kw, obs ∈ Situation.observations situation
            ∧ kw ∈ DEADLINE_KEYWORDS
            ∧ str_contains kw (lower (Observation.content obs)) = true.

Definition is_flexible (action : ActionSpec.t) : bool :=
  bool_decide (ActionSpec.time_sensitivity action = Some "flexible").

(** The hard constraints among a list of assessments. *)
Definition hard_constraints_of (assessments : list Assessment.t)
  : list Assessment.t :=
  List.filter Assessment.is_hard_constraint assessments.

(** The fields of a deadline constraint. *)
Definition deadline_constraint_shape (situation : Situation.t)
    (x : Assessment.t) : Prop :=
  Assessment.is_hard_constraint x = true
  ∧ Assessment.severity x = "high"
  ∧ Assessment.confidence x = "high"
  ∧ Assessment.support x
    = map Observation.id (Situation.observations situation).

(** An assessment about the situation as a whole: it names no action
    and is not a hard constraint. *)
Definition about_situation (x : Assessment.t) : Prop :=
  Assessment.action_id x = None ∧ Assessment.is_hard_constraint x = false.

(** The warnings of an action among a list of assessments, in the order
    of the list. *)
Definition warnings_for (action : ActionSpec.t)
    (assessments : list Assessment.t) : list Assessment.t :=
  List.filter (is_warning_for action) assessments.


(** The position that [l.index(x)] returns when [x] occurs in [l]. *)
Definition first_index {A} `{EqDecision A} (l : list A) (x : A) : nat :=
  match list_index l x with
  | Ok i => i
  | Raise _ => 0%nat
  end.

(** The decision that [synthesize] builds around a selected action and
    a basis. *)
Definition decision_of (e : Entropy) (n : nat) (situation : Situation.t)
    (assessments : list Assessment.t) (selected_action : ActionSpec.t)
    (robustness_basis : string) : Decision.t :=
  {| Decision.situation_id := Situation.id situation;
     Decision.tenant_id := Situation.tenant_id situation;
     Decision.selected_action := selected_action;
     Decision.alternatives_considered :=
       List.filter
         (λ a, bool_decide (ActionSpec.id a ≠ ActionSpec.id selected_action))
         (Situation.candidate_actions situation);
     Decision.robustness_basis := robustness_basis;
     Decision.assessments_used := map Assessment.id assessments;
     Decision.monitoring := generate_monitoring assessments;
     Decision.id := uuid4 e n;
     Decision.created_at := utc_now e n |}.

Definition passed_basis {R} `{PyFloat R} (a : ActionSpec.t) (score : R)
  : string :=
  "Passed all hard constraints. "
  +:+ "Selected '" +:+ ActionSpec.name a
  +:+ "' with robustness score " +:+ format_2f score +:+ ". "
  +:+ "Action is " +:+ ActionSpec.reversibility a +:+ ".".

Definition fallback_basis (a : ActionSpec.t) : string :=
  "No action passed all hard constraints. "
  +:+ "Selected '" +:+ ActionSpec.name a
  +:+ "' as most reversible fallback option.".

(** The severity that [StabilityAgent] gives to a reversibility. *)
Definition stability_severity (reversibility : string) : string :=
  if decide (reversibility = "irreversible") then "high"
  else if decide (reversibility = "costly") then "medium"
  else "low".

(** The reversibility that [StabilityAgent] restates. *)
Definition stability_class (reversibility : string) : string :=
  if decide (reversibility = "irreversible") then "irreversible"
  else if decide (reversibility = "costly") then "costly"
  else "reversible".

(** The assessments of a list that are not hard constraints. *)
Definition soft_assessments_of (assessments : list Assessment.t)
  : list Assessment.t :=
  List.filter (λ x, negb (Assessment.is_hard_constraint x)) assessments.

Definition is_irreversible (action : ActionSpec.t) : bool :=
  bool_decide (ActionSpec.reversibility action = "irreversible").

Definition stakes_high_or_medium (situation : Situation.t) : bool :=
  bool_decide (Situation.stakes situation = "high")
  || bool_decide (Situation.stakes situation = "medium").

Definition is_low_reliability (obs : Observation.t) : bool :=
  bool_decide (Observation.reliability obs = "low").

(** An observation leans one way when its lower-cased content holds a
    keyword of that direction and none of the other. *)
Definition increase_leaning (lower : string → string) (obs : Observation.t)
  : bool :=
  any_keyword_in INCREASE_KEYWORDS (lower (Observation.content obs))
  && negb (any_keyword_in DECREASE_KEYWORDS (lower (Observation.content obs))).

Definition decrease_leaning (lower : string → string) (obs : Observation.t)
  : bool :=
  any_keyword_in DECREASE_KEYWORDS (lower (Observation.content obs))
  && negb (any_keyword_in INCREASE_KEYWORDS (lower (Observation.content obs))).

(** The fields of a warning of [ConstraintAgent]. *)
Definition constraint_warning_shape (situation : Situation.t)
    (x : Assessment.t) : Prop :=
  Assessment.severity x = Situation.stakes situation
  ∧ Assessment.confidence x = Situation.stakes situation
  ∧ Assessment.support x = []
  ∧ Assessment.agent_type x = "constraint".

(** What an assessment says, leaving out its id and its time stamp. *)
Definition assessment_summary (x : Assessment.t)
  : string * string * list UUID * list string :=
  (Assessment.claim x, Assessment.severity x, Assessment.support x,
   Assessment.recommended_tests x).

(** The three checks of [RealityCheckAgent.assess], as summaries. *)
Definition low_reliability_summaries (situation : Situation.t)
  : list (string * string * list UUID * list string) :=
  if stakes_high_or_medium situation then
    map (λ obs,
           ("Low reliability source '" +:+ Observation.source obs
            +:+ "' informing " +:+ Situation.stakes situation
            +:+ "-stakes decision",
            if bool_decide (Situation.stakes situation = "high")
            then "high" else "medium",
            [Observation.id obs],
            ["Verify information from " +:+ Observation.source obs]))
        (List.filter is_low_reliability (Situation.observations situation))
  else [].

Definition conflict_summaries (lower : string → string)
    (situation : Situation.t)
  : list (string * string * list UUID * list string) :=
  map (λ p : Observation.t * Observation.t,
         ("Conflicting observations: '" +:+ Observation.source (fst p)
          +:+ "' vs '" +:+ Observation.source (snd p) +:+ "'",
          "medium",
          [Observation.id (fst p); Observation.id (snd p)],
          ["Gather additional data to resolve conflict"]))
      (list_prod
         (List.filter (increase_leaning lower)
                      (Situation.observations situation))
         (List.filter (decrease_leaning lower)
                      (Situation.observations situation))).

Definition missing_information_summaries (situation : Situation.t)
  : list (string * string * list UUID * list string) :=
  match Situation.observations situation,
        Situation.candidate_actions situation with
  | [], _ :: _ =>
      [("No observations available to inform decision", "medium", [],
        ["Gather relevant observations before deciding"])]
  | _, _ => []
  end.

(** The ids of an evaluator run that started after [n] draws are the
    draws [n], [n + 1], ... in the order of emission. *)
Definition fresh_ids (e : Entropy) (n : nat) (out : emitted) : Prop :=
  map Assessment.id (fst out) = map (uuid4 e) (seq n (length (fst out)))
  ∧ snd out = (n + length (fst out))%nat.

(** The assessments that reach the synthesis node: the outputs of the
    three evaluators, concatenated in the order of the graph, with the
    number of draws made. *)
Definition pipeline_assessments (lower : string → string) (e : Entropy)
    (n : nat) (situation : Situation.t) : emitted :=
  let c := ConstraintAgent_assess lower e n situation in
  let s := StabilityAgent_assess e (snd c) situation in
  let r := RealityCheckAgent_assess lower e (snd s) situation in
  ((fst c ++ fst s ++ fst r)%list, snd r).

(** The number of draws made before [decide] builds the first action. *)
Definition action_draws_from (n : nat) (request : routes.SituationRequest.t)
  : nat :=
  (n + length (routes.SituationRequest.observations request))%nat.

(** The response model of the [i]-th requested action. *)
Definition requested_action_response (e : Entropy) (uuid_str : UUID → string)
    (n : nat) (request : routes.SituationRequest.t) (i : nat)
    (a : routes.ActionSpecRequest.t) : routes.ActionSpecResponse.t :=
  routes.action_spec_response uuid_str
    (routes._action_spec_from_request e (action_draws_from n request + i) a).

(** Some requested observation holds a deadline keyword. *)
Definition request_deadline_bearing (lower : string → string)
    (request : routes.SituationRequest.t) : Prop :=
  ∃ o kw, o ∈ routes.SituationRequest.observations request
          ∧ kw ∈ DEADLINE_KEYWORDS
          ∧ str_contains kw (lower (routes.ObservationRequest.content o))
            = true.

(** The dict without one of its keys. *)
Definition without_key (key : string) (data : types.pyval) : types.pyval :=
  match data with
  | types.PDict d =>
      types.PDict (List.filter (λ kv, negb (String.eqb (fst kv) key)) d)
  | other => other
  end.

(** The keys of a dict, in its order. *)
Definition keys_of (data : types.pyval) : list string :=
  match data with
  | types.PDict d => map fst d
  | _ => []
  end.

(** ** Sample data *)

Definition sample_action (name reversibility : string) (id : UUID)
    (time_sensitivity : option string) : ActionSpec.t :=
  {| ActionSpec.name := name;
     ActionSpec.description := name;
     ActionSpec.reversibility := reversibility;
     ActionSpec.id := id;
     ActionSpec.time_sensitivity := time_sensitivity |}.

Definition sample_assessment (id : UUID) (action_id : option UUID)
    (is_hard_constraint : bool) (severity : string) : Assessment.t :=
  {| Assessment.situation_id := 100%N;
     Assessment.agent_type := "constraint";
     Assessment.claim := "Test assessment";
     Assessment.support := [];
     Assessment.confidence := "medium";
     Assessment.severity := severity;
     Assessment.reversibility := "reversible";
     Assessment.is_hard_constraint := is_hard_constraint;
     Assessment.id := id;
     Assessment.action_id := action_id;
     Assessment.recommended_tests := [];
     Assessment.created_at := 0%Z |}.

Definition sample_situation (observations : list Observation.t)
    (actions : list ActionSpec.t) (stakes : string) : Situation.t :=
  {| Situation.tenant_id := "test-tenant";
     Situation.goal := "Test goal";
     Situation.time_horizon := "near";
     Situation.stakes := stakes;
     Situation.observations := observations;
     Situation.candidate_actions := actions;
     Situation.id := 100%N;
     Situation.context := ∅;
     Situation.created_at := 0%Z |}.

Definition sample_entropy : Entropy :=
  {| uuid4 := λ n, N.of_nat (1000 + n); utc_now := λ n, Z.of_nat n |}.

Definition action_A : ActionSpec.t := sample_action "A" "costly" 1%N None.
Definition action_B : ActionSpec.t := sample_action "B" "costly" 2%N None.

(** Every candidate is hard-constrained: the fallback applies. *)
Definition fallback_situation : Situation.t :=
  sample_situation []
    [ sample_action "Irreversible" "irreversible" 1%N None;
      sample_action "Reversible" "reversible" 2%N None ]
    "medium".

Definition fallback_assessments : list Assessment.t :=
  [ sample_assessment 10%N (Some 1%N) true "medium";
    sample_assessment 11%N (Some 2%N) true "medium" ].

(** Two costly candidates with the same three warnings, listed in
    different orders. *)
Definition order_situation : Situation.t :=
  sample_situation [] [action_A; action_B] "medium".

Definition order_assessments : list Assessment.t :=
  [ sample_assessment 10%N (Some 1%N) false "low";
    sample_assessment 11%N (Some 1%N) false "medium";
    sample_assessment 12%N (Some 1%N) false "high";
    sample_assessment 13%N (Some 2%N) false "high";
    sample_assessment 14%N (Some 2%N) false "medium";
    sample_assessment 15%N (Some 2%N) false "low" ].

(** The decision of the fallback sample. *)
Definition fallback_decision : Decision.t :=
  decision_of sample_entropy 0 fallback_situation fallback_assessments
    (sample_action "Reversible" "reversible" 2%N None)
    (fallback_basis (sample_action "Reversible" "reversible" 2%N None)).


(** A deadline, a flexible candidate and an immediate one. *)
Definition deadline_situation : Situation.t :=
  sample_situation
    [ {| Observation.content := "Deadline is Friday";
         Observation.source := "manager";
         Observation.reliability := "high";
         Observation.id := 50%N;
         Observation.timestamp := 0%Z |} ]
    [ sample_action "Flexible" "reversible" 1%N (Some "flexible");
      sample_action "Immediate" "reversible" 2%N (Some "immediate") ]
    "high".

(** A request for the route: a deadline and two actions. *)
Definition sample_request : routes.SituationRequest.t :=
  {| routes.SituationRequest.tenant_id := "test-tenant";
     routes.SituationRequest.goal := "Test goal";
     routes.SituationRequest.time_horizon := "near";
     routes.SituationRequest.stakes := "high";
     routes.SituationRequest.observations :=
       [ {| routes.ObservationRequest.content := "Deadline is Friday";
            routes.ObservationRequest.source := "manager";
            routes.ObservationRequest.reliability := "high" |} ];
     routes.SituationRequest.candidate_actions :=
       [ {| routes.ActionSpecRequest.name := "Flexible";
            routes.ActionSpecRequest.description := "Flexible";
            routes.ActionSpecRequest.reversibility := "reversible";
            routes.ActionSpecRequest.time_sensitivity := Some "flexible" |};
         {| routes.ActionSpecRequest.name := "Immediate";
            routes.ActionSpecRequest.description := "Immediate";
            routes.ActionSpecRequest.reversibility := "reversible";
            routes.ActionSpecRequest.time_sensitivity := Some "immediate" |} ];
     routes.SituationRequest.context := ∅ |}.

Definition sample_uuid_str (u : UUID) : string := pretty u.
Definition sample_isoformat (t : datetime) : string := pretty t.

(** A stand-in for the standard library's renderings: a tag and the
    number in unary. *)
Fixpoint unary (n : nat) : string :=
  match n with
  | O => ""
  | S n => String "1" (unary n)
  end.

Definition sample_runtime : types.Runtime :=
  {| types.uuid_str := λ u, String "u" (unary (N.to_nat u));
     types.UUID_of := λ v,
       match v with
       | types.PStr (String "u" digits) =>
           types.Returns (N.of_nat (String.length digits))
       | types.PStr _ => types.Raises types.ValueError
       | _ => types.Raises types.AttributeError
       end;
     types.isoformat := λ t,
       String (if (t <? 0)%Z then "-" else "+") (unary (Z.abs_nat t));
     types.fromisoformat := λ v,
       match v with
       | types.PStr (String "+" digits) =>
           types.Returns (Z.of_nat (String.length digits))
       | types.PStr (String "-" digits) =>
           types.Returns (- Z.of_nat (String.length digits))%Z
       | types.PStr _ => types.Raises types.ValueError
       | _ => types.Raises types.TypeError
       end;
     types.str_chars := λ s, (λ c, String c "") <$> list_ascii_of_string s |}.

Definition sample_observation_object : types.Observation.t :=
  {| types.Observation.content := types.PStr "Deadline is Friday";
     types.Observation.source := types.PStr "manager";
     types.Observation.reliability := types.PStr "high";
     types.Observation.id := 5%N;
     types.Observation.timestamp := 7%Z |}.

Definition sample_action_object (id : UUID) : types.ActionSpec.t :=
  {| types.ActionSpec.name := types.PStr "Immediate";
     types.ActionSpec.description := types.PStr "Act now";
     types.ActionSpec.reversibility := types.PStr "reversible";
     types.ActionSpec.id := id;
     types.ActionSpec.time_sensitivity := types.PNone |}.

Definition sample_trigger_object : types.MonitoringTrigger.t :=
  {| types.MonitoringTrigger.condition := types.PStr "Monitor: risk";
     types.MonitoringTrigger.action_on_trigger := types.PStr "alert" |}.

Definition sample_assessment_object : types.Assessment.t :=
  {| types.Assessment.situation_id := 3%N;
     types.Assessment.agent_type := types.PStr "constraint";
     types.Assessment.claim := types.PStr "May miss deadline";
     types.Assessment.support := [5%N];
     types.Assessment.confidence := types.PStr "high";
     types.Assessment.severity := types.PStr "high";
     types.Assessment.reversibility := types.PStr "irreversible";
     types.Assessment.is_hard_constraint := types.PBool true;
     types.Assessment.id := 4%N;
     types.Assessment.action_id := Some 1%N;
     types.Assessment.recommended_tests := types.PList [];
     types.Assessment.created_at := 8%Z |}.

Definition sample_situation_object : types.Situation.t :=
  {| types.Situation.tenant_id := types.PStr "test-tenant";
     types.Situation.goal := types.PStr "Test goal";
     types.Situation.time_horizon := types.PStr "near";
     types.Situation.stakes := types.PStr "high";
     types.Situation.observations := [sample_observation_object];
     types.Situation.candidate_actions :=
       [sample_action_object 1%N; sample_action_object 2%N];
     types.Situation.id := 3%N;
     types.Situation.context :=
       types.PDict [("attempt", types.PInt 2%Z)];
     types.Situation.created_at := (-2)%Z |}.

Definition sample_decision_object : types.Decision.t :=
  {| types.Decision.situation_id := 3%N;
     types.Decision.tenant_id := types.PStr "test-tenant";
     types.Decision.selected_action := sample_action_object 1%N;
     types.Decision.alternatives_considered := [sample_action_object 2%N];
     types.Decision.robustness_basis := types.PStr "Passed";
     types.Decision.assessments_used := [4%N];
     types.Decision.monitoring := [sample_trigger_object];
     types.Decision.id := 6%N;
     types.Decision.created_at := 9%Z |}.

(** * Proofs *)

(** ** Constraint filtering *)

Lemma violated_ids_spec (assessments : list Assessment.t) (aid : UUID) :
  aid ∈ (list_to_set
           (omap (λ a, if Assessment.is_hard_constraint a
                       then Assessment.action_id a else None)
                 assessments) : gset UUID)
  ↔ hard_constrained assessments aid.
Proof.
  rewrite elem_of_list_to_set, list_elem_of_omap.
  unfold hard_constrained. rewrite Exists_exists.
  split.
  - intros (x & Hx & Hf). exists x.
    destruct (Assessment.is_hard_constraint x); [|discriminate]. auto.
  - intros (x & Hx & Hh & Ha). exists x. rewrite Hh. auto.
Qed.

(** C2. [filter_by_constraints] keeps exactly the actions whose id is not
    the [action_id] of a hard-constraint assessment, in the order of the
    input list. *)
Theorem filter_by_constraints_exact
    (actions : list ActionSpec.t) (assessments : list Assessment.t) :
  filter_by_constraints actions assessments =
  List.filter
    (λ action, bool_decide (¬ hard_constrained assessments (ActionSpec.id action)))
    actions.
Proof.
  unfold filter_by_constraints. apply List.filter_ext. intros a.
  apply bool_decide_ext. now rewrite violated_ids_spec.
Qed.

(** ** Monitoring *)

Lemma generate_monitoring_from (acc : list MonitoringTrigger.t)
    (assessments : list Assessment.t) :
  foldl
    (λ triggers assessment,
       if negb (Assessment.is_hard_constraint assessment)
          && bool_decide (Assessment.severity assessment = "high")
       then (triggers ++
            [ {| MonitoringTrigger.condition :=
                   "Monitor: " +:+ Assessment.claim assessment;
                 MonitoringTrigger.action_on_trigger := "alert" |} ])%list
       else triggers)
    acc assessments
  = (acc ++ map alert_trigger (List.filter needs_monitoring assessments))%list.
Proof.
  revert acc. induction assessments as [|a l IH]; intros acc; simpl.
  - now rewrite app_nil_r.
  - rewrite IH. unfold needs_monitoring at 2.
    destruct (negb (Assessment.is_hard_constraint a)
              && bool_decide (Assessment.severity a = "high")); simpl.
    + now rewrite <- app_assoc.
    + reflexivity.
Qed.

(** C7. [generate_monitoring] emits one trigger, with
    [action_on_trigger = "alert"], for each assessment that is not a hard
    constraint and has severity "high", in the order of the list, and
    nothing for any other assessment. *)
Theorem generate_monitoring_exact (assessments : list Assessment.t) :
  generate_monitoring assessments
  = map alert_trigger (List.filter needs_monitoring assessments)
  ∧ Forall (λ t, MonitoringTrigger.action_on_trigger t = "alert")
           (generate_monitoring assessments)
  ∧ length (generate_monitoring assessments)
    = length (List.filter needs_monitoring assessments).
Proof.
  assert (Heq : generate_monitoring assessments
                = map alert_trigger (List.filter needs_monitoring assessments)).
  { unfold generate_monitoring. now rewrite generate_monitoring_from. }
  rewrite Heq. split; [reflexivity|]. split.
  - apply Forall_map. now apply Forall_true.
  - now rewrite length_map.
Qed.

(** ** Empty candidate lists *)

(** C4. [synthesize] raises [ValueError] when the situation has no
    candidate action (the filter leaves nothing, and the fallback refuses
    the empty list); [select_action] raises [ValueError] on an empty
    list. *)
Theorem synthesize_empty_raises {R} `{PyFloat R}
    (e : Entropy) (n : nat) (situation : Situation.t)
    (assessments : list Assessment.t) :
  Situation.candidate_actions situation = [] →
  synthesize (R:=R) e n situation assessments
  = Raise (ValueError "Cannot find most reversible from empty list")
  ∧ select_action (R:=R) [] assessments
    = Raise (ValueError "Cannot select from empty action list").
Proof.
  intros Hempty. split; [|reflexivity].
  unfold synthesize. rewrite Hempty. reflexivity.
Qed.

Lemma synthesize_empty_raises_witness :
  synthesize (R:=Q) sample_entropy 0 (sample_situation [] [] "medium")
             [sample_assessment 10%N (Some 1%N) true "high"]
  = Raise (ValueError "Cannot find most reversible from empty list")
  ∧ select_action (R:=Q) [] [sample_assessment 10%N (Some 1%N) true "high"]
    = Raise (ValueError "Cannot select from empty action list").
Proof.
  apply (synthesize_empty_raises sample_entropy 0
           (sample_situation [] [] "medium")).
  reflexivity.
Defined.

(** ** Robustness score on exact arithmetic *)

Lemma rev_score_exact (r : string) :
  dict_get (R:=Q) REVERSIBILITY_SCORES r (float_lit 0.5) = spec_reversibility_score r.
Proof.
  unfold dict_get, REVERSIBILITY_SCORES, spec_reversibility_score.
  rewrite !lookup_insert, lookup_singleton.
  repeat case_decide; subst; simpl; congruence.
Qed.















(** ** The stable sort *)

Section StableSort.
Context {K A : Type} (lt : K → K → bool).
Hypothesis lt_irrefl : ∀ a, lt a a = false.
Hypothesis lt_asym : ∀ a b, lt a b = true → lt b a = false.
Hypothesis lt_negtrans : ∀ a b c, lt a b = false → lt b c = false → lt a c = false.

Lemma insert_sorted_cases (x : K * A) (s : list (K * A)) :
  (Forall (λ y, lt (fst y) (fst x) = true) s
   ∧ insert_sorted lt x s = (s ++ [x])%list)
  ∨ (∃ s1 y s2, s = (s1 ++ y :: s2)%list
                ∧ lt (fst y) (fst x) = false
                ∧ insert_sorted lt x s = (s1 ++ x :: y :: s2)%list).
Proof.
  induction s as [|y s IH]; simpl.
  - left. split; [constructor|reflexivity].
  - destruct (lt (fst y) (fst x)) eqn:Hyx.
    + destruct IH as [[Hall Heq]|(s1 & z & s2 & Hs & Hz & Heq)].
      * left. split; [now constructor|now rewrite Heq].
      * right. exists (y :: s1), z, s2. subst s. simpl. now rewrite Heq.
    + right. exists [], y, s. auto.
Qed.

Lemma elem_of_insert_sorted (x y : K * A) (s : list (K * A)) :
  y ∈ insert_sorted lt x s ↔ y = x ∨ y ∈ s.
Proof.
  destruct (insert_sorted_cases x s)
    as [[_ ->]|(s1 & z & s2 & -> & _ & ->)];
    rewrite ?elem_of_app, ?elem_of_cons, ?elem_of_app, ?elem_of_cons,
            ?elem_of_nil; tauto.
Qed.

Lemma elem_of_stable_sort (y : K * A) (l : list (K * A)) :
  y ∈ stable_sort lt l ↔ y ∈ l.
Proof.
  induction l as [|x l IH]; simpl; [reflexivity|].
  rewrite elem_of_insert_sorted, elem_of_cons, IH. reflexivity.
Qed.


(** The last element of the sorted list is the last greatest element of
    the input: nothing before it is greater, everything after it is
    smaller. *)
Lemma stable_sort_last (l : list (K * A)) :
  l ≠ [] →
  ∃ front l1 m l2,
    stable_sort lt l = (front ++ [m])%list
    ∧ l = (l1 ++ m :: l2)%list
    ∧ Forall (λ y, lt (fst m) (fst y) = false) l1
    ∧ Forall (λ y, lt (fst y) (fst m) = true) l2.
Proof.
  induction l as [|x l IH]; [congruence|]. intros _. simpl.
  destruct l as [|x' l'].
  - exists [], [], x, []. simpl. repeat split; constructor.
  - destruct IH as (front & l1 & m & l2 & Hs & Hl & H1 & H2); [congruence|].
    destruct (insert_sorted_cases x (stable_sort lt (x' :: l')))
      as [[Hall Heq]|(s1 & z & s2 & Hsplit & Hz & Heq)].
    + exists (stable_sort lt (x' :: l')), [], x, (x' :: l').
      split; [exact Heq|]. split; [reflexivity|]. split; [constructor|].
      apply Forall_forall. intros y Hy.
      rewrite Forall_forall in Hall. apply Hall.
      now apply elem_of_stable_sort.
    + assert (Hmax : ∀ y, y ∈ x' :: l' → lt (fst m) (fst y) = false).
      { intros y Hy. rewrite Hl in Hy.
        apply elem_of_app in Hy as [Hy|Hy].
        - rewrite Forall_forall in H1. now apply H1.
        - apply elem_of_cons in Hy as [->|Hy]; [apply lt_irrefl|].
          rewrite Forall_forall in H2. apply lt_asym. now apply H2. }
      assert (Hzin : z ∈ x' :: l').
      { apply elem_of_stable_sort. rewrite Hsplit.
        apply elem_of_app. right. left. }
      assert (Hmx : lt (fst m) (fst x) = false).
      { apply (lt_negtrans _ (fst z)); [now apply Hmax|assumption]. }
      rewrite Heq.
      assert (Hlast : ∃ front', (s1 ++ x :: z :: s2)%list = (front' ++ [m])%list).
      { rewrite Hs in Hsplit.
        destruct (@exists_last _ (z :: s2)) as (s2' & w & Hw); [discriminate|].  
        rewrite Hw in Hsplit |- *.
        rewrite app_assoc in Hsplit.
        apply app_inj_tail in Hsplit as [_ <-].
        exists (s1 ++ x :: s2')%list. now rewrite <- app_assoc. }
      destruct Hlast as (front' & Hfront').
      exists front', (x :: l1), m, l2.
      split; [exact Hfront'|]. split; [now rewrite Hl|].
      split; [now constructor|assumption].
Qed.

(** [sorted(..., reverse=True)] starts with the first greatest element
    of the input. *)
Lemma sorted_reverse_first (key : A → K) (l : list A) :
  l ≠ [] →
  ∃ rest l1 m l2,
    sorted_reverse lt key l = m :: rest
    ∧ l = (l1 ++ m :: l2)%list
    ∧ Forall (λ y, lt (key y) (key m) = true) l1
    ∧ Forall (λ y, lt (key m) (key y) = false) l2.
Proof.
  intros Hne. unfold sorted_reverse.
  set (keyed := map (λ a, (key a, a)) (rev l)).
  assert (Hsnd : map snd keyed = rev l).
  { unfold keyed. rewrite map_map. apply map_id. }
  assert (Hkne : keyed ≠ []).
  { intros Hk. rewrite Hk in Hsnd. simpl in Hsnd.
    apply (f_equal (@rev A)) in Hsnd. rewrite rev_involutive in Hsnd.
    now subst l. }
  destruct (stable_sort_last keyed Hkne)
    as (front & l1 & m & l2 & -> & Hk & H1 & H2).
  assert (Hfst : ∀ y, y ∈ keyed → fst y = key (snd y)).
  { intros y Hy. apply list_elem_of_fmap in Hy as (b & -> & _). reflexivity. }
  exists (map snd (rev front)), (rev (map snd l2)), (snd m), (rev (map snd l1)).
  split; [now rewrite rev_app_distr|]. split.
  - rewrite <- (rev_involutive l), <- Hsnd, Hk, map_app, rev_app_distr.
    simpl. now rewrite <- app_assoc.
  - rewrite <- (Hfst m) by (rewrite Hk; apply elem_of_app; right; left).
    split; apply Forall_forall; intros y Hy;
      apply list_elem_of_In, in_rev, list_elem_of_In, list_elem_of_fmap in Hy
        as (z & -> & Hz);
      (rewrite <- (Hfst z)
         by (rewrite Hk, elem_of_app, elem_of_cons; auto)).
    + rewrite Forall_forall in H2. now apply H2.
    + rewrite Forall_forall in H1. now apply H1.
Qed.

End StableSort.

(** ** Selection *)

Lemma list_index_elem {A} `{EqDecision A} (l : list A) (x : A) :
  x ∈ l →
  ∃ i, list_index l x = Ok i
       ∧ l !! i = Some x
       ∧ ∀ j, l !! j = Some x → (i <= j)%nat.
Proof.
  induction l as [|y l IH]; intros Hin.
  - now apply elem_of_nil in Hin.
  - simpl. destruct (decide (y = x)) as [->|Hne].
    + exists 0%nat. split; [reflexivity|]. split; [reflexivity|]. intros; lia.
    + apply elem_of_cons in Hin as [->|Hin]; [congruence|].
      destruct (IH Hin) as (i & Hi & Hlook & Hfirst).
      exists (S i). rewrite Hi. split; [reflexivity|]. split; [exact Hlook|].
      intros [|j] Hj; simpl in Hj; [congruence|].
      apply Hfirst in Hj. lia.
Qed.

Lemma first_index_elem {A} `{EqDecision A} (l : list A) (x : A) :
  x ∈ l →
  list_index l x = Ok (first_index l x)
  ∧ l !! first_index l x = Some x
  ∧ ∀ j, l !! j = Some x → (first_index l x <= j)%nat.
Proof.
  intros Hin. destruct (list_index_elem l x Hin) as (i & Hi & Hl & Hf).
  unfold first_index. rewrite Hi. auto.
Qed.

Lemma mapM_keyed {R} `{PyFloat R} (actions : list ActionSpec.t)
    (scored : list (ActionSpec.t * R)) :
  Forall (λ x, fst x ∈ actions) scored →
  mapM (λ x, i ← list_index actions (fst x); Ok ((fneg (snd x), i), x)) scored
  = Ok (map (λ x, ((fneg (snd x), first_index actions (fst x)), x)) scored).
Proof.
  induction 1 as [|x l Hx _ IH]; [reflexivity|].
  cbn [mapM]. destruct (first_index_elem actions (fst x) Hx) as (-> & _).
  cbn. rewrite IH. reflexivity.
Qed.








(** ** The fallback *)

Lemma Qlt_bool_true (x y : Q) : Qlt_bool x y = true ↔ (x < y)%Q.
Proof.
  unfold Qlt_bool. rewrite negb_true_iff, <- not_true_iff_false, Qle_bool_iff.
  split; [apply Qnot_le_lt|apply Qlt_not_le].
Qed.

Lemma Qlt_bool_false (x y : Q) : Qlt_bool x y = false ↔ (y <= x)%Q.
Proof.
  unfold Qlt_bool. rewrite negb_false_iff. apply Qle_bool_iff.
Qed.

Lemma Qlt_bool_irrefl (x : Q) : Qlt_bool x x = false.
Proof. apply Qlt_bool_false. lra. Qed.

Lemma Qlt_bool_asym (x y : Q) : Qlt_bool x y = true → Qlt_bool y x = false.
Proof. rewrite Qlt_bool_true, Qlt_bool_false. lra. Qed.

Lemma Qlt_bool_negtrans (x y z : Q) :
  Qlt_bool x y = false → Qlt_bool y z = false → Qlt_bool x z = false.
Proof. rewrite !Qlt_bool_false. lra. Qed.

Lemma filter_by_constraints_all_hard
    (actions : list ActionSpec.t) (assessments : list Assessment.t) :
  Forall (λ a, hard_constrained assessments (ActionSpec.id a)) actions →
  filter_by_constraints actions assessments = [].
Proof.
  intros Hall. unfold filter_by_constraints.
  induction Hall as [|a l Ha _ IH]; [reflexivity|]. simpl.
  rewrite bool_decide_eq_false_2; [exact IH|].
  intros Hnot. apply Hnot. now apply violated_ids_spec.
Qed.

Lemma find_most_reversible_first_max (actions : list ActionSpec.t) :
  actions ≠ [] →
  ∃ l1 m l2,
    _find_most_reversible (R:=Q) actions = Ok m
    ∧ actions = (l1 ++ m :: l2)%list
    ∧ Forall (λ b, (spec_reversibility_score (ActionSpec.reversibility b)
                    < spec_reversibility_score (ActionSpec.reversibility m))%Q)
             l1
    ∧ Forall (λ b, (spec_reversibility_score (ActionSpec.reversibility b)
                    <= spec_reversibility_score (ActionSpec.reversibility m))%Q)
             l2.
Proof.
  intros Hne. unfold _find_most_reversible.
  destruct actions as [|a0 rest] eqn:Hact; [congruence|]. rewrite <- Hact.
  assert (Hne' : actions ≠ []) by (rewrite Hact; discriminate).
  cbn [flt Exact].
  destruct (sorted_reverse_first Qlt_bool Qlt_bool_irrefl Qlt_bool_asym
              Qlt_bool_negtrans
              (λ a, dict_get REVERSIBILITY_SCORES (ActionSpec.reversibility a)
                             (float_lit 0.5))
              actions Hne')
    as (tl & l1 & m & l2 & -> & Hl & H1 & H2).
  exists l1, m, l2. split; [reflexivity|]. split; [exact Hl|].
  split; eapply Forall_impl; eauto; intros b Hb; cbn beta in Hb;
    rewrite !rev_score_exact in Hb.
  - now apply Qlt_bool_true in Hb.
  - now apply Qlt_bool_false in Hb.
Qed.

(** C3. On exact arithmetic, when the candidate list is not empty and
    every candidate is named by a hard constraint, [synthesize] returns a
    decision; its selected action has the greatest reversibility score
    (reversible 1.0, costly 0.5, irreversible 0.0, otherwise 0.5) among
    the candidates and is the first such candidate, and its
    [robustness_basis] says that no action passed all hard constraints. *)
Theorem synthesize_fallback_most_reversible
    (e : Entropy) (n : nat) (situation : Situation.t)
    (assessments : list Assessment.t) :
  Situation.candidate_actions situation ≠ [] →
  Forall (λ a, hard_constrained assessments (ActionSpec.id a))
         (Situation.candidate_actions situation) →
  ∃ (d : Decision.t) (i : nat),
    synthesize (R:=Q) e n situation assessments = Ok d
    ∧ Situation.candidate_actions situation !! i
      = Some (Decision.selected_action d)
    ∧ (∀ b, b ∈ Situation.candidate_actions situation →
         (spec_reversibility_score (ActionSpec.reversibility b)
          <= spec_reversibility_score
               (ActionSpec.reversibility (Decision.selected_action d)))%Q)
    ∧ (∀ j b, (j < i)%nat →
         Situation.candidate_actions situation !! j = Some b →
         (spec_reversibility_score (ActionSpec.reversibility b)
          < spec_reversibility_score
              (ActionSpec.reversibility (Decision.selected_action d)))%Q)
    ∧ Decision.robustness_basis d
      = "No action passed all hard constraints. "
        +:+ "Selected '" +:+ ActionSpec.name (Decision.selected_action d)
        +:+ "' as most reversible fallback option.".
Proof.
  intros Hne Hall. unfold synthesize.
  rewrite (filter_by_constraints_all_hard _ _ Hall).
  destruct (find_most_reversible_first_max _ Hne)
    as (l1 & m & l2 & -> & Hl & H1 & H2).
  cbn [mbind result_bind]. eexists _, (length l1).
  split; [reflexivity|]. cbn [Decision.selected_action Decision.robustness_basis].
  rewrite Hl. split; [|split; [|split]].
  - rewrite lookup_app_r, Nat.sub_diag by lia. reflexivity.
  - intros b Hb. apply elem_of_app in Hb as [Hb|Hb].
    + rewrite Forall_forall in H1. apply Qlt_le_weak. now apply H1.
    + apply elem_of_cons in Hb as [->|Hb]; [lra|].
      rewrite Forall_forall in H2. now apply H2.
  - intros j b Hj Hb. rewrite lookup_app_l in Hb by exact Hj.
    rewrite Forall_forall in H1. apply H1.
    eapply list_elem_of_lookup_2; eauto.
  - reflexivity.
Qed.

Lemma synthesize_fallback_most_reversible_witness :
  ∃ (d : Decision.t) (i : nat),
    synthesize (R:=Q) sample_entropy 0 fallback_situation fallback_assessments
    = Ok d
    ∧ Situation.candidate_actions fallback_situation !! i
      = Some (Decision.selected_action d)
    ∧ (∀ b, b ∈ Situation.candidate_actions fallback_situation →
         (spec_reversibility_score (ActionSpec.reversibility b)
          <= spec_reversibility_score
               (ActionSpec.reversibility (Decision.selected_action d)))%Q)
    ∧ (∀ j b, (j < i)%nat →
         Situation.candidate_actions fallback_situation !! j = Some b →
         (spec_reversibility_score (ActionSpec.reversibility b)
          < spec_reversibility_score
              (ActionSpec.reversibility (Decision.selected_action d)))%Q)
    ∧ Decision.robustness_basis d
      = "No action passed all hard constraints. "
        +:+ "Selected '" +:+ ActionSpec.name (Decision.selected_action d)
        +:+ "' as most reversible fallback option.".
Proof.
  apply (synthesize_fallback_most_reversible sample_entropy 0
           fallback_situation fallback_assessments).
  - discriminate.
  - constructor; [|constructor; [|constructor]].
    + apply Exists_cons_hd. split; reflexivity.
    + apply Exists_cons_tl, Exists_cons_hd. split; reflexivity.
Defined.

(** ** The constraint evaluator *)

Section ConstraintAgentProofs.
Context (lower : string → string) (e : Entropy).

Lemma any_keyword_in_spec (keywords : gset string) (text : string) :
  any_keyword_in keywords text = true
  ↔ ∃ kw, kw ∈ keywords ∧ str_contains kw text = true.
Proof.
  unfold any_keyword_in. rewrite existsb_exists.
  split; intros (kw & Hkw & Hc); exists kw; split; try assumption.
  - now apply elem_of_elements, list_elem_of_In.
  - now apply list_elem_of_In, elem_of_elements.
Qed.

Lemma has_deadline_indicator_spec (situation : Situation.t) :
  ConstraintAgent_has_deadline_indicator lower situation = true
  ↔ deadline_bearing lower situation.
Proof.
  unfold ConstraintAgent_has_deadline_indicator, deadline_bearing.
  rewrite existsb_exists. split.
  - intros (obs & Hobs & Hany). apply any_keyword_in_spec in Hany as (kw & ? & ?).
    exists obs, kw. split; [now apply list_elem_of_In|auto].
  - intros (obs & kw & Hobs & Hkw & Hc). exists obs.
    split; [now apply list_elem_of_In|]. apply any_keyword_in_spec. eauto.
Qed.

(** What one turn of the loop appends. *)
Lemma assess_action_step (situation : Situation.t) (has_deadline : bool)
    (st : emitted) (action : ActionSpec.t) :
  ∃ new,
    fst (ConstraintAgent_assess_action e situation has_deadline st action)
    = (fst st ++ new)%list
    ∧ map Assessment.action_id (hard_constraints_of new)
      = (if has_deadline && is_flexible action
         then [Some (ActionSpec.id action)] else [])
    ∧ Forall (deadline_constraint_shape situation) (hard_constraints_of new).
Proof.
  unfold ConstraintAgent_assess_action, is_flexible.
  destruct (has_deadline && bool_decide _) eqn:Hhard;
    destruct (bool_decide (ActionSpec.reversibility action = "irreversible")
              && bool_decide (Situation.stakes situation = "high"));
    [| destruct (bool_decide (ActionSpec.reversibility action = "irreversible")
                 && bool_decide (Situation.stakes situation = "medium")) | |
     destruct (bool_decide (ActionSpec.reversibility action = "irreversible")
               && bool_decide (Situation.stakes situation = "medium")) ];
    unfold emit; cbn [fst snd]; rewrite <- ?app_assoc;
    eexists; (split; [try reflexivity; now rewrite app_nil_r|]);
    cbn; (split; [reflexivity|]);
    repeat constructor.
Qed.

Lemma hard_constraints_of_app (l1 l2 : list Assessment.t) :
  hard_constraints_of (l1 ++ l2)
  = (hard_constraints_of l1 ++ hard_constraints_of l2)%list.
Proof. apply List.filter_app. Qed.

Lemma assess_loop (situation : Situation.t) (has_deadline : bool)
    (actions : list ActionSpec.t) (st : emitted) :
  ∃ new,
    fst (foldl (ConstraintAgent_assess_action e situation has_deadline)
               st actions)
    = (fst st ++ new)%list
    ∧ map Assessment.action_id (hard_constraints_of new)
      = (if has_deadline
         then map (λ a, Some (ActionSpec.id a)) (List.filter is_flexible actions)
         else [])
    ∧ Forall (deadline_constraint_shape situation) (hard_constraints_of new).
Proof.
  revert st. induction actions as [|a l IH]; intros st; simpl.
  - exists []. rewrite app_nil_r. split; [reflexivity|].
    split; [now destruct has_deadline|constructor].
  - destruct (assess_action_step situation has_deadline st a)
      as (new1 & Hst & Hids1 & Hshape1).
    destruct (IH (ConstraintAgent_assess_action e situation has_deadline st a))
      as (new2 & Hfold & Hids2 & Hshape2).
    exists (new1 ++ new2)%list. rewrite Hfold, Hst, <- app_assoc.
    split; [reflexivity|].
    rewrite hard_constraints_of_app, map_app, Hids1, Hids2.
    split; [|now apply Forall_app].
    destruct has_deadline; [|reflexivity]. simpl.
    now destruct (is_flexible a).
Qed.

End ConstraintAgentProofs.

(** C6. [ConstraintAgent.assess] emits its hard constraints exactly for
    the flexible candidates of a deadline-bearing situation: when some
    observation's lower-cased content contains a deadline keyword, the
    hard constraints name, one each and in order, the candidate actions
    whose [time_sensitivity] is "flexible"; otherwise there is none.
    Every hard constraint has severity and confidence "high" and cites the
    ids of all observations. *)
Theorem ConstraintAgent_hard_constraints
    (lower : string → string) (e : Entropy) (n : nat)
    (situation : Situation.t) :
  (deadline_bearing lower situation →
   map Assessment.action_id
       (hard_constraints_of (fst (ConstraintAgent_assess lower e n situation)))
   = map (λ a, Some (ActionSpec.id a))
         (List.filter is_flexible (Situation.candidate_actions situation)))
  ∧ (¬ deadline_bearing lower situation →
     hard_constraints_of (fst (ConstraintAgent_assess lower e n situation)) = [])
  ∧ Forall (deadline_constraint_shape situation)
           (hard_constraints_of
              (fst (ConstraintAgent_assess lower e n situation))).
Proof.
  unfold ConstraintAgent_assess.
  destruct (assess_loop e situation
              (ConstraintAgent_has_deadline_indicator lower situation)
              (Situation.candidate_actions situation) ([], n))
    as (new & -> & Hids & Hshape).
  cbn [fst app]. split; [|split; [|exact Hshape]].
  - intros Hd. apply has_deadline_indicator_spec in Hd.
    now rewrite Hd in Hids.
  - intros Hd. rewrite <- has_deadline_indicator_spec in Hd.
    apply not_true_is_false in Hd. rewrite Hd in Hids.
    now apply map_eq_nil in Hids.
Qed.

(** ** The reality-check evaluator *)

Lemma emit_Forall (P : Assessment.t → Prop) (e : Entropy) (st : emitted)
    (mk : UUID → datetime → Assessment.t) :
  Forall P (fst st) → (∀ fresh now, P (mk fresh now)) →
  Forall P (fst (emit e st mk)).
Proof.
  intros Hst Hmk. unfold emit. cbn [fst]. apply Forall_app. split; [exact Hst|].
  constructor; [apply Hmk|constructor].
Qed.

Lemma foldl_emitted_Forall {B} (P : Assessment.t → Prop)
    (f : emitted → B → emitted) (l : list B) (st : emitted) :
  (∀ st x, Forall P (fst st) → Forall P (fst (f st x))) →
  Forall P (fst st) → Forall P (fst (foldl f st l)).
Proof.
  intros Hf. revert st. induction l as [|x l IH]; intros st Hst; simpl; auto.
Qed.

Lemma RealityCheckAgent_assess_situation_level
    (lower : string → string) (e : Entropy) (n : nat)
    (situation : Situation.t) :
  Forall about_situation (fst (RealityCheckAgent_assess lower e n situation)).
Proof.
  unfold RealityCheckAgent_assess.
  cbv zeta.
  match goal with
  | |- context [foldl ?f ([], n) (Situation.observations situation)] =>
      set (st1 := foldl f ([], n) (Situation.observations situation))
  end.
  assert (H1 : Forall about_situation (fst st1)).
  { apply foldl_emitted_Forall; [|constructor].
    intros st obs Hst. destruct (_ && _); [|exact Hst].
    apply emit_Forall; [exact Hst|]. intros; split; reflexivity. }
  match goal with
  | |- context [foldl ?f st1 ?l] => set (st2 := foldl f st1 l)
  end.
  assert (H2 : Forall about_situation (fst st2)).
  { apply foldl_emitted_Forall; [|exact H1].
    intros st [obs1 obs2] Hst.
    apply emit_Forall; [exact Hst|]. intros; split; reflexivity. }
  destruct (Situation.observations situation); [|exact H2].
  destruct (Situation.candidate_actions situation); [exact H2|].
  apply emit_Forall; [exact H2|]. intros; split; reflexivity.
Qed.

Lemma filter_by_constraints_app_soft
    (actions : list ActionSpec.t) (assessments extra : list Assessment.t) :
  Forall (λ x, Assessment.is_hard_constraint x = false) extra →
  filter_by_constraints actions (assessments ++ extra)
  = filter_by_constraints actions assessments.
Proof.
  intros Hsoft. unfold filter_by_constraints. rewrite omap_app.
  assert (Hnil : omap (λ a, if Assessment.is_hard_constraint a
                            then Assessment.action_id a else None) extra = []).
  { induction Hsoft as [|x l Hx _ IH]; [reflexivity|].
    cbn. rewrite Hx. exact IH. }
  rewrite Hnil, app_nil_r. reflexivity.
Qed.

Lemma score_robustness_app_unrelated {R} `{PyFloat R}
    (action : ActionSpec.t) (assessments extra : list Assessment.t) :
  Forall (λ x, Assessment.action_id x ≠ Some (ActionSpec.id action)) extra →
  score_robustness (R:=R) action (assessments ++ extra)
  = score_robustness (R:=R) action assessments.
Proof.
  intros Hother. unfold score_robustness. rewrite List.filter_app.
  assert (Hnil : List.filter
                   (λ a, bool_decide
                           (Assessment.action_id a = Some (ActionSpec.id action))
                         && negb (Assessment.is_hard_constraint a)) extra = []).
  { induction Hother as [|x l Hx _ IH]; [reflexivity|].
    simpl. rewrite bool_decide_eq_false_2 by exact Hx. exact IH. }
  rewrite Hnil, app_nil_r. reflexivity.
Qed.

(** C10. Every assessment of [RealityCheckAgent.assess] has no
    [action_id] and is not a hard constraint; so appending them to any
    assessment list changes neither the outcome of
    [filter_by_constraints] nor the robustness score of any action, in
    either arithmetic. *)
Theorem RealityCheckAgent_never_decides
    (lower : string → string) (e : Entropy) (n : nat)
    (situation : Situation.t) :
  Forall about_situation (fst (RealityCheckAgent_assess lower e n situation))
  ∧ (∀ actions assessments,
       filter_by_constraints actions
         (assessments ++ fst (RealityCheckAgent_assess lower e n situation))
       = filter_by_constraints actions assessments)
  ∧ (∀ R (F : PyFloat R) action assessments,
       score_robustness (R:=R) action
         (assessments ++ fst (RealityCheckAgent_assess lower e n situation))
       = score_robustness (R:=R) action assessments).
Proof.
  pose proof (RealityCheckAgent_assess_situation_level lower e n situation)
    as Hall.
  split; [exact Hall|]. split.
  - intros actions assessments. apply filter_by_constraints_app_soft.
    eapply Forall_impl; [exact Hall|]. now intros x [_ Hx].
  - intros R F action assessments. apply score_robustness_app_unrelated.
    eapply Forall_impl; [exact Hall|]. intros x [Hx _]. now rewrite Hx.
Qed.

(** ** The order of the assessments *)


(** The score reads only the action's own warnings, in their order. *)
Lemma score_robustness_warnings {R} `{PyFloat R}
    (action : ActionSpec.t) (l l' : list Assessment.t) :
  warnings_for action l' = warnings_for action l →
  score_robustness (R:=R) action l' = score_robustness (R:=R) action l.
Proof.
  unfold warnings_for, score_robustness. intros Hw.
  assert (Hf : ∀ l0,
    List.filter (λ a, bool_decide (Assessment.action_id a
                                   = Some (ActionSpec.id action))
                      && negb (Assessment.is_hard_constraint a)) l0
    = List.filter (is_warning_for action) l0).
  { intros l0. apply List.filter_ext. intros a. apply andb_comm. }
  now rewrite !Hf, Hw.
Qed.


Lemma insert_sorted_length {K A} (lt : K → K → bool) (x : K * A)
    (s : list (K * A)) :
  length (insert_sorted lt x s) = S (length s).
Proof.
  induction s as [|y s IH]; simpl; [reflexivity|].
  destruct (lt (fst y) (fst x)); simpl; now rewrite ?IH.
Qed.

Lemma stable_sort_length {K A} (lt : K → K → bool) (l : list (K * A)) :
  length (stable_sort lt l) = length l.
Proof.
  induction l as [|x l IH]; simpl; [reflexivity|].
  now rewrite insert_sorted_length, IH.
Qed.






(** * Further properties of the synthesis engine *)

Lemma select_action_member {R} `{PyFloat R}
    (actions : list ActionSpec.t) (l : list Assessment.t) :
  actions ≠ [] → ∃ a, select_action (R:=R) actions l = Ok a ∧ a ∈ actions.
Proof.
  intros Hne. unfold select_action.
  destruct actions as [|a0 rest] eqn:Hact; [congruence|]. rewrite <- Hact.
  rewrite mapM_keyed.
  - cbn [mbind result_bind].
    match goal with
    | |- context [stable_sort ?lt ?k] =>
        pose proof (stable_sort_length lt k) as Hlen;
        pose proof (λ y, proj1 (elem_of_stable_sort lt y k)) as Hin;
        destruct (stable_sort lt k) as [|first tl]
    end.
    + rewrite !length_map, Hact in Hlen. discriminate.
    + exists (fst (snd first)). split; [reflexivity|].
      specialize (Hin first (list_elem_of_here _ _)).
      apply list_elem_of_fmap in Hin as (x & -> & Hx).
      apply list_elem_of_fmap in Hx as (b & -> & Hb). exact Hb.
  - apply Forall_forall. intros x Hx.
    apply list_elem_of_fmap in Hx as (b & -> & Hb). exact Hb.
Qed.

Lemma find_most_reversible_member {R} `{PyFloat R}
    (actions : list ActionSpec.t) :
  actions ≠ [] →
  ∃ a, _find_most_reversible (R:=R) actions = Ok a ∧ a ∈ actions.
Proof.
  intros Hne. unfold _find_most_reversible, sorted_reverse.
  destruct actions as [|a0 rest] eqn:Hact; [congruence|]. rewrite <- Hact.
  match goal with
  | |- context [stable_sort ?lt ?k] =>
      pose proof (stable_sort_length lt k) as Hlen;
      pose proof (λ y, proj1 (elem_of_stable_sort lt y k)) as Hin;
      destruct (exists_last (l:=stable_sort lt k)) as (front & m & Hs)
  end.
  - intros Hnil. rewrite Hnil, length_map, length_rev, Hact in Hlen.
    discriminate.
  - rewrite Hs in Hin |- *. rewrite rev_app_distr. simpl.
    exists (snd m). split; [reflexivity|].
    assert (Hm : m ∈ (front ++ [m])%list)
      by (apply elem_of_app; right; left).
    apply Hin, list_elem_of_fmap in Hm as (b & -> & Hb).
    now apply list_elem_of_In, in_rev, list_elem_of_In in Hb.
Qed.

Lemma filter_by_constraints_elem
    (actions : list ActionSpec.t) (l : list Assessment.t) (a : ActionSpec.t) :
  a ∈ filter_by_constraints actions l
  ↔ a ∈ actions ∧ ¬ hard_constrained l (ActionSpec.id a).
Proof.
  unfold filter_by_constraints.
  rewrite list_elem_of_In, List.filter_In, <- list_elem_of_In,
          bool_decide_eq_true, violated_ids_spec.
  reflexivity.
Qed.

(** The two ways in which [synthesize] builds its decision. *)
Lemma synthesize_paths {R} `{PyFloat R} (e : Entropy) (n : nat)
    (situation : Situation.t) (l : list Assessment.t) :
  Situation.candidate_actions situation ≠ [] →
  ∃ a basis,
    synthesize (R:=R) e n situation l
    = Ok (decision_of e n situation l a basis)
    ∧ a ∈ Situation.candidate_actions situation
    ∧ ((filter_by_constraints (Situation.candidate_actions situation) l ≠ []
        ∧ a ∈ filter_by_constraints (Situation.candidate_actions situation) l
        ∧ basis = passed_basis a (score_robustness (R:=R) a l))
       ∨ (filter_by_constraints (Situation.candidate_actions situation) l = []
          ∧ basis = fallback_basis a)).
Proof.
  intros Hne. unfold synthesize.
  destruct (filter_by_constraints (Situation.candidate_actions situation) l)
    as [|s0 srest] eqn:Hfilter.
  - destruct (find_most_reversible_member _ Hne) as (a & -> & Ha).
    cbn [mbind result_bind]. exists a, (fallback_basis a).
    split; [reflexivity|]. split; [exact Ha|]. right. auto.
  - destruct (select_action_member (s0 :: srest) l) as (a & -> & Ha);
      [discriminate|].
    cbn [mbind result_bind].
    exists a, (passed_basis a (score_robustness (R:=R) a l)).
    split; [reflexivity|]. split.
    + rewrite <- Hfilter in Ha. now apply filter_by_constraints_elem in Ha.
    + left. split; [discriminate|]. split; [exact Ha|reflexivity].
Qed.

(** X1. For a non-empty candidate list [synthesize] returns a decision,
    in any arithmetic.  The decision carries the id and the tenant of the
    situation, the ids of all the assessments given, in their order, the
    monitoring triggers of the whole list, and a fresh id. *)
Theorem synthesize_returns_decision {R} `{PyFloat R} (e : Entropy) (n : nat)
    (situation : Situation.t) (l : list Assessment.t) :
  Situation.candidate_actions situation ≠ [] →
  ∃ d, synthesize (R:=R) e n situation l = Ok d
       ∧ Decision.situation_id d = Situation.id situation
       ∧ Decision.tenant_id d = Situation.tenant_id situation
       ∧ Decision.assessments_used d = map Assessment.id l
       ∧ Decision.monitoring d = generate_monitoring l
       ∧ Decision.id d = uuid4 e n.
Proof.
  intros Hne.
  destruct (synthesize_paths e n situation l Hne) as (a & basis & -> & _).
  eexists. split; [reflexivity|]. repeat split.
Qed.

Lemma synthesize_returns_decision_witness :
  ∃ d, synthesize (R:=float) sample_entropy 0 order_situation
         order_assessments = Ok d
       ∧ Decision.situation_id d = Situation.id order_situation
       ∧ Decision.tenant_id d = Situation.tenant_id order_situation
       ∧ Decision.assessments_used d = map Assessment.id order_assessments
       ∧ Decision.monitoring d = generate_monitoring order_assessments
       ∧ Decision.id d = uuid4 sample_entropy 0.
Proof.
  apply (synthesize_returns_decision sample_entropy 0 order_situation
           order_assessments).
  discriminate.
Defined.

(** With distinct ids, a member and the others make up the list. *)
Lemma filter_other_ids_perm (a : ActionSpec.t) (cands : list ActionSpec.t) :
  a ∈ cands → NoDup (map ActionSpec.id cands) →
  Permutation cands
    (a :: List.filter
            (λ b, bool_decide (ActionSpec.id b ≠ ActionSpec.id a)) cands).
Proof.
  intros Ha Hnd.
  induction cands as [|b cands IH]; [now apply elem_of_nil in Ha|].
  simpl in Hnd. apply NoDup_cons in Hnd as [Hb Hnd]. simpl.
  destruct (decide (b = a)) as [->|Hba].
  - rewrite bool_decide_eq_false_2 by tauto. apply perm_skip.
    assert (Hfil : List.filter
              (λ a0, bool_decide (ActionSpec.id a0 ≠ ActionSpec.id a)) cands
            = cands).
    { apply forallb_filter_id, forallb_forall. intros c Hc.
      apply bool_decide_eq_true. intros Heq. apply Hb.
      rewrite <- Heq. apply list_elem_of_fmap. exists c.
      split; [reflexivity|now apply list_elem_of_In]. }
    now rewrite Hfil.
  - apply elem_of_cons in Ha as [->|Ha]; [congruence|].
    assert (Hid : ActionSpec.id b ≠ ActionSpec.id a).
    { intros Heq. apply Hb. rewrite Heq. apply list_elem_of_fmap. eauto. }
    rewrite bool_decide_eq_true_2 by exact Hid.
    etransitivity; [apply perm_skip, IH; assumption|]. apply perm_swap.
Qed.

(** X2. The selected action is one of the candidates, and
    [alternatives_considered] holds exactly the candidates whose id
    differs from the selected action's id, in candidate order (so a
    candidate sharing that id is left out as well).  When the candidate
    ids are pairwise distinct the alternatives are the candidates without
    the selected one. *)
Theorem synthesize_alternatives {R} `{PyFloat R} (e : Entropy) (n : nat)
    (situation : Situation.t) (l : list Assessment.t) (d : Decision.t) :
  synthesize (R:=R) e n situation l = Ok d →
  Decision.selected_action d ∈ Situation.candidate_actions situation
  ∧ Decision.alternatives_considered d
    = List.filter
        (λ a, bool_decide (ActionSpec.id a
                           ≠ ActionSpec.id (Decision.selected_action d)))
        (Situation.candidate_actions situation)
  ∧ (Decision.selected_action d ∉ Decision.alternatives_considered d)
  ∧ (NoDup (map ActionSpec.id (Situation.candidate_actions situation)) →
     Permutation (Situation.candidate_actions situation)
       (Decision.selected_action d :: Decision.alternatives_considered d)).
Proof.
  intros Hd.
  assert (Hne : Situation.candidate_actions situation ≠ []).
  { intros Hnil. unfold synthesize in Hd. rewrite Hnil in Hd. discriminate. }
  destruct (synthesize_paths e n situation l Hne) as (a & basis & Hs & Ha & _).
  rewrite Hs in Hd. injection Hd as <-.
  cbn [decision_of Decision.selected_action Decision.alternatives_considered].
  split; [exact Ha|]. split; [reflexivity|]. split.
  - intros Hin. apply list_elem_of_In, List.filter_In in Hin as [_ Hin].
    apply bool_decide_eq_true in Hin. now apply Hin.
  - intros Hnd. exact (filter_other_ids_perm a _ Ha Hnd).
Qed.

Lemma synthesize_alternatives_witness :
  Decision.selected_action fallback_decision
    ∈ Situation.candidate_actions fallback_situation
  ∧ Decision.alternatives_considered fallback_decision
    = List.filter
        (λ a, bool_decide
                (ActionSpec.id a
                 ≠ ActionSpec.id (Decision.selected_action fallback_decision)))
        (Situation.candidate_actions fallback_situation)
  ∧ (Decision.selected_action fallback_decision
       ∉ Decision.alternatives_considered fallback_decision)
  ∧ (NoDup (map ActionSpec.id (Situation.candidate_actions fallback_situation)) →
     Permutation (Situation.candidate_actions fallback_situation)
       (Decision.selected_action fallback_decision
          :: Decision.alternatives_considered fallback_decision)).
Proof.
  apply (synthesize_alternatives (R:=Q) sample_entropy 0 fallback_situation
           fallback_assessments fallback_decision).
  vm_compute. reflexivity.
Defined.

(** X3. When some candidate is named by no hard constraint, the selected
    action is one of the candidates that no hard constraint names, and
    the basis reports the passed constraints, the action's name, its score
    to two decimals and its reversibility. *)
Theorem synthesize_selects_survivor {R} `{PyFloat R} (e : Entropy) (n : nat)
    (situation : Situation.t) (l : list Assessment.t) :
  (∃ a, a ∈ Situation.candidate_actions situation
        ∧ ¬ hard_constrained l (ActionSpec.id a)) →
  ∃ d, synthesize (R:=R) e n situation l = Ok d
       ∧ Decision.selected_action d ∈ Situation.candidate_actions situation
       ∧ ¬ hard_constrained l (ActionSpec.id (Decision.selected_action d))
       ∧ Decision.robustness_basis d
         = passed_basis (Decision.selected_action d)
             (score_robustness (R:=R) (Decision.selected_action d) l).
Proof.
  intros (a0 & Ha0 & Hfree).
  assert (Hne : Situation.candidate_actions situation ≠ []).
  { intros Hnil. rewrite Hnil in Ha0. now apply elem_of_nil in Ha0. }
  destruct (synthesize_paths e n situation l Hne)
    as (a & basis & -> & Ha & [(_ & Hsurv & ->)|(Hnone & _)]).
  - eexists. split; [reflexivity|]. cbn [decision_of Decision.selected_action
      Decision.robustness_basis].
    apply filter_by_constraints_elem in Hsurv as [_ Hsurv]. auto.
  - exfalso.
    assert (Hin : a0 ∈ filter_by_constraints
                          (Situation.candidate_actions situation) l)
      by now apply filter_by_constraints_elem.
    rewrite Hnone in Hin. now apply elem_of_nil in Hin.
Qed.

Lemma synthesize_selects_survivor_witness :
  ∃ d, synthesize (R:=float) sample_entropy 0 order_situation
         order_assessments = Ok d
       ∧ Decision.selected_action d
           ∈ Situation.candidate_actions order_situation
       ∧ ¬ hard_constrained order_assessments
             (ActionSpec.id (Decision.selected_action d))
       ∧ Decision.robustness_basis d
         = passed_basis (Decision.selected_action d)
             (score_robustness (R:=float) (Decision.selected_action d)
                order_assessments).
Proof.
  apply (synthesize_selects_survivor sample_entropy 0 order_situation
           order_assessments).
  exists action_A. split; [left|].
  unfold hard_constrained. rewrite Exists_exists.
  intros (x & Hx & Hhard & _). revert Hhard.
  repeat (apply elem_of_cons in Hx as [->|Hx]; [discriminate|]).
  now apply elem_of_nil in Hx.
Defined.

(** ** What a score depends on *)

Lemma warnings_for_idempotent (action : ActionSpec.t)
    (l : list Assessment.t) :
  warnings_for action (warnings_for action l) = warnings_for action l.
Proof.
  unfold warnings_for. induction l as [|x l IH]; [reflexivity|]. simpl.
  destruct (is_warning_for action x) eqn:Hx; simpl; rewrite ?Hx, IH;
    reflexivity.
Qed.

(** X4. In any arithmetic the score of an action is the score computed
    from its own warnings alone: hard constraints, assessments that name
    another action and assessments that name none play no part. *)
Theorem score_robustness_own_warnings {R} `{PyFloat R}
    (action : ActionSpec.t) (l : list Assessment.t) :
  score_robustness (R:=R) action l
  = score_robustness (R:=R) action (warnings_for action l)
  ∧ ∀ x, is_warning_for action x = false →
         score_robustness (R:=R) action (x :: l)
         = score_robustness (R:=R) action l.
Proof.
  split.
  - symmetry. apply score_robustness_warnings, warnings_for_idempotent.
  - intros x Hx. apply score_robustness_warnings.
    unfold warnings_for. simpl. now rewrite Hx.
Qed.







(** ** Constraint filtering, continued *)

Lemma hard_constrained_app (l1 l2 : list Assessment.t) (aid : UUID) :
  hard_constrained (l1 ++ l2) aid
  ↔ hard_constrained l1 aid ∨ hard_constrained l2 aid.
Proof. unfold hard_constrained. apply Exists_app. Qed.

Lemma filter_by_constraints_decide
    (actions : list ActionSpec.t) (l : list Assessment.t) :
  filter_by_constraints actions l
  = List.filter (λ a, bool_decide (¬ hard_constrained l (ActionSpec.id a)))
                actions.
Proof.
  unfold filter_by_constraints. apply List.filter_ext. intros a.
  apply bool_decide_ext. now rewrite violated_ids_spec.
Qed.

(** X8. Filtering by a concatenation of assessment lists is filtering by
    the first list and then by the second; filtering twice by the same
    list changes nothing more. *)
Theorem filter_by_constraints_app
    (actions : list ActionSpec.t) (l1 l2 : list Assessment.t) :
  filter_by_constraints actions (l1 ++ l2)
  = filter_by_constraints (filter_by_constraints actions l1) l2
  ∧ filter_by_constraints (filter_by_constraints actions l1) l1
    = filter_by_constraints actions l1.
Proof.
  rewrite !filter_by_constraints_decide. split.
  - induction actions as [|a actions IH]; [reflexivity|]. simpl.
    destruct (decide (hard_constrained l1 (ActionSpec.id a))) as [H1|H1].
    + rewrite (bool_decide_eq_false_2 (¬ hard_constrained l1 _)) by tauto.
      rewrite bool_decide_eq_false_2; [exact IH|].
      rewrite hard_constrained_app. tauto.
    + rewrite (bool_decide_eq_true_2 (¬ hard_constrained l1 _)) by exact H1.
      simpl. rewrite <- IH.
      assert (Hb : bool_decide (¬ hard_constrained (l1 ++ l2) (ActionSpec.id a))
                   = bool_decide (¬ hard_constrained l2 (ActionSpec.id a))).
      { apply bool_decide_ext. rewrite hard_constrained_app. tauto. }
      now rewrite Hb.
  - induction actions as [|a actions IH]; [reflexivity|]. simpl.
    destruct (bool_decide (¬ hard_constrained l1 (ActionSpec.id a))) eqn:Ha;
      [|exact IH].
    simpl. now rewrite Ha, IH.
Qed.

(** X9. Only a hard constraint that names the id of a listed action can
    remove an action: assessments that are not hard constraints, name no
    action, or name an id that no listed action has, leave the outcome of
    the filter unchanged. *)
Theorem filter_by_constraints_ignores
    (actions : list ActionSpec.t) (l extra : list Assessment.t) :
  Forall (λ x, Assessment.is_hard_constraint x = false
               ∨ Assessment.action_id x = None
               ∨ ∀ a, a ∈ actions →
                      Assessment.action_id x ≠ Some (ActionSpec.id a))
         extra →
  filter_by_constraints actions (l ++ extra) = filter_by_constraints actions l.
Proof.
  intros Hextra. rewrite !filter_by_constraints_decide.
  apply filter_ext_in. intros a Ha. apply bool_decide_ext.
  rewrite hard_constrained_app.
  assert (Hno : ¬ hard_constrained extra (ActionSpec.id a)); [|tauto].
  unfold hard_constrained. rewrite Exists_exists.
  intros (x & Hx & Hhard & Hid).
  rewrite Forall_forall in Hextra.
  destruct (Hextra x Hx) as [Hsoft|[Hnone|Hother]].
  - congruence.
  - congruence.
  - apply (Hother a); [now apply list_elem_of_In|exact Hid].
Qed.

Lemma filter_by_constraints_ignores_witness :
  filter_by_constraints [action_A; action_B]
    (fallback_assessments
     ++ [sample_assessment 20%N (Some 99%N) true "high";
         sample_assessment 21%N None true "high";
         sample_assessment 22%N (Some 1%N) false "high"])
  = filter_by_constraints [action_A; action_B] fallback_assessments.
Proof.
  apply (filter_by_constraints_ignores [action_A; action_B]
           fallback_assessments
           [sample_assessment 20%N (Some 99%N) true "high";
            sample_assessment 21%N None true "high";
            sample_assessment 22%N (Some 1%N) false "high"]).
  constructor; [|constructor; [|constructor; [|constructor]]].
  - right. right. intros a Ha.
    apply elem_of_cons in Ha as [->|Ha]; [discriminate|].
    apply elem_of_cons in Ha as [->|Ha]; [discriminate|].
    now apply elem_of_nil in Ha.
  - right. left. reflexivity.
  - left. reflexivity.
Defined.

(** ** Monitoring and selection, continued *)

(** X10. The monitoring triggers of a concatenation are the triggers of
    the parts, in order; there is no trigger exactly when no assessment is
    a warning of severity "high". *)
Theorem generate_monitoring_app (l1 l2 : list Assessment.t) :
  generate_monitoring (l1 ++ l2)
  = (generate_monitoring l1 ++ generate_monitoring l2)%list
  ∧ (generate_monitoring l1 = []
     ↔ Forall (λ x, needs_monitoring x = false) l1).
Proof.
  unfold generate_monitoring. rewrite !generate_monitoring_from. simpl.
  split.
  - now rewrite List.filter_app, map_app.
  - split.
    + intros Hnil. apply map_eq_nil in Hnil.
      induction l1 as [|x l IH]; [constructor|]. simpl in Hnil.
      destruct (needs_monitoring x) eqn:Hx; [discriminate|].
      constructor; auto.
    + intros Hall. induction Hall as [|x l Hx _ IH]; [reflexivity|].
      simpl. now rewrite Hx.
Qed.

(** X11. In any arithmetic [select_action] returns one of the listed
    actions, and raises only for the empty list. *)
Theorem select_action_outcome {R} `{PyFloat R}
    (actions : list ActionSpec.t) (l : list Assessment.t) :
  match select_action (R:=R) actions l with
  | Ok a => a ∈ actions
  | Raise err =>
      actions = [] ∧ err = ValueError "Cannot select from empty action list"
  end.
Proof.
  destruct actions as [|a0 rest]; [now split|].
  destruct (select_action_member (a0 :: rest) l) as (a & -> & Ha);
    [discriminate|exact Ha].
Qed.

(** ** The order of the assessments, on exact arithmetic *)








(** * Further properties of the evaluators *)

(** ** [StabilityAgent] *)

Lemma stability_step (e : Entropy) (situation : Situation.t)
    (st : emitted) (action : ActionSpec.t) :
  ∃ x, StabilityAgent_assess_action e situation st action
       = ((fst st ++ [x])%list, S (snd st))
       ∧ Assessment.id x = uuid4 e (snd st)
       ∧ Assessment.action_id x = Some (ActionSpec.id action)
       ∧ Assessment.is_hard_constraint x = false
       ∧ Assessment.agent_type x = "stability"
       ∧ Assessment.severity x
         = stability_severity (ActionSpec.reversibility action)
       ∧ Assessment.reversibility x
         = stability_class (ActionSpec.reversibility action).
Proof.
  unfold StabilityAgent_assess_action, stability_severity, stability_class,
    emit.
  destruct (decide (ActionSpec.reversibility action = "irreversible"))
    as [Hirr|Hirr].
  - rewrite bool_decide_eq_true_2 by exact Hirr. eexists.
    split; [reflexivity|]. cbn. repeat split.
    rewrite Hirr.
    destruct (bool_decide (Situation.stakes situation = "high")); reflexivity.
  - rewrite (bool_decide_eq_false_2 _ Hirr).
    destruct (decide (ActionSpec.reversibility action = "costly")) as [Hc|Hc].
    + rewrite bool_decide_eq_true_2 by exact Hc. eexists.
      split; [reflexivity|]. cbn. repeat split.
      rewrite andb_false_r, Hc. reflexivity.
    + rewrite (bool_decide_eq_false_2 _ Hc). eexists.
      split; [reflexivity|]. cbn. repeat split.
Qed.

Lemma stability_loop (e : Entropy) (situation : Situation.t)
    (actions : list ActionSpec.t) (st : emitted) :
  ∃ new,
    foldl (StabilityAgent_assess_action e situation) st actions
    = ((fst st ++ new)%list, (snd st + length actions)%nat)
    ∧ map Assessment.id new = map (uuid4 e) (seq (snd st) (length actions))
    ∧ Forall2 (λ a x,
         Assessment.action_id x = Some (ActionSpec.id a)
         ∧ Assessment.is_hard_constraint x = false
         ∧ Assessment.agent_type x = "stability"
         ∧ Assessment.severity x
           = stability_severity (ActionSpec.reversibility a)
         ∧ Assessment.reversibility x
           = stability_class (ActionSpec.reversibility a))
        actions new.
Proof.
  revert st. induction actions as [|a l IH]; intros st; simpl.
  - exists []. rewrite app_nil_r, Nat.add_0_r. destruct st.
    split; [reflexivity|]. split; [reflexivity|constructor].
  - destruct (stability_step e situation st a) as (x & -> & Hid & Hx).
    destruct (IH ((fst st ++ [x])%list, S (snd st))) as (new & -> & Hids & Hall).
    exists (x :: new). cbn [fst snd]. rewrite <- app_assoc. simpl.
    split; [f_equal; lia|]. split; [now rewrite Hid, Hids|].
    now constructor.
Qed.

(** X13. [StabilityAgent.assess] emits exactly one assessment for each
    candidate action, in candidate order.  It names the action, is never
    a hard constraint, and has severity "high" for an irreversible action,
    "medium" for a costly one and "low" for any other reversibility, which
    it restates as "reversible". *)
Theorem StabilityAgent_one_per_action (e : Entropy) (n : nat)
    (situation : Situation.t) :
  Forall2 (λ a x,
       Assessment.action_id x = Some (ActionSpec.id a)
       ∧ Assessment.is_hard_constraint x = false
       ∧ Assessment.agent_type x = "stability"
       ∧ Assessment.severity x
         = stability_severity (ActionSpec.reversibility a)
       ∧ Assessment.reversibility x
         = stability_class (ActionSpec.reversibility a))
    (Situation.candidate_actions situation)
    (fst (StabilityAgent_assess e n situation))
  ∧ length (fst (StabilityAgent_assess e n situation))
    = length (Situation.candidate_actions situation).
Proof.
  unfold StabilityAgent_assess.
  destruct (stability_loop e situation (Situation.candidate_actions situation)
              ([], n)) as (new & -> & _ & Hall).
  cbn [fst app]. split; [exact Hall|].
  symmetry. eapply Forall2_length; eauto.
Qed.

(** ** The warnings of [ConstraintAgent] *)

Lemma soft_assessments_of_app (l1 l2 : list Assessment.t) :
  soft_assessments_of (l1 ++ l2)
  = (soft_assessments_of l1 ++ soft_assessments_of l2)%list.
Proof. apply List.filter_app. Qed.

Lemma constraint_soft_step (e : Entropy) (situation : Situation.t)
    (has_deadline : bool) (st : emitted) (action : ActionSpec.t) :
  ∃ new,
    fst (ConstraintAgent_assess_action e situation has_deadline st action)
    = (fst st ++ new)%list
    ∧ (length new <= 2)%nat
    ∧ (has_deadline = false → stakes_high_or_medium situation = false →
       new = [])
    ∧ map Assessment.action_id (soft_assessments_of new)
      = (if stakes_high_or_medium situation && is_irreversible action
         then [Some (ActionSpec.id action)] else [])
    ∧ Forall (constraint_warning_shape situation) (soft_assessments_of new).
Proof.
  unfold ConstraintAgent_assess_action, stakes_high_or_medium, is_irreversible,
    constraint_warning_shape.
  destruct (bool_decide (ActionSpec.reversibility action = "irreversible"));
    destruct (decide (Situation.stakes situation = "high")) as [Hh|Hh];
    destruct (decide (Situation.stakes situation = "medium")) as [Hm|Hm];
    try (rewrite Hh in Hm; discriminate);
    rewrite ?(bool_decide_eq_true_2 _ Hh), ?(bool_decide_eq_true_2 _ Hm),
            ?(bool_decide_eq_false_2 _ Hh), ?(bool_decide_eq_false_2 _ Hm);
    destruct has_deadline;
    destruct (bool_decide (ActionSpec.time_sensitivity action
                           = Some "flexible"));
    unfold emit; cbn [fst snd andb orb]; rewrite <- ?app_assoc;
    eexists; (split; [try reflexivity; now rewrite app_nil_r|]);
    cbn; (split; [lia|]); (split; [try discriminate; reflexivity|]);
    (split; [reflexivity|]);
    repeat constructor; auto.
Qed.

Lemma constraint_soft_loop (e : Entropy) (situation : Situation.t)
    (has_deadline : bool) (actions : list ActionSpec.t) (st : emitted) :
  ∃ new,
    fst (foldl (ConstraintAgent_assess_action e situation has_deadline)
               st actions)
    = (fst st ++ new)%list
    ∧ (length new <= 2 * length actions)%nat
    ∧ (has_deadline = false → stakes_high_or_medium situation = false →
       new = [])
    ∧ map Assessment.action_id (soft_assessments_of new)
      = (if stakes_high_or_medium situation
         then map (λ a, Some (ActionSpec.id a))
                  (List.filter is_irreversible actions)
         else [])
    ∧ Forall (constraint_warning_shape situation) (soft_assessments_of new).
Proof.
  revert st. induction actions as [|a l IH]; intros st; simpl.
  - exists []. rewrite app_nil_r. split; [reflexivity|]. split; [simpl; lia|].
    split; [reflexivity|].
    split; [now destruct (stakes_high_or_medium situation)|constructor].
  - destruct (constraint_soft_step e situation has_deadline st a)
      as (new1 & Hst & Hlen1 & Hnone1 & Hids1 & Hshape1).
    destruct (IH (ConstraintAgent_assess_action e situation has_deadline st a))
      as (new2 & Hfold & Hlen2 & Hnone2 & Hids2 & Hshape2).
    exists (new1 ++ new2)%list. rewrite Hfold, Hst, <- app_assoc.
    split; [reflexivity|]. split; [rewrite length_app; lia|].
    split; [intros Hd Hs; now rewrite Hnone1, Hnone2|].
    rewrite soft_assessments_of_app, map_app, Hids1, Hids2.
    split; [|now apply Forall_app].
    destruct (stakes_high_or_medium situation); [|reflexivity]. simpl.
    now destruct (is_irreversible a).
Qed.

(** X14. The warnings of [ConstraintAgent.assess], its assessments that
    are not hard constraints, name one each and in order the irreversible
    candidates when the stakes are "high" or "medium", with severity and
    confidence equal to the stakes and no support; for any other stakes
    there is none.  No action gets more than two assessments, and a
    situation without deadline whose stakes are neither "high" nor
    "medium" gets none at all. *)
Theorem ConstraintAgent_warnings (lower : string → string) (e : Entropy)
    (n : nat) (situation : Situation.t) :
  map Assessment.action_id
      (soft_assessments_of (fst (ConstraintAgent_assess lower e n situation)))
  = (if stakes_high_or_medium situation
     then map (λ a, Some (ActionSpec.id a))
              (List.filter is_irreversible
                           (Situation.candidate_actions situation))
     else [])
  ∧ Forall (constraint_warning_shape situation)
           (soft_assessments_of
              (fst (ConstraintAgent_assess lower e n situation)))
  ∧ (length (fst (ConstraintAgent_assess lower e n situation))
     <= 2 * length (Situation.candidate_actions situation))%nat
  ∧ (¬ deadline_bearing lower situation →
     stakes_high_or_medium situation = false →
     fst (ConstraintAgent_assess lower e n situation) = []).
Proof.
  unfold ConstraintAgent_assess.
  destruct (constraint_soft_loop e situation
              (ConstraintAgent_has_deadline_indicator lower situation)
              (Situation.candidate_actions situation) ([], n))
    as (new & -> & Hlen & Hnone & Hids & Hshape).
  cbn [fst app]. split; [exact Hids|]. split; [exact Hshape|].
  split; [exact Hlen|]. intros Hd Hs. apply Hnone; [|exact Hs].
  apply not_true_is_false. now rewrite has_deadline_indicator_spec.
Qed.

(** ** [RealityCheckAgent] *)

Lemma flat_map_list_prod {A B} (l1 : list A) (l2 : list B) :
  flat_map (λ x, map (λ y, (x, y)) l2) l1 = list_prod l1 l2.
Proof.
  induction l1 as [|x l1 IH]; [reflexivity|]. simpl. now rewrite IH.
Qed.

Lemma detect_conflicts_loop (lower : string → string)
    (observations incs decs : list Observation.t) :
  foldl
    (λ '(increase_obs, decrease_obs) obs,
       let content_lower := lower (Observation.content obs) in
       let has_increase := any_keyword_in INCREASE_KEYWORDS content_lower in
       let has_decrease := any_keyword_in DECREASE_KEYWORDS content_lower in
       if has_increase && negb has_decrease
       then ((increase_obs ++ [obs])%list, decrease_obs)
       else if has_decrease && negb has_increase
       then (increase_obs, (decrease_obs ++ [obs])%list)
       else (increase_obs, decrease_obs))
    (incs, decs) observations
  = ((incs ++ List.filter (increase_leaning lower) observations)%list,
     (decs ++ List.filter (decrease_leaning lower) observations)%list).
Proof.
  revert incs decs. induction observations as [|obs l IH]; intros incs decs.
  - simpl. now rewrite !app_nil_r.
  - cbn [foldl List.filter].
    assert (Hinc : increase_leaning lower obs
                   = any_keyword_in INCREASE_KEYWORDS
                       (lower (Observation.content obs))
                     && negb (any_keyword_in DECREASE_KEYWORDS
                                (lower (Observation.content obs))))
      by reflexivity.
    assert (Hdec : decrease_leaning lower obs
                   = any_keyword_in DECREASE_KEYWORDS
                       (lower (Observation.content obs))
                     && negb (any_keyword_in INCREASE_KEYWORDS
                                (lower (Observation.content obs))))
      by reflexivity.
    rewrite Hinc, Hdec.
    destruct (any_keyword_in INCREASE_KEYWORDS (lower (Observation.content obs))),
             (any_keyword_in DECREASE_KEYWORDS (lower (Observation.content obs)));
      cbn [andb negb]; rewrite IH, <- ?app_assoc; reflexivity.
Qed.

Lemma detect_conflicts_list_prod (lower : string → string)
    (observations : list Observation.t) :
  RealityCheckAgent_detect_conflicts lower observations
  = list_prod (List.filter (increase_leaning lower) observations)
              (List.filter (decrease_leaning lower) observations).
Proof.
  unfold RealityCheckAgent_detect_conflicts.
  rewrite detect_conflicts_loop. simpl. apply flat_map_list_prod.
Qed.

(** X15. [_detect_conflicts] pairs every increase-leaning observation
    with every decrease-leaning one, in the order of the observations: an
    observation that matches both keyword sets, or neither, is in no
    pair, and there are as many pairs as the product of the two
    counts. *)
Theorem detect_conflicts_cross_product (lower : string → string)
    (observations : list Observation.t) :
  RealityCheckAgent_detect_conflicts lower observations
  = list_prod (List.filter (increase_leaning lower) observations)
              (List.filter (decrease_leaning lower) observations)
  ∧ length (RealityCheckAgent_detect_conflicts lower observations)
    = (length (List.filter (increase_leaning lower) observations)
       * length (List.filter (decrease_leaning lower) observations))%nat
  ∧ ∀ obs1 obs2,
      (obs1, obs2) ∈ RealityCheckAgent_detect_conflicts lower observations →
      obs1 ∈ observations ∧ obs2 ∈ observations
      ∧ increase_leaning lower obs1 = true
      ∧ decrease_leaning lower obs2 = true.
Proof.
  assert (Heq : RealityCheckAgent_detect_conflicts lower observations
                = list_prod (List.filter (increase_leaning lower) observations)
                    (List.filter (decrease_leaning lower) observations)).
  { apply detect_conflicts_list_prod. }
  rewrite Heq. split; [reflexivity|]. split; [apply length_prod|].
  intros obs1 obs2 Hin.
  apply list_elem_of_In, in_prod_iff in Hin as [H1 H2].
  apply List.filter_In in H1 as [H1 H1']. apply List.filter_In in H2 as [H2 H2'].
  rewrite !list_elem_of_In. auto.
Qed.

Lemma emit_summary (e : Entropy) (st : emitted)
    (mk : UUID → datetime → Assessment.t) :
  fst (emit e st mk)
  = (fst st ++ [mk (uuid4 e (snd st)) (utc_now e (snd st))])%list.
Proof. reflexivity. Qed.

Lemma low_reliability_loop (e : Entropy) (situation : Situation.t)
    (observations : list Observation.t) (st : emitted) :
  map assessment_summary
    (fst (foldl
      (λ st obs,
         if bool_decide (Observation.reliability obs = "low")
            && (bool_decide (Situation.stakes situation = "high")
                || bool_decide (Situation.stakes situation = "medium"))
         then
           let severity :=
             if bool_decide (Situation.stakes situation = "high")
             then "high" else "medium" in
           emit e st (λ fresh now,
             {| Assessment.situation_id := Situation.id situation;
                Assessment.agent_type := RealityCheckAgent_agent_type;
                Assessment.claim :=
                  "Low reliability source '" +:+ Observation.source obs
                  +:+ "' informing " +:+ Situation.stakes situation
                  +:+ "-stakes decision";
                Assessment.support := [Observation.id obs];
                Assessment.confidence := "high";
                Assessment.severity := severity;
                Assessment.reversibility := "reversible";
                Assessment.is_hard_constraint := false;
                Assessment.id := fresh;
                Assessment.action_id := None;
                Assessment.recommended_tests :=
                  ["Verify information from " +:+ Observation.source obs];
                Assessment.created_at := now |})
         else st)
      st observations))
  = (map assessment_summary (fst st)
     ++ (if stakes_high_or_medium situation then
           map (λ obs,
                  ("Low reliability source '" +:+ Observation.source obs
                   +:+ "' informing " +:+ Situation.stakes situation
                   +:+ "-stakes decision",
                   if bool_decide (Situation.stakes situation = "high")
                   then "high" else "medium",
                   [Observation.id obs],
                   ["Verify information from " +:+ Observation.source obs]))
               (List.filter is_low_reliability observations)
         else []))%list.
Proof.
  revert st. induction observations as [|obs l IH]; intros st.
  - simpl. destruct (stakes_high_or_medium situation); now rewrite app_nil_r.
  - cbn [foldl]. rewrite IH. unfold stakes_high_or_medium, is_low_reliability.
    cbn [List.filter].
    destruct (bool_decide (Situation.stakes situation = "high")
              || bool_decide (Situation.stakes situation = "medium")).
    + rewrite andb_true_r.
      destruct (bool_decide (Observation.reliability obs = "low"));
        [|reflexivity].
      rewrite emit_summary, map_app, <- app_assoc. reflexivity.
    + rewrite andb_false_r. reflexivity.
Qed.

Lemma conflicts_loop (e : Entropy) (situation : Situation.t)
    (conflicts : list (Observation.t * Observation.t)) (st : emitted) :
  map assessment_summary
    (fst (foldl
      (λ st '(obs1, obs2),
         emit e st (λ fresh now,
           {| Assessment.situation_id := Situation.id situation;
              Assessment.agent_type := RealityCheckAgent_agent_type;
              Assessment.claim :=
                "Conflicting observations: '" +:+ Observation.source obs1
                +:+ "' vs '" +:+ Observation.source obs2 +:+ "'";
              Assessment.support := [Observation.id obs1; Observation.id obs2];
              Assessment.confidence := "high";
              Assessment.severity := "medium";
              Assessment.reversibility := "reversible";
              Assessment.is_hard_constraint := false;
              Assessment.id := fresh;
              Assessment.action_id := None;
              Assessment.recommended_tests :=
                ["Gather additional data to resolve conflict"];
              Assessment.created_at := now |}))
      st conflicts))
  = (map assessment_summary (fst st)
     ++ map (λ p : Observation.t * Observation.t,
               ("Conflicting observations: '" +:+ Observation.source (fst p)
                +:+ "' vs '" +:+ Observation.source (snd p) +:+ "'",
                "medium",
                [Observation.id (fst p); Observation.id (snd p)],
                ["Gather additional data to resolve conflict"]))
            conflicts)%list.
Proof.
  revert st. induction conflicts as [|[obs1 obs2] l IH]; intros st.
  - simpl. now rewrite app_nil_r.
  - cbn [foldl]. rewrite IH, emit_summary, map_app, <- app_assoc. reflexivity.
Qed.

(** The assessments of [RealityCheckAgent.assess] in full, but for ids
    and time stamps. *)
Lemma RealityCheckAgent_assess_summaries (lower : string → string)
    (e : Entropy) (n : nat) (situation : Situation.t) :
  map assessment_summary (fst (RealityCheckAgent_assess lower e n situation))
  = (low_reliability_summaries situation
     ++ conflict_summaries lower situation
     ++ missing_information_summaries situation)%list.
Proof.
  unfold RealityCheckAgent_assess. cbv zeta.
  assert (Hrest :
    ∀ st, map assessment_summary
            (fst (match Situation.observations situation,
                        Situation.candidate_actions situation with
                  | [], _ :: _ =>
                      emit e st (λ fresh now,
                        {| Assessment.situation_id := Situation.id situation;
                           Assessment.agent_type := RealityCheckAgent_agent_type;
                           Assessment.claim :=
                             "No observations available to inform decision";
                           Assessment.support := [];
                           Assessment.confidence := "high";
                           Assessment.severity := "medium";
                           Assessment.reversibility := "reversible";
                           Assessment.is_hard_constraint := false;
                           Assessment.id := fresh;
                           Assessment.action_id := None;
                           Assessment.recommended_tests :=
                             ["Gather relevant observations before deciding"];
                           Assessment.created_at := now |})
                  | _, _ => st
                  end))
          = (map assessment_summary (fst st)
             ++ missing_information_summaries situation)%list).
  { intros st. unfold missing_information_summaries.
    destruct (Situation.observations situation);
      destruct (Situation.candidate_actions situation);
      rewrite ?emit_summary, ?map_app, ?app_nil_r; reflexivity. }
  rewrite Hrest, conflicts_loop, low_reliability_loop. cbn [fst map app].
  unfold low_reliability_summaries, conflict_summaries.
  rewrite detect_conflicts_list_prod.
  now rewrite <- app_assoc.
Qed.

(** X16. [RealityCheckAgent.assess] emits, in this order and nothing
    else: when the stakes are "high" or "medium", one warning for each
    observation of reliability "low", of severity "high" under high stakes
    and "medium" otherwise, citing that observation; one warning of
    severity "medium" for each conflicting pair, citing both
    observations; and, when there is no observation but some candidate
    action, one notice of severity "medium" without support.  Every
    cited id is the id of an observation of the situation. *)
Theorem RealityCheckAgent_assess_checks (lower : string → string)
    (e : Entropy) (n : nat) (situation : Situation.t) :
  map assessment_summary (fst (RealityCheckAgent_assess lower e n situation))
  = (low_reliability_summaries situation
     ++ conflict_summaries lower situation
     ++ missing_information_summaries situation)%list
  ∧ Forall (λ x, ∀ u, u ∈ Assessment.support x →
                      u ∈ map Observation.id (Situation.observations situation))
           (fst (RealityCheckAgent_assess lower e n situation)).
Proof.
  pose proof (RealityCheckAgent_assess_summaries lower e n situation) as Hsum.
  split; [exact Hsum|].
  apply Forall_forall. intros x Hx u Hu.
  assert (Hin : assessment_summary x
                ∈ map assessment_summary
                      (fst (RealityCheckAgent_assess lower e n situation)))
    by (apply list_elem_of_fmap; eauto).
  rewrite Hsum in Hin.
  assert (Hobs : ∀ obs, In obs (Situation.observations situation) →
                        Observation.id obs
                        ∈ map Observation.id (Situation.observations situation)).
  { intros obs Hobs. apply list_elem_of_fmap. exists obs.
    split; [reflexivity|now apply list_elem_of_In]. }
  apply elem_of_app in Hin as [Hin|Hin]; [|apply elem_of_app in Hin as [Hin|Hin]].
  - unfold low_reliability_summaries in Hin.
    destruct (stakes_high_or_medium situation);
      [|now apply elem_of_nil in Hin].
    apply list_elem_of_fmap in Hin as (obs & Heq & Hobs').
    apply list_elem_of_In, List.filter_In in Hobs' as [Hobs' _].
    injection Heq as _ _ Hsup _. rewrite Hsup in Hu.
    apply list_elem_of_singleton in Hu as ->. now apply Hobs.
  - unfold conflict_summaries in Hin.
    apply list_elem_of_fmap in Hin as ([o1 o2] & Heq & Hp).
    apply list_elem_of_In, in_prod_iff in Hp as [H1 H2].
    apply List.filter_In in H1 as [H1 _]. apply List.filter_In in H2 as [H2 _].
    injection Heq as _ _ Hsup _. rewrite Hsup in Hu. cbn [fst snd] in Hu.
    apply elem_of_cons in Hu as [->|Hu]; [now apply Hobs|].
    apply list_elem_of_singleton in Hu as ->. now apply Hobs.
  - unfold missing_information_summaries in Hin.
    destruct (Situation.observations situation);
      [|now apply elem_of_nil in Hin].
    destruct (Situation.candidate_actions situation);
      [now apply elem_of_nil in Hin|].
    apply list_elem_of_singleton in Hin. injection Hin as _ _ Hsup _.
    rewrite Hsup in Hu. now apply elem_of_nil in Hu.
Qed.

(** X17. Without observations [RealityCheckAgent.assess] emits nothing
    when there is no candidate action either, and otherwise the one
    notice that no observation is available, with the first id drawn. *)
Theorem RealityCheckAgent_without_observations (lower : string → string)
    (e : Entropy) (n : nat) (situation : Situation.t) :
  Situation.observations situation = [] →
  (Situation.candidate_actions situation = [] →
   RealityCheckAgent_assess lower e n situation = ([], n))
  ∧ (Situation.candidate_actions situation ≠ [] →
     ∃ x, RealityCheckAgent_assess lower e n situation = ([x], S n)
          ∧ Assessment.claim x = "No observations available to inform decision"
          ∧ Assessment.severity x = "medium"
          ∧ Assessment.support x = []
          ∧ Assessment.action_id x = None
          ∧ Assessment.id x = uuid4 e n).
Proof.
  intros Hobs. unfold RealityCheckAgent_assess. rewrite Hobs.
  split.
  - intros ->. reflexivity.
  - intros Hne. destruct (Situation.candidate_actions situation);
      [congruence|].
    eexists. split; [reflexivity|]. cbn. repeat split.
Qed.

Lemma RealityCheckAgent_without_observations_witness :
  (Situation.candidate_actions fallback_situation = [] →
   RealityCheckAgent_assess ascii_lower sample_entropy 0 fallback_situation
   = ([], 0%nat))
  ∧ (Situation.candidate_actions fallback_situation ≠ [] →
     ∃ x, RealityCheckAgent_assess ascii_lower sample_entropy 0
            fallback_situation = ([x], 1%nat)
          ∧ Assessment.claim x = "No observations available to inform decision"
          ∧ Assessment.severity x = "medium"
          ∧ Assessment.support x = []
          ∧ Assessment.action_id x = None
          ∧ Assessment.id x = uuid4 sample_entropy 0).
Proof.
  apply (RealityCheckAgent_without_observations ascii_lower sample_entropy 0
           fallback_situation).
  reflexivity.
Defined.

Lemma filter_needs_monitoring_summary (out : list Assessment.t) :
  Forall about_situation out →
  map (λ x, "Monitor: " +:+ Assessment.claim x)
      (List.filter needs_monitoring out)
  = map (λ s : string * string * list UUID * list string,
           "Monitor: " +:+ fst (fst (fst s)))
        (List.filter (λ s : string * string * list UUID * list string,
                        bool_decide (snd (fst (fst s)) = "high"))
                     (map assessment_summary out)).
Proof.
  induction 1 as [|x l [_ Hx] _ IH]; [reflexivity|]. simpl.
  unfold needs_monitoring at 1. rewrite Hx. cbn [negb andb].
  destruct (bool_decide (Assessment.severity x = "high")); simpl;
    now rewrite IH.
Qed.

(** X18. The assessments of [RealityCheckAgent] reach the monitoring
    only under high stakes: the triggers that [generate_monitoring]
    derives from them are one for each observation of reliability "low"
    when the stakes are "high", and none for any other stakes. *)
Theorem RealityCheckAgent_monitoring (lower : string → string)
    (e : Entropy) (n : nat) (situation : Situation.t) :
  map MonitoringTrigger.condition
      (generate_monitoring (fst (RealityCheckAgent_assess lower e n situation)))
  = (if bool_decide (Situation.stakes situation = "high")
     then map (λ obs, "Monitor: Low reliability source '"
                      +:+ Observation.source obs
                      +:+ "' informing high-stakes decision")
              (List.filter is_low_reliability
                           (Situation.observations situation))
     else []).
Proof.
  unfold generate_monitoring. rewrite generate_monitoring_from. cbn [app].
  rewrite map_map. cbn [alert_trigger MonitoringTrigger.condition].
  rewrite filter_needs_monitoring_summary
    by apply RealityCheckAgent_assess_situation_level.
  rewrite RealityCheckAgent_assess_summaries, !List.filter_app, !map_app.
  assert (Hconf : List.filter
            (λ s : string * string * list UUID * list string,
               bool_decide (snd (fst (fst s)) = "high"))
            (conflict_summaries lower situation) = []).
  { unfold conflict_summaries.
    induction (list_prod _ _) as [|p l IH]; [reflexivity|exact IH]. }
  assert (Hmiss : List.filter
            (λ s : string * string * list UUID * list string,
               bool_decide (snd (fst (fst s)) = "high"))
            (missing_information_summaries situation) = []).
  { unfold missing_information_summaries.
    destruct (Situation.observations situation);
      destruct (Situation.candidate_actions situation); reflexivity. }
  rewrite Hconf, Hmiss, !app_nil_r.
  unfold low_reliability_summaries, stakes_high_or_medium.
  destruct (decide (Situation.stakes situation = "high")) as [Hh|Hh].
  - rewrite !(bool_decide_eq_true_2 _ Hh). cbn [orb]. rewrite Hh.
    induction (List.filter is_low_reliability _) as [|obs l IH];
      [reflexivity|].
    simpl. now rewrite IH.
  - rewrite !(bool_decide_eq_false_2 _ Hh). cbn [orb].
    destruct (bool_decide (Situation.stakes situation = "medium"));
      [|reflexivity].
    induction (List.filter is_low_reliability _) as [|obs l IH];
      [reflexivity|exact IH].
Qed.

(** ** Fresh ids *)

Lemma fresh_ids_emit (e : Entropy) (n0 : nat) (st : emitted)
    (mk : UUID → datetime → Assessment.t) :
  (∀ fresh now, Assessment.id (mk fresh now) = fresh) →
  fresh_ids e n0 st → fresh_ids e n0 (emit e st mk).
Proof.
  intros Hmk [Hids Hn]. unfold fresh_ids, emit. cbn [fst snd].
  rewrite length_app, map_app, Hids. simpl.
  rewrite Nat.add_1_r, seq_S, map_app, Hmk, Hn. simpl.
  split; [reflexivity|lia].
Qed.

Lemma fresh_ids_foldl {B} (e : Entropy) (n0 : nat)
    (f : emitted → B → emitted) (l : list B) (st : emitted) :
  (∀ st x, fresh_ids e n0 st → fresh_ids e n0 (f st x)) →
  fresh_ids e n0 st → fresh_ids e n0 (foldl f st l).
Proof.
  intros Hf. revert st. induction l as [|x l IH]; intros st Hst; simpl; auto.
Qed.

Lemma fresh_ids_start (e : Entropy) (n : nat) : fresh_ids e n ([], n).
Proof. split; [reflexivity|simpl; lia]. Qed.

(** X19. Every assessment takes its own [uuid4] draw: the ids of an
    evaluator run are the consecutive draws from the one the run starts
    at, in the order of emission, and the run reports how many draws it
    made.  This holds for each of the three evaluators. *)
Theorem evaluators_draw_fresh_ids (lower : string → string) (e : Entropy)
    (n : nat) (situation : Situation.t) :
  fresh_ids e n (ConstraintAgent_assess lower e n situation)
  ∧ fresh_ids e n (StabilityAgent_assess e n situation)
  ∧ fresh_ids e n (RealityCheckAgent_assess lower e n situation).
Proof.
  split; [|split].
  - unfold ConstraintAgent_assess.
    apply fresh_ids_foldl; [|apply fresh_ids_start].
    intros st a Hst. unfold ConstraintAgent_assess_action.
    repeat match goal with
           | |- context [if ?b then _ else _] => destruct b
           end;
      repeat (apply fresh_ids_emit; [reflexivity|]); exact Hst.
  - unfold StabilityAgent_assess.
    apply fresh_ids_foldl; [|apply fresh_ids_start].
    intros st a Hst. unfold StabilityAgent_assess_action.
    repeat match goal with
           | |- context [if ?b then _ else _] => destruct b
           end;
      repeat (apply fresh_ids_emit; [reflexivity|]); exact Hst.
  - unfold RealityCheckAgent_assess. cbv zeta.
    match goal with
    | |- context [foldl ?f ([], n) (Situation.observations situation)] =>
        set (st1 := foldl f ([], n) (Situation.observations situation))
    end.
    assert (H1 : fresh_ids e n st1).
    { apply fresh_ids_foldl; [|apply fresh_ids_start].
      intros st obs Hst. destruct (_ && _); [|exact Hst].
      apply fresh_ids_emit; [reflexivity|exact Hst]. }
    match goal with
    | |- context [foldl ?f st1 ?l] => set (st2 := foldl f st1 l)
    end.
    assert (H2 : fresh_ids e n st2).
    { apply fresh_ids_foldl; [|exact H1].
      intros st [obs1 obs2] Hst.
      apply fresh_ids_emit; [reflexivity|exact Hst]. }
    destruct (Situation.observations situation); [|exact H2].
    destruct (Situation.candidate_actions situation); [exact H2|].
    apply fresh_ids_emit; [reflexivity|exact H2].
Qed.

(** * The runner *)

Lemma invoke_from_step (g : StateGraph.t) (fuel : nat) (current next : string)
    (run_node : node) (n : nat) (state : DragonflyState.t) :
  current ≠ END →
  assoc current (StateGraph.nodes g) = Some run_node →
  assoc current (StateGraph.edges g) = Some next →
  invoke_from g (S fuel) current n state
  = match run_node n state with
    | Raise err => Some (Raise err)
    | Ok (u, n') => invoke_from g fuel next n' (apply_update state u)
    end.
Proof.
  intros Hne Hnode Hedge. cbn [invoke_from].
  rewrite (bool_decide_eq_false_2 _ Hne), Hnode, Hedge. reflexivity.
Qed.

Lemma invoke_from_end (g : StateGraph.t) (fuel : nat) (n : nat)
    (state : DragonflyState.t) :
  invoke_from g fuel END n state = Some (Ok state).
Proof. destruct fuel; reflexivity. Qed.

(** With fuel for its four nodes the graph runs the evaluators in the
    order constraint, stability, reality check and hands the
    concatenation of their outputs to [synthesize]. *)
Lemma run_unfold {R} `{PyFloat R} (lower : string → string) (e : Entropy)
    (fuel n : nat) (situation : Situation.t) :
  (4 <= fuel)%nat →
  DragonflyRunner_run (R:=R) lower e fuel n situation
  = Some (synthesize (R:=R) e
            (snd (pipeline_assessments lower e n situation)) situation
            (fst (pipeline_assessments lower e n situation))).
Proof.
  intros Hfuel.
  do 4 (destruct fuel as [|fuel]; [lia|]). clear Hfuel.
  unfold DragonflyRunner_run, invoke, pipeline_assessments.
  cbn [StateGraph.entry_point _build_graph].
  rewrite (invoke_from_step _ _ "constraint" "stability"
             (_constraint_node lower e)) by (discriminate || reflexivity).
  unfold _constraint_node at 1. cbn [DragonflyState.situation
    DragonflyState.assessments].
  destruct (ConstraintAgent_assess lower e n situation) as [c n1].
  rewrite (invoke_from_step _ _ "stability" "reality_check"
             (_stability_node e)) by (discriminate || reflexivity).
  unfold _stability_node at 1. cbn [apply_update DragonflyState.situation
    DragonflyState.assessments fst snd app].
  destruct (StabilityAgent_assess e n1 situation) as [s n2].
  rewrite (invoke_from_step _ _ "reality_check" "synthesis"
             (_reality_check_node lower e)) by (discriminate || reflexivity).
  unfold _reality_check_node at 1. cbn [apply_update DragonflyState.situation
    DragonflyState.assessments fst snd app].
  destruct (RealityCheckAgent_assess lower e n2 situation) as [r n3].
  rewrite (invoke_from_step _ _ "synthesis" END
             (_synthesis_node e)) by (discriminate || reflexivity).
  unfold _synthesis_node at 1. cbn [apply_update DragonflyState.situation
    DragonflyState.assessments DragonflyState.decision fst snd].
  rewrite <- app_assoc.
  destruct (synthesize e n3 situation (c ++ s ++ r)) as [d|err];
    cbn [mbind result_bind]; [|reflexivity].
  rewrite invoke_from_end. reflexivity.
Qed.

(** X20. [DragonflyRunner.run] is [synthesize] applied to the
    concatenation of the outputs of [ConstraintAgent], [StabilityAgent]
    and [RealityCheckAgent], in this order, each computed from the
    situation alone; the graph needs four node runs for it. *)
Theorem DragonflyRunner_run_is_synthesis {R} `{PyFloat R}
    (lower : string → string) (e : Entropy) (fuel n : nat)
    (situation : Situation.t) :
  (4 <= fuel)%nat →
  DragonflyRunner_run (R:=R) lower e fuel n situation
  = Some (synthesize (R:=R) e
            (snd (pipeline_assessments lower e n situation)) situation
            (fst (ConstraintAgent_assess lower e n situation)
             ++ fst (StabilityAgent_assess e
                       (snd (ConstraintAgent_assess lower e n situation))
                       situation)
             ++ fst (RealityCheckAgent_assess lower e
                       (snd (StabilityAgent_assess e
                               (snd (ConstraintAgent_assess lower e n situation))
                               situation))
                       situation))%list).
Proof.
  intros Hfuel. rewrite run_unfold by exact Hfuel. reflexivity.
Qed.

Lemma DragonflyRunner_run_is_synthesis_witness :
  DragonflyRunner_run (R:=float) ascii_lower sample_entropy 4 0
    deadline_situation
  = Some (synthesize (R:=float) sample_entropy
            (snd (pipeline_assessments ascii_lower sample_entropy 0
                    deadline_situation))
            deadline_situation
            (fst (ConstraintAgent_assess ascii_lower sample_entropy 0
                    deadline_situation)
             ++ fst (StabilityAgent_assess sample_entropy
                       (snd (ConstraintAgent_assess ascii_lower sample_entropy
                               0 deadline_situation))
                       deadline_situation)
             ++ fst (RealityCheckAgent_assess ascii_lower sample_entropy
                       (snd (StabilityAgent_assess sample_entropy
                               (snd (ConstraintAgent_assess ascii_lower
                                       sample_entropy 0 deadline_situation))
                               deadline_situation))
                       deadline_situation))%list).
Proof.
  apply (DragonflyRunner_run_is_synthesis ascii_lower sample_entropy 4 0
           deadline_situation).
  lia.
Defined.

(** X21. Given fuel for its four nodes, [DragonflyRunner.run] returns a
    decision exactly when the situation has a candidate action, in any
    arithmetic; with no candidate it raises the [ValueError] of the
    fallback, and its own error for a missing decision never occurs. *)
Theorem DragonflyRunner_run_outcome {R} `{PyFloat R}
    (lower : string → string) (e : Entropy) (fuel n : nat)
    (situation : Situation.t) :
  (4 <= fuel)%nat →
  match DragonflyRunner_run (R:=R) lower e fuel n situation with
  | Some (Ok d) =>
      Situation.candidate_actions situation ≠ []
      ∧ Decision.situation_id d = Situation.id situation
  | Some (Raise err) =>
      Situation.candidate_actions situation = []
      ∧ err = ValueError "Cannot find most reversible from empty list"
  | None => False
  end.
Proof.
  intros Hfuel. rewrite run_unfold by exact Hfuel.
  destruct (Situation.candidate_actions situation) as [|a0 rest] eqn:Hc.
  - unfold synthesize. rewrite Hc. cbn. auto.
  - assert (Hne : Situation.candidate_actions situation ≠ [])
      by (rewrite Hc; discriminate).
    destruct (synthesize_paths e
                (snd (pipeline_assessments lower e n situation)) situation
                (fst (pipeline_assessments lower e n situation)) Hne)
      as (a & basis & -> & _).
    split; [discriminate|reflexivity].
Qed.

Lemma DragonflyRunner_run_outcome_witness :
  match DragonflyRunner_run (R:=float) ascii_lower sample_entropy 4 0
          deadline_situation with
  | Some (Ok d) =>
      Situation.candidate_actions deadline_situation ≠ []
      ∧ Decision.situation_id d = Situation.id deadline_situation
  | Some (Raise err) =>
      Situation.candidate_actions deadline_situation = []
      ∧ err = ValueError "Cannot find most reversible from empty list"
  | None => False
  end.
Proof.
  apply (DragonflyRunner_run_outcome ascii_lower sample_entropy 4 0
           deadline_situation).
  lia.
Defined.

(** The hard constraints that reach the synthesis node are those of
    [ConstraintAgent]. *)
Lemma hard_constrained_ids (l : list Assessment.t) (aid : UUID) :
  hard_constrained l aid
  ↔ Some aid ∈ map Assessment.action_id (hard_constraints_of l).
Proof.
  unfold hard_constrained, hard_constraints_of.
  rewrite Exists_exists, list_elem_of_fmap. split.
  - intros (x & Hx & Hh & Hid). exists x. split; [now symmetry|].
    apply list_elem_of_In, List.filter_In. split; [now apply list_elem_of_In|exact Hh].
  - intros (x & Hid & Hx). apply list_elem_of_In, List.filter_In in Hx as [Hx Hh].
    exists x. split; [now apply list_elem_of_In|]. split; [exact Hh|now symmetry].
Qed.

Lemma pipeline_hard_constraints (lower : string → string) (e : Entropy)
    (n : nat) (situation : Situation.t) :
  map Assessment.action_id
      (hard_constraints_of (fst (pipeline_assessments lower e n situation)))
  = (if ConstraintAgent_has_deadline_indicator lower situation
     then map (λ a, Some (ActionSpec.id a))
              (List.filter is_flexible (Situation.candidate_actions situation))
     else []).
Proof.
  unfold pipeline_assessments. cbn [fst].
  rewrite !hard_constraints_of_app.
  assert (Hs : ∀ m, hard_constraints_of (fst (StabilityAgent_assess e m situation))
                    = []).
  { intros m. unfold StabilityAgent_assess.
    destruct (stability_loop e situation
                (Situation.candidate_actions situation) ([], m))
      as (new & -> & _ & Hall).
    cbn [fst app]. clear -Hall.
    induction Hall as [|a x l l' (_ & Hx & _) _ IH]; [reflexivity|].
    unfold hard_constraints_of in *. simpl. now rewrite Hx. }
  assert (Hr : ∀ m, hard_constraints_of
                      (fst (RealityCheckAgent_assess lower e m situation)) = []).
  { intros m.
    pose proof (RealityCheckAgent_assess_situation_level lower e m situation)
      as Hall.
    induction Hall as [|x l [_ Hx] _ IH]; [reflexivity|].
    unfold hard_constraints_of in *. simpl. now rewrite Hx. }
  rewrite Hs, Hr, !app_nil_r.
  unfold ConstraintAgent_assess.
  destruct (assess_loop e situation
              (ConstraintAgent_has_deadline_indicator lower situation)
              (Situation.candidate_actions situation) ([], n))
    as (new & -> & Hids & _).
  exact Hids.
Qed.

(** Which candidates the combined assessments exclude. *)
Lemma pipeline_hard_constrained (lower : string → string) (e : Entropy)
    (n : nat) (situation : Situation.t) (a : ActionSpec.t) :
  hard_constrained (fst (pipeline_assessments lower e n situation))
                   (ActionSpec.id a)
  ↔ ConstraintAgent_has_deadline_indicator lower situation = true
    ∧ ∃ b, b ∈ Situation.candidate_actions situation
           ∧ is_flexible b = true
           ∧ ActionSpec.id b = ActionSpec.id a.
Proof.
  rewrite hard_constrained_ids, pipeline_hard_constraints.
  destruct (ConstraintAgent_has_deadline_indicator lower situation).
  - rewrite list_elem_of_fmap. split.
    + intros (b & Heq & Hb).
      apply list_elem_of_In, List.filter_In in Hb as [Hb Hf].
      split; [reflexivity|]. exists b.
      split; [now apply list_elem_of_In|]. split; [exact Hf|congruence].
    + intros (_ & b & Hb & Hf & Heq). exists b. split; [congruence|].
      apply list_elem_of_In, List.filter_In.
      split; [now apply list_elem_of_In|exact Hf].
  - split; [intros Hin; now apply elem_of_nil in Hin|intros [? _]; discriminate].
Qed.

(** Under a deadline, synthesis over the combined assessments selects a
    candidate that is not flexible, if one exists whose id no flexible
    candidate shares. *)
Lemma synthesize_pipeline_deadline {R} `{PyFloat R}
    (lower : string → string) (e : Entropy) (n : nat)
    (situation : Situation.t) :
  deadline_bearing lower situation →
  (∃ a, a ∈ Situation.candidate_actions situation
        ∧ is_flexible a = false
        ∧ ∀ b, b ∈ Situation.candidate_actions situation →
               is_flexible b = true → ActionSpec.id b ≠ ActionSpec.id a) →
  ∃ a basis,
    synthesize (R:=R) e (snd (pipeline_assessments lower e n situation))
      situation (fst (pipeline_assessments lower e n situation))
    = Ok (decision_of e (snd (pipeline_assessments lower e n situation))
            situation (fst (pipeline_assessments lower e n situation))
            a basis)
    ∧ a ∈ Situation.candidate_actions situation
    ∧ is_flexible a = false.
Proof.
  intros Hd (a0 & Ha0 & Hrigid & Huniq).
  apply has_deadline_indicator_spec in Hd.
  assert (Hne : Situation.candidate_actions situation ≠ []).
  { intros Hnil. rewrite Hnil in Ha0. now apply elem_of_nil in Ha0. }
  destruct (synthesize_paths e
              (snd (pipeline_assessments lower e n situation)) situation
              (fst (pipeline_assessments lower e n situation)) Hne)
    as (a & basis & Hs & Ha & [(_ & Hsurv & _)|(Hnone & _)]).
  - exists a, basis. split; [exact Hs|]. split; [exact Ha|].
    apply filter_by_constraints_elem in Hsurv as [_ Hsurv].
    destruct (is_flexible a) eqn:Hflex; [|reflexivity].
    exfalso. apply Hsurv. apply pipeline_hard_constrained.
    split; [exact Hd|]. eauto.
  - exfalso.
    assert (Hin : a0 ∈ filter_by_constraints
                          (Situation.candidate_actions situation)
                          (fst (pipeline_assessments lower e n situation))).
    { apply filter_by_constraints_elem. split; [exact Ha0|].
      rewrite pipeline_hard_constrained. intros (_ & b & Hb & Hf & Heq).
      now apply (Huniq b Hb Hf). }
    rewrite Hnone in Hin. now apply elem_of_nil in Hin.
Qed.

(** X22. Under a deadline the runner does not select a flexible action
    while another choice exists: when the situation bears a deadline and
    some candidate is not flexible and shares its id with no flexible
    candidate, the decision is made among the candidates that passed, and
    its selected action is not flexible. *)
Theorem DragonflyRunner_run_respects_deadline {R} `{PyFloat R}
    (lower : string → string) (e : Entropy) (fuel n : nat)
    (situation : Situation.t) :
  (4 <= fuel)%nat →
  deadline_bearing lower situation →
  (∃ a, a ∈ Situation.candidate_actions situation
        ∧ is_flexible a = false
        ∧ ∀ b, b ∈ Situation.candidate_actions situation →
               is_flexible b = true → ActionSpec.id b ≠ ActionSpec.id a) →
  ∃ d, DragonflyRunner_run (R:=R) lower e fuel n situation = Some (Ok d)
       ∧ Decision.selected_action d ∈ Situation.candidate_actions situation
       ∧ is_flexible (Decision.selected_action d) = false.
Proof.
  intros Hfuel Hd Hex.
  rewrite run_unfold by exact Hfuel.
  destruct (synthesize_pipeline_deadline (R:=R) lower e n situation Hd Hex)
    as (a & basis & -> & Ha & Hflex).
  eexists. split; [reflexivity|]. split; [exact Ha|exact Hflex].
Qed.

(** X23. Without a deadline no evaluator excludes an action: every
    candidate reaches the selection. *)
Theorem pipeline_without_deadline_keeps_all (lower : string → string)
    (e : Entropy) (n : nat) (situation : Situation.t) :
  ¬ deadline_bearing lower situation →
  filter_by_constraints (Situation.candidate_actions situation)
    (fst (pipeline_assessments lower e n situation))
  = Situation.candidate_actions situation.
Proof.
  intros Hd. rewrite <- has_deadline_indicator_spec in Hd.
  apply not_true_is_false in Hd.
  pose proof (pipeline_hard_constraints lower e n situation) as Hhard.
  rewrite Hd in Hhard.
  rewrite filter_by_constraints_decide.
  apply forallb_filter_id, forallb_forall. intros a _.
  apply bool_decide_eq_true. rewrite hard_constrained_ids, Hhard.
  apply not_elem_of_nil.
Qed.

Lemma pipeline_without_deadline_keeps_all_witness :
  filter_by_constraints (Situation.candidate_actions fallback_situation)
    (fst (pipeline_assessments ascii_lower sample_entropy 0 fallback_situation))
  = Situation.candidate_actions fallback_situation.
Proof.
  apply (pipeline_without_deadline_keeps_all ascii_lower sample_entropy 0
           fallback_situation).
  intros (obs & kw & Hobs & _). simpl in Hobs. now apply elem_of_nil in Hobs.
Defined.

Lemma DragonflyRunner_run_respects_deadline_witness :
  ∃ d, DragonflyRunner_run (R:=float) ascii_lower sample_entropy 4 0
         deadline_situation = Some (Ok d)
       ∧ Decision.selected_action d
           ∈ Situation.candidate_actions deadline_situation
       ∧ is_flexible (Decision.selected_action d) = false.
Proof.
  apply (DragonflyRunner_run_respects_deadline ascii_lower sample_entropy 4 0
           deadline_situation).
  - lia.
  - eexists _, "deadline". split; [left|]. split; [|reflexivity].
    unfold DEADLINE_KEYWORDS. apply elem_of_list_to_set. left.
  - exists (sample_action "Immediate" "reversible" 2%N (Some "immediate")).
    split; [right; left|]. split; [reflexivity|].
    intros b Hb Hflex.
    apply elem_of_cons in Hb as [->|Hb]; [discriminate|].
    apply elem_of_cons in Hb as [->|Hb]; [discriminate|].
    now apply elem_of_nil in Hb.
Defined.

(** * The HTTP route *)

Section RoutesProofs.
Context {R : Type} `{PyFloat R}.
Context (lower : string → string) (e : Entropy).
Context (uuid_str : UUID → string) (isoformat : datetime → string).

Lemma situation_of_request_actions (n : nat)
    (request : routes.SituationRequest.t) :
  Situation.candidate_actions (fst (routes.situation_of_request e n request))
  = imap (λ i a, routes._action_spec_from_request e
                   (action_draws_from n request + i) a)
         (routes.SituationRequest.candidate_actions request).
Proof. reflexivity. Qed.

Lemma situation_of_request_action_ids (n : nat)
    (request : routes.SituationRequest.t) :
  map ActionSpec.id
      (Situation.candidate_actions
         (fst (routes.situation_of_request e n request)))
  = uuid4 e <$> seq (action_draws_from n request)
                    (length (routes.SituationRequest.candidate_actions request)).
Proof.
  rewrite situation_of_request_actions.
  change (map ActionSpec.id) with (fmap (M:=list) ActionSpec.id).
  rewrite fmap_imap. apply (imap_seq _ (uuid4 e)).
Qed.

Lemma situation_of_request_nil (n : nat)
    (request : routes.SituationRequest.t) :
  Situation.candidate_actions (fst (routes.situation_of_request e n request))
  = []
  ↔ routes.SituationRequest.candidate_actions request = [].
Proof.
  rewrite situation_of_request_actions.
  destruct (routes.SituationRequest.candidate_actions request);
    [tauto|split; discriminate].
Qed.

Lemma decide_unfold (fuel n : nat) (request : routes.SituationRequest.t) :
  (4 <= fuel)%nat →
  routes.decide (R:=R) lower e uuid_str isoformat fuel n request
  = let situation := fst (routes.situation_of_request e n request) in
    let m := snd (routes.situation_of_request e n request) in
    match synthesize (R:=R) e (snd (pipeline_assessments lower e m situation))
            situation (fst (pipeline_assessments lower e m situation)) with
    | Ok decision =>
        Some (routes.Respond
                (routes._decision_to_response uuid_str isoformat decision))
    | Raise (ValueError msg) => Some (routes.HTTPException 400 msg)
    | Raise (IndexError msg) =>
        Some (routes.HTTPException 500 ("Internal error: " +:+ msg))
    end.
Proof.
  intros Hfuel. unfold routes.decide.
  destruct (routes.situation_of_request e n request) as [situation m].
  rewrite run_unfold by exact Hfuel. reflexivity.
Qed.

End RoutesProofs.

Section RoutesTheorems.
Context {R : Type} `{PyFloat R}.
Context (lower : string → string) (e : Entropy).
Context (uuid_str : UUID → string) (isoformat : datetime → string).

(** X24. [POST /decide] answers with a decision exactly when the request
    lists a candidate action, and with status 400 and the message of the
    fallback otherwise; status 500 does not occur.  The response carries
    the tenant of the request and the id drawn for the situation, and its
    selected action is one of the requested actions, with the id drawn
    for it. *)
Theorem decide_outcome (fuel n : nat) (request : routes.SituationRequest.t) :
  (4 <= fuel)%nat →
  match routes.decide (R:=R) lower e uuid_str isoformat fuel n request with
  | Some (routes.Respond r) =>
      routes.SituationRequest.candidate_actions request ≠ []
      ∧ routes.DecisionResponse.tenant_id r
        = routes.SituationRequest.tenant_id request
      ∧ routes.DecisionResponse.situation_id r
        = uuid_str
            (uuid4 e
               (action_draws_from n request
                + length (routes.SituationRequest.candidate_actions request)))
      ∧ ∃ i a,
          routes.SituationRequest.candidate_actions request !! i = Some a
          ∧ routes.DecisionResponse.selected_action r
            = requested_action_response e uuid_str n request i a
  | Some (routes.HTTPException status_code detail) =>
      routes.SituationRequest.candidate_actions request = []
      ∧ status_code = 400%Z
      ∧ detail = "Cannot find most reversible from empty list"
  | None => False
  end.
Proof.
  intros Hfuel. rewrite (decide_unfold lower e uuid_str isoformat) by exact Hfuel.
  cbv zeta.
  destruct (routes.SituationRequest.candidate_actions request) as [|a0 rest]
    eqn:Hc.
  - assert (Hnil : Situation.candidate_actions
                     (fst (routes.situation_of_request e n request)) = [])
      by (apply situation_of_request_nil; exact Hc).
    unfold synthesize. rewrite Hnil. cbn. auto.
  - assert (Hne : Situation.candidate_actions
                    (fst (routes.situation_of_request e n request)) ≠ []).
    { rewrite situation_of_request_nil, Hc. discriminate. }
    destruct (synthesize_paths e
                (snd (pipeline_assessments lower e
                        (snd (routes.situation_of_request e n request))
                        (fst (routes.situation_of_request e n request))))
                (fst (routes.situation_of_request e n request))
                (fst (pipeline_assessments lower e
                        (snd (routes.situation_of_request e n request))
                        (fst (routes.situation_of_request e n request))))
                Hne)
      as (a & basis & -> & Ha & _).
    split; [discriminate|]. split; [reflexivity|]. split.
    + cbn. unfold action_draws_from. rewrite Hc. reflexivity.
    + rewrite situation_of_request_actions in Ha.
      apply elem_of_lookup_imap in Ha as (i & req & -> & Hi).
      rewrite Hc in Hi. exists i, req. split; [exact Hi|reflexivity].
Qed.

(** X25. When the ids drawn for the requested actions are pairwise
    distinct, the response accounts for every requested action exactly
    once: the selected action followed by the alternatives is a
    permutation of the requested actions. *)
Theorem decide_partitions_request (fuel n : nat)
    (request : routes.SituationRequest.t) :
  (4 <= fuel)%nat →
  routes.SituationRequest.candidate_actions request ≠ [] →
  NoDup (uuid4 e <$>
         seq (action_draws_from n request)
             (length (routes.SituationRequest.candidate_actions request))) →
  ∃ r,
    routes.decide (R:=R) lower e uuid_str isoformat fuel n request
    = Some (routes.Respond r)
    ∧ Permutation
        (routes.DecisionResponse.selected_action r
         :: routes.DecisionResponse.alternatives_considered r)
        (imap (requested_action_response e uuid_str n request)
              (routes.SituationRequest.candidate_actions request)).
Proof.
  intros Hfuel Hc Hnd.
  rewrite (decide_unfold lower e uuid_str isoformat) by exact Hfuel. cbv zeta.
  assert (Hne : Situation.candidate_actions
                  (fst (routes.situation_of_request e n request)) ≠ [])
    by (now rewrite situation_of_request_nil).
  destruct (synthesize_paths e
              (snd (pipeline_assessments lower e
                      (snd (routes.situation_of_request e n request))
                      (fst (routes.situation_of_request e n request))))
              (fst (routes.situation_of_request e n request))
              (fst (pipeline_assessments lower e
                      (snd (routes.situation_of_request e n request))
                      (fst (routes.situation_of_request e n request))))
              Hne)
    as (a & basis & -> & Ha & _).
  eexists. split; [reflexivity|].
  cbn [routes._decision_to_response routes.DecisionResponse.selected_action
       routes.DecisionResponse.alternatives_considered decision_of
       Decision.selected_action Decision.alternatives_considered].
  rewrite <- situation_of_request_action_ids in Hnd.
  pose proof (filter_other_ids_perm a _ Ha Hnd) as Hperm.
  apply (Permutation_map (routes.action_spec_response uuid_str)) in Hperm.
  symmetry. etransitivity; [|exact Hperm].
  rewrite situation_of_request_actions.
  change (map (routes.action_spec_response uuid_str))
    with (fmap (M:=list) (routes.action_spec_response uuid_str)).
  rewrite fmap_imap. reflexivity.
Qed.

(** X26. When a requested observation holds a deadline keyword, some
    requested action is not flexible and the ids drawn for the actions
    are pairwise distinct, the action selected in the response is not
    flexible. *)
Theorem decide_respects_deadline (fuel n : nat)
    (request : routes.SituationRequest.t) :
  (4 <= fuel)%nat →
  request_deadline_bearing lower request →
  (∃ a, a ∈ routes.SituationRequest.candidate_actions request
        ∧ routes.ActionSpecRequest.time_sensitivity a ≠ Some "flexible") →
  NoDup (uuid4 e <$>
         seq (action_draws_from n request)
             (length (routes.SituationRequest.candidate_actions request))) →
  ∃ r,
    routes.decide (R:=R) lower e uuid_str isoformat fuel n request
    = Some (routes.Respond r)
    ∧ routes.ActionSpecResponse.time_sensitivity
        (routes.DecisionResponse.selected_action r) ≠ Some "flexible".
Proof.
  intros Hfuel (o & kw & Ho & Hkw & Hin) (a0 & Ha0 & Hrigid) Hnd.
  rewrite (decide_unfold lower e uuid_str isoformat) by exact Hfuel. cbv zeta.
  set (situation := fst (routes.situation_of_request e n request)).
  set (m := snd (routes.situation_of_request e n request)).
  assert (Hd : deadline_bearing lower situation).
  { apply list_elem_of_lookup in Ho as [i Hi].
    exists (routes._observation_from_request e (n + i) o), kw.
    split; [|split; [exact Hkw|exact Hin]].
    apply (elem_of_lookup_imap_2
             (λ i o, routes._observation_from_request e (n + i) o) _ _ _ Hi). }
  rewrite <- situation_of_request_action_ids in Hnd. fold situation in Hnd.
  assert (Hex : ∃ a, a ∈ Situation.candidate_actions situation
                     ∧ is_flexible a = false
                     ∧ ∀ b, b ∈ Situation.candidate_actions situation →
                            is_flexible b = true →
                            ActionSpec.id b ≠ ActionSpec.id a).
  { apply list_elem_of_lookup in Ha0 as [i Hi].
    exists (routes._action_spec_from_request e
              (action_draws_from n request + i) a0).
    assert (Hmem : routes._action_spec_from_request e
                     (action_draws_from n request + i) a0
                   ∈ Situation.candidate_actions situation).
    { unfold situation. rewrite situation_of_request_actions.
      apply (elem_of_lookup_imap_2
               (λ i a, routes._action_spec_from_request e
                         (action_draws_from n request + i) a) _ _ _ Hi). }
    split; [exact Hmem|]. split.
    - apply bool_decide_eq_false_2. exact Hrigid.
    - intros b Hb Hflex Heq.
      assert (b = routes._action_spec_from_request e
                    (action_draws_from n request + i) a0) as ->.
      { apply list_elem_of_lookup in Hb as [j Hj].
        apply list_elem_of_lookup in Hmem as [k Hk].
        assert (j = k) as ->; [|congruence].
        eapply NoDup_lookup; [exact Hnd| |].
        - rewrite list_lookup_fmap, Hj. reflexivity.
        - rewrite list_lookup_fmap, Hk. cbn. now rewrite Heq. }
      apply bool_decide_eq_true in Hflex. now apply Hrigid. }
  destruct (synthesize_pipeline_deadline (R:=R) lower e m situation Hd Hex)
    as (a & basis & -> & _ & Hflex).
  eexists. split; [reflexivity|].
  cbn. intros Heq. apply bool_decide_eq_false in Hflex. now apply Hflex.
Qed.

End RoutesTheorems.

Lemma decide_outcome_witness :
  match routes.decide (R:=float) ascii_lower sample_entropy sample_uuid_str
          sample_isoformat 4 0 sample_request with
  | Some (routes.Respond r) =>
      routes.SituationRequest.candidate_actions sample_request ≠ []
      ∧ routes.DecisionResponse.tenant_id r
        = routes.SituationRequest.tenant_id sample_request
      ∧ routes.DecisionResponse.situation_id r
        = sample_uuid_str
            (uuid4 sample_entropy
               (action_draws_from 0 sample_request
                + length (routes.SituationRequest.candidate_actions
                            sample_request)))
      ∧ ∃ i a,
          routes.SituationRequest.candidate_actions sample_request !! i
          = Some a
          ∧ routes.DecisionResponse.selected_action r
            = requested_action_response sample_entropy sample_uuid_str 0
                sample_request i a
  | Some (routes.HTTPException status_code detail) =>
      routes.SituationRequest.candidate_actions sample_request = []
      ∧ status_code = 400%Z
      ∧ detail = "Cannot find most reversible from empty list"
  | None => False
  end.
Proof.
  apply (decide_outcome ascii_lower sample_entropy sample_uuid_str
           sample_isoformat 4 0 sample_request).
  lia.
Defined.

Lemma sample_request_draws :
  NoDup (uuid4 sample_entropy <$>
         seq (action_draws_from 0 sample_request)
             (length (routes.SituationRequest.candidate_actions
                        sample_request))).
Proof.
  cbn. constructor; [|constructor; [|constructor]].
  - intros Hin. apply elem_of_cons in Hin as [Hin|Hin]; [discriminate|].
    now apply elem_of_nil in Hin.
  - apply not_elem_of_nil.
Qed.

Lemma decide_partitions_request_witness :
  ∃ r,
    routes.decide (R:=float) ascii_lower sample_entropy sample_uuid_str
      sample_isoformat 4 0 sample_request
    = Some (routes.Respond r)
    ∧ Permutation
        (routes.DecisionResponse.selected_action r
         :: routes.DecisionResponse.alternatives_considered r)
        (imap (requested_action_response sample_entropy sample_uuid_str 0
                 sample_request)
              (routes.SituationRequest.candidate_actions sample_request)).
Proof.
  apply (decide_partitions_request ascii_lower sample_entropy sample_uuid_str
           sample_isoformat 4 0 sample_request).
  - lia.
  - discriminate.
  - exact sample_request_draws.
Defined.

Lemma decide_respects_deadline_witness :
  ∃ r,
    routes.decide (R:=float) ascii_lower sample_entropy sample_uuid_str
      sample_isoformat 4 0 sample_request
    = Some (routes.Respond r)
    ∧ routes.ActionSpecResponse.time_sensitivity
        (routes.DecisionResponse.selected_action r) ≠ Some "flexible".
Proof.
  apply (decide_respects_deadline ascii_lower sample_entropy sample_uuid_str
           sample_isoformat 4 0 sample_request).
  - lia.
  - eexists _, "deadline". split; [left|]. split; [|reflexivity].
    unfold DEADLINE_KEYWORDS. apply elem_of_list_to_set. left.
  - eexists. split; [right; left|]. discriminate.
  - exact sample_request_draws.
Defined.

(** * Serialization *)

Lemma getitem_here (key : string) (v : types.pyval)
    (d : list (string * types.pyval)) :
  types.getitem (types.PDict ((key, v) :: d)) key = types.Returns v.
Proof.
  unfold types.getitem, assoc. cbn.
  rewrite bool_decide_eq_true_2 by reflexivity. reflexivity.
Qed.

Lemma getitem_later (key key' : string) (v : types.pyval)
    (d : list (string * types.pyval)) :
  key' ≠ key →
  types.getitem (types.PDict ((key', v) :: d)) key
  = types.getitem (types.PDict d) key.
Proof.
  intros Hne. unfold types.getitem, assoc. cbn.
  rewrite bool_decide_eq_false_2 by exact Hne. reflexivity.
Qed.

Lemma getitem_missing (key : string) :
  types.getitem (types.PDict []) key = types.Raises (types.KeyError key).
Proof. reflexivity. Qed.

Lemma get_here (key : string) (v dflt : types.pyval)
    (d : list (string * types.pyval)) :
  types.get (types.PDict ((key, v) :: d)) key dflt = types.Returns v.
Proof.
  unfold types.get, assoc. cbn.
  rewrite bool_decide_eq_true_2 by reflexivity. reflexivity.
Qed.

Lemma get_later (key key' : string) (v dflt : types.pyval)
    (d : list (string * types.pyval)) :
  key' ≠ key →
  types.get (types.PDict ((key', v) :: d)) key dflt
  = types.get (types.PDict d) key dflt.
Proof.
  intros Hne. unfold types.get, assoc. cbn.
  rewrite bool_decide_eq_false_2 by exact Hne. reflexivity.
Qed.

Lemma get_missing (key : string) (dflt : types.pyval) :
  types.get (types.PDict []) key dflt = types.Returns dflt.
Proof. reflexivity. Qed.

(** Looks the keys up in a dict display. *)
Ltac subscript :=
  repeat first
    [ rewrite getitem_here
    | rewrite get_here
    | rewrite getitem_missing
    | rewrite get_missing
    | rewrite getitem_later by discriminate
    | rewrite get_later by discriminate ];
  cbn [mbind types.outcome_bind types.truthy].

Ltac drop_key :=
  cbn [without_key List.filter fst negb String.eqb Ascii.eqb Bool.eqb andb].

Ltac each_key Hkey :=
  cbn [keys_of map fst] in Hkey;
  repeat (apply elem_of_cons in Hkey as [->|Hkey]);
  [..|now apply elem_of_nil in Hkey].

Section Serialization.
Import types.
Context `{Runtime}.
Hypothesis UUID_of_str : ∀ u, UUID_of (PStr (uuid_str u)) = Returns u.
Hypothesis uuid_str_nonempty : ∀ u, uuid_str u ≠ "".
Hypothesis fromisoformat_isoformat :
  ∀ t, fromisoformat (PStr (isoformat t)) = Returns t.

Lemma list_comprehension_fmap {A} (f : pyval → outcome A) (g : A → pyval)
    (l : list A) :
  (∀ x, f (g x) = Returns x) →
  list_comprehension f (PList (g <$> l)) = Returns l.
Proof.
  intros Hfg. unfold list_comprehension. cbn.
  induction l as [|x l IH]; [reflexivity|].
  cbn. rewrite Hfg. cbn. rewrite IH. reflexivity.
Qed.

Lemma UUID_list_from_to (l : list UUID) :
  list_comprehension UUID_of (PList ((λ s, PStr (uuid_str s)) <$> l))
  = Returns l.
Proof. apply list_comprehension_fmap, UUID_of_str. Qed.

Lemma truthy_uuid_str (u : UUID) :
  negb (bool_decide (uuid_str u = "")) = true.
Proof. now rewrite bool_decide_eq_false_2 by apply uuid_str_nonempty. Qed.

Lemma Observation_from_to_dict (self : Observation.t) :
  Observation.from_dict (Observation.to_dict self) = Returns self.
Proof.
  destruct self. unfold Observation.from_dict, Observation.to_dict.
  cbn [Observation.id Observation.content Observation.source
       Observation.reliability Observation.timestamp].
  subscript. rewrite UUID_of_str. subscript.
  rewrite fromisoformat_isoformat. reflexivity.
Qed.

Lemma ActionSpec_from_to_dict (self : ActionSpec.t) :
  ActionSpec.from_dict (ActionSpec.to_dict self) = Returns self.
Proof.
  destruct self. unfold ActionSpec.from_dict, ActionSpec.to_dict.
  cbn [ActionSpec.id ActionSpec.name ActionSpec.description
       ActionSpec.reversibility ActionSpec.time_sensitivity].
  subscript. rewrite UUID_of_str. subscript. reflexivity.
Qed.

Lemma MonitoringTrigger_from_to_dict (self : MonitoringTrigger.t) :
  MonitoringTrigger.from_dict (MonitoringTrigger.to_dict self) = Returns self.
Proof.
  destruct self. unfold MonitoringTrigger.from_dict, MonitoringTrigger.to_dict.
  subscript. reflexivity.
Qed.

Lemma Observation_list_from_to (l : list Observation.t) :
  list_comprehension Observation.from_dict (PList (Observation.to_dict <$> l))
  = Returns l.
Proof. apply list_comprehension_fmap, Observation_from_to_dict. Qed.

Lemma ActionSpec_list_from_to (l : list ActionSpec.t) :
  list_comprehension ActionSpec.from_dict (PList (ActionSpec.to_dict <$> l))
  = Returns l.
Proof. apply list_comprehension_fmap, ActionSpec_from_to_dict. Qed.

Lemma MonitoringTrigger_list_from_to (l : list MonitoringTrigger.t) :
  list_comprehension MonitoringTrigger.from_dict
    (PList (MonitoringTrigger.to_dict <$> l))
  = Returns l.
Proof. apply list_comprehension_fmap, MonitoringTrigger_from_to_dict. Qed.

(** Reads the fields back one after the other. *)
Local Ltac decode :=
  repeat (progress
            (subscript;
             rewrite ?UUID_of_str, ?fromisoformat_isoformat,
                     ?UUID_list_from_to, ?truthy_uuid_str,
                     ?Observation_list_from_to, ?ActionSpec_list_from_to,
                     ?MonitoringTrigger_list_from_to,
                     ?ActionSpec_from_to_dict)).

Lemma Assessment_from_to_dict (self : Assessment.t) :
  Assessment.from_dict (Assessment.to_dict self) = Returns self.
Proof.
  destruct self as [sid agent claim support conf sev rev hard id aid tests at_].
  unfold Assessment.from_dict, Assessment.to_dict.
  cbn [Assessment.id Assessment.situation_id Assessment.agent_type
       Assessment.claim Assessment.support Assessment.confidence
       Assessment.severity Assessment.reversibility
       Assessment.is_hard_constraint Assessment.action_id
       Assessment.recommended_tests Assessment.created_at].
  destruct aid as [u|]; decode; reflexivity.
Qed.

Lemma Situation_from_to_dict (self : Situation.t) :
  Situation.from_dict (Situation.to_dict self) = Returns self.
Proof.
  destruct self. unfold Situation.from_dict, Situation.to_dict.
  cbn [Situation.id Situation.tenant_id Situation.goal Situation.time_horizon
       Situation.stakes Situation.observations Situation.candidate_actions
       Situation.context Situation.created_at].
  decode. reflexivity.
Qed.

Lemma Decision_from_to_dict (self : Decision.t) :
  Decision.from_dict (Decision.to_dict self) = Returns self.
Proof.
  destruct self. unfold Decision.from_dict, Decision.to_dict.
  cbn [Decision.id Decision.situation_id Decision.tenant_id
       Decision.selected_action Decision.alternatives_considered
       Decision.robustness_basis Decision.assessments_used
       Decision.monitoring Decision.created_at].
  decode. reflexivity.
Qed.

Lemma Observation_missing_key (self : Observation.t) (key : string) :
  key ∈ keys_of (Observation.to_dict self) →
  Observation.from_dict (without_key key (Observation.to_dict self))
  = Raises (KeyError key).
Proof.
  intros Hkey. destruct self.
  unfold Observation.from_dict, Observation.to_dict in *.
  cbn [Observation.id Observation.content Observation.source
       Observation.reliability Observation.timestamp] in *.
  each_key Hkey; drop_key; decode; reflexivity.
Qed.

Lemma ActionSpec_missing_key (self : ActionSpec.t) (key : string) :
  key ∈ keys_of (ActionSpec.to_dict self) →
  ActionSpec.from_dict (without_key key (ActionSpec.to_dict self))
  = if bool_decide (key = "time_sensitivity")
    then Returns {| ActionSpec.name := ActionSpec.name self;
                    ActionSpec.description := ActionSpec.description self;
                    ActionSpec.reversibility := ActionSpec.reversibility self;
                    ActionSpec.id := ActionSpec.id self;
                    ActionSpec.time_sensitivity := PNone |}
    else Raises (KeyError key).
Proof.
  intros Hkey. destruct self.
  unfold ActionSpec.from_dict, ActionSpec.to_dict in *.
  cbn [ActionSpec.id ActionSpec.name ActionSpec.description
       ActionSpec.reversibility ActionSpec.time_sensitivity] in *.
  each_key Hkey; drop_key; decode; reflexivity.
Qed.

Lemma MonitoringTrigger_missing_key (self : MonitoringTrigger.t)
    (key : string) :
  key ∈ keys_of (MonitoringTrigger.to_dict self) →
  MonitoringTrigger.from_dict
    (without_key key (MonitoringTrigger.to_dict self))
  = Raises (KeyError key).
Proof.
  intros Hkey. destruct self.
  unfold MonitoringTrigger.from_dict, MonitoringTrigger.to_dict in *.
  each_key Hkey; drop_key; decode; reflexivity.
Qed.

Lemma Assessment_missing_key (self : Assessment.t) (key : string) :
  key ∈ keys_of (Assessment.to_dict self) →
  Assessment.from_dict (without_key key (Assessment.to_dict self))
  = if bool_decide (key = "action_id")
    then Returns
           {| Assessment.situation_id := Assessment.situation_id self;
              Assessment.agent_type := Assessment.agent_type self;
              Assessment.claim := Assessment.claim self;
              Assessment.support := Assessment.support self;
              Assessment.confidence := Assessment.confidence self;
              Assessment.severity := Assessment.severity self;
              Assessment.reversibility := Assessment.reversibility self;
              Assessment.is_hard_constraint :=
                Assessment.is_hard_constraint self;
              Assessment.id := Assessment.id self;
              Assessment.action_id := None;
              Assessment.recommended_tests :=
                Assessment.recommended_tests self;
              Assessment.created_at := Assessment.created_at self |}
    else if bool_decide (key = "recommended_tests")
    then Returns
           {| Assessment.situation_id := Assessment.situation_id self;
              Assessment.agent_type := Assessment.agent_type self;
              Assessment.claim := Assessment.claim self;
              Assessment.support := Assessment.support self;
              Assessment.confidence := Assessment.confidence self;
              Assessment.severity := Assessment.severity self;
              Assessment.reversibility := Assessment.reversibility self;
              Assessment.is_hard_constraint :=
                Assessment.is_hard_constraint self;
              Assessment.id := Assessment.id self;
              Assessment.action_id := Assessment.action_id self;
              Assessment.recommended_tests := PList [];
              Assessment.created_at := Assessment.created_at self |}
    else Raises (KeyError key).
Proof.
  intros Hkey.
  destruct self as [sid agent claim support conf sev rev hard id aid tests at_].
  unfold Assessment.from_dict, Assessment.to_dict in *.
  cbn [Assessment.id Assessment.situation_id Assessment.agent_type
       Assessment.claim Assessment.support Assessment.confidence
       Assessment.severity Assessment.reversibility
       Assessment.is_hard_constraint Assessment.action_id
       Assessment.recommended_tests Assessment.created_at] in *.
  each_key Hkey; drop_key; destruct aid as [u|]; decode; reflexivity.
Qed.

Lemma Situation_missing_key (self : Situation.t) (key : string) :
  key ∈ keys_of (Situation.to_dict self) →
  Situation.from_dict (without_key key (Situation.to_dict self))
  = if bool_decide (key = "context")
    then Returns
           {| Situation.tenant_id := Situation.tenant_id self;
              Situation.goal := Situation.goal self;
              Situation.time_horizon := Situation.time_horizon self;
              Situation.stakes := Situation.stakes self;
              Situation.observations := Situation.observations self;
              Situation.candidate_actions := Situation.candidate_actions self;
              Situation.id := Situation.id self;
              Situation.context := PDict [];
              Situation.created_at := Situation.created_at self |}
    else Raises (KeyError key).
Proof.
  intros Hkey. destruct self.
  unfold Situation.from_dict, Situation.to_dict in *.
  cbn [Situation.id Situation.tenant_id Situation.goal Situation.time_horizon
       Situation.stakes Situation.observations Situation.candidate_actions
       Situation.context Situation.created_at] in *.
  each_key Hkey; drop_key; decode; reflexivity.
Qed.

Lemma Decision_missing_key (self : Decision.t) (key : string) :
  key ∈ keys_of (Decision.to_dict self) →
  Decision.from_dict (without_key key (Decision.to_dict self))
  = Raises (KeyError key).
Proof.
  intros Hkey. destruct self.
  unfold Decision.from_dict, Decision.to_dict in *.
  cbn [Decision.id Decision.situation_id Decision.tenant_id
       Decision.selected_action Decision.alternatives_considered
       Decision.robustness_basis Decision.assessments_used
       Decision.monitoring Decision.created_at] in *.
  each_key Hkey; drop_key; decode; reflexivity.
Qed.

End Serialization.

Section SerializationTheorems.
Import types.
Context `{Runtime}.
Hypothesis UUID_of_str : ∀ u, UUID_of (PStr (uuid_str u)) = Returns u.
Hypothesis uuid_str_nonempty : ∀ u, uuid_str u ≠ "".
Hypothesis fromisoformat_isoformat :
  ∀ t, fromisoformat (PStr (isoformat t)) = Returns t.

(** X27. When [UUID] reads back what [str] writes and [fromisoformat]
    what [isoformat] writes, [from_dict] returns the object that
    [to_dict] was given, for [Observation], [ActionSpec] and
    [MonitoringTrigger], whatever their copied fields hold. *)
Theorem leaf_objects_round_trip (observation : Observation.t)
    (action : ActionSpec.t) (trigger : MonitoringTrigger.t) :
  Observation.from_dict (Observation.to_dict observation)
  = Returns observation
  ∧ ActionSpec.from_dict (ActionSpec.to_dict action) = Returns action
  ∧ MonitoringTrigger.from_dict (MonitoringTrigger.to_dict trigger)
    = Returns trigger.
Proof.
  split; [|split].
  - apply Observation_from_to_dict; assumption.
  - apply ActionSpec_from_to_dict; assumption.
  - apply MonitoringTrigger_from_to_dict.
Qed.

(** X28. [Assessment.from_dict] returns the assessment that [to_dict]
    was given, with or without an [action_id], provided also that [str]
    of a UUID is not empty: the reader takes an empty [action_id] for an
    absent one. *)
Theorem Assessment_round_trip (assessment : Assessment.t) :
  Assessment.from_dict (Assessment.to_dict assessment) = Returns assessment.
Proof. apply Assessment_from_to_dict; assumption. Qed.

(** X29. [Situation] and [Decision], which hold lists of other objects,
    are read back as written, element by element and in order. *)
Theorem nested_objects_round_trip (situation : Situation.t)
    (decision : Decision.t) :
  Situation.from_dict (Situation.to_dict situation) = Returns situation
  ∧ Decision.from_dict (Decision.to_dict decision) = Returns decision.
Proof.
  split.
  - apply Situation_from_to_dict; assumption.
  - apply Decision_from_to_dict; assumption.
Qed.

(** X30. [from_dict] requires every key that [to_dict] writes, except
    [time_sensitivity] of an action, [action_id] and [recommended_tests]
    of an assessment and [context] of a situation: without one of these
    the object is read with [None], [None], the empty list and the empty
    dict in that place; without any other key the reader raises
    [KeyError] for this key. *)
Theorem from_dict_missing_key (key : string)
    (observation : Observation.t) (action : ActionSpec.t)
    (situation : Situation.t) (assessment : Assessment.t)
    (trigger : MonitoringTrigger.t) (decision : Decision.t) :
  (key ∈ keys_of (Observation.to_dict observation) →
   Observation.from_dict (without_key key (Observation.to_dict observation))
   = Raises (KeyError key))
  ∧ (key ∈ keys_of (ActionSpec.to_dict action) →
     ActionSpec.from_dict (without_key key (ActionSpec.to_dict action))
     = if bool_decide (key = "time_sensitivity")
       then Returns
              {| ActionSpec.name := ActionSpec.name action;
                 ActionSpec.description := ActionSpec.description action;
                 ActionSpec.reversibility := ActionSpec.reversibility action;
                 ActionSpec.id := ActionSpec.id action;
                 ActionSpec.time_sensitivity := PNone |}
       else Raises (KeyError key))
  ∧ (key ∈ keys_of (Situation.to_dict situation) →
     Situation.from_dict (without_key key (Situation.to_dict situation))
     = if bool_decide (key = "context")
       then Returns
              {| Situation.tenant_id := Situation.tenant_id situation;
                 Situation.goal := Situation.goal situation;
                 Situation.time_horizon := Situation.time_horizon situation;
                 Situation.stakes := Situation.stakes situation;
                 Situation.observations := Situation.observations situation;
                 Situation.candidate_actions :=
                   Situation.candidate_actions situation;
                 Situation.id := Situation.id situation;
                 Situation.context := PDict [];
                 Situation.created_at := Situation.created_at situation |}
       else Raises (KeyError key))
  ∧ (key ∈ keys_of (Assessment.to_dict assessment) →
     Assessment.from_dict (without_key key (Assessment.to_dict assessment))
     = if bool_decide (key = "action_id")
       then Returns
              {| Assessment.situation_id := Assessment.situation_id assessment;
                 Assessment.agent_type := Assessment.agent_type assessment;
                 Assessment.claim := Assessment.claim assessment;
                 Assessment.support := Assessment.support assessment;
                 Assessment.confidence := Assessment.confidence assessment;
                 Assessment.severity := Assessment.severity assessment;
                 Assessment.reversibility :=
                   Assessment.reversibility assessment;
                 Assessment.is_hard_constraint :=
                   Assessment.is_hard_constraint assessment;
                 Assessment.id := Assessment.id assessment;
                 Assessment.action_id := None;
                 Assessment.recommended_tests :=
                   Assessment.recommended_tests assessment;
                 Assessment.created_at := Assessment.created_at assessment |}
       else if bool_decide (key = "recommended_tests")
       then Returns
              {| Assessment.situation_id := Assessment.situation_id assessment;
                 Assessment.agent_type := Assessment.agent_type assessment;
                 Assessment.claim := Assessment.claim assessment;
                 Assessment.support := Assessment.support assessment;
                 Assessment.confidence := Assessment.confidence assessment;
                 Assessment.severity := Assessment.severity assessment;
                 Assessment.reversibility :=
                   Assessment.reversibility assessment;
                 Assessment.is_hard_constraint :=
                   Assessment.is_hard_constraint assessment;
                 Assessment.id := Assessment.id assessment;
                 Assessment.action_id := Assessment.action_id assessment;
                 Assessment.recommended_tests := PList [];
                 Assessment.created_at := Assessment.created_at assessment |}
       else Raises (KeyError key))
  ∧ (key ∈ keys_of (MonitoringTrigger.to_dict trigger) →
     MonitoringTrigger.from_dict
       (without_key key (MonitoringTrigger.to_dict trigger))
     = Raises (KeyError key))
  ∧ (key ∈ keys_of (Decision.to_dict decision) →
     Decision.from_dict (without_key key (Decision.to_dict decision))
     = Raises (KeyError key)).
Proof.
  repeat split.
  - apply Observation_missing_key; assumption.
  - apply ActionSpec_missing_key; assumption.
  - apply Situation_missing_key; assumption.
  - apply Assessment_missing_key; assumption.
  - apply MonitoringTrigger_missing_key.
  - apply Decision_missing_key; assumption.
Qed.

End SerializationTheorems.

Lemma length_unary (n : nat) : String.length (unary n) = n.
Proof. induction n as [|n IH]; [reflexivity|]. cbn. now rewrite IH. Qed.

Lemma sample_UUID_of_str (u : UUID) :
  @types.UUID_of sample_runtime
    (types.PStr (@types.uuid_str sample_runtime u))
  = types.Returns u.
Proof. cbn. rewrite length_unary, N2Nat.id. reflexivity. Qed.

Lemma sample_uuid_str_nonempty (u : UUID) :
  @types.uuid_str sample_runtime u ≠ "".
Proof. discriminate. Qed.

Lemma sample_fromisoformat_isoformat (t : datetime) :
  @types.fromisoformat sample_runtime
    (types.PStr (@types.isoformat sample_runtime t))
  = types.Returns t.
Proof.
  cbn. destruct (Z.ltb_spec t 0); cbn; rewrite length_unary; f_equal;
    rewrite Zabs2Nat.id_abs; lia.
Qed.

Lemma leaf_objects_round_trip_witness :
  @types.Observation.from_dict sample_runtime
    (@types.Observation.to_dict sample_runtime sample_observation_object)
  = types.Returns sample_observation_object
  ∧ @types.ActionSpec.from_dict sample_runtime
      (@types.ActionSpec.to_dict sample_runtime (sample_action_object 1%N))
    = types.Returns (sample_action_object 1%N)
  ∧ types.MonitoringTrigger.from_dict
      (types.MonitoringTrigger.to_dict sample_trigger_object)
    = types.Returns sample_trigger_object.
Proof.
  apply (@leaf_objects_round_trip sample_runtime sample_UUID_of_str
           sample_fromisoformat_isoformat).
Defined.

Lemma Assessment_round_trip_witness :
  @types.Assessment.from_dict sample_runtime
    (@types.Assessment.to_dict sample_runtime sample_assessment_object)
  = types.Returns sample_assessment_object.
Proof.
  apply (@Assessment_round_trip sample_runtime sample_UUID_of_str
           sample_uuid_str_nonempty sample_fromisoformat_isoformat).
Defined.

Lemma nested_objects_round_trip_witness :
  @types.Situation.from_dict sample_runtime
    (@types.Situation.to_dict sample_runtime sample_situation_object)
  = types.Returns sample_situation_object
  ∧ @types.Decision.from_dict sample_runtime
      (@types.Decision.to_dict sample_runtime sample_decision_object)
    = types.Returns sample_decision_object.
Proof.
  apply (@nested_objects_round_trip sample_runtime sample_UUID_of_str
           sample_fromisoformat_isoformat).
Defined.

Lemma from_dict_missing_key_witness :
  @types.Decision.from_dict sample_runtime
    (without_key "created_at"
       (@types.Decision.to_dict sample_runtime sample_decision_object))
  = types.Raises (types.KeyError "created_at")
  ∧ @types.Situation.from_dict sample_runtime
      (without_key "context"
         (@types.Situation.to_dict sample_runtime sample_situation_object))
    = types.Returns
        {| types.Situation.tenant_id := types.PStr "test-tenant";
           types.Situation.goal := types.PStr "Test goal";
           types.Situation.time_horizon := types.PStr "near";
           types.Situation.stakes := types.PStr "high";
           types.Situation.observations := [sample_observation_object];
           types.Situation.candidate_actions :=
             [sample_action_object 1%N; sample_action_object 2%N];
           types.Situation.id := 3%N;
           types.Situation.context := types.PDict [];
           types.Situation.created_at := (-2)%Z |}.
Proof.
  split.
  - destruct (@from_dict_missing_key sample_runtime sample_UUID_of_str
                sample_uuid_str_nonempty sample_fromisoformat_isoformat
                "created_at" sample_observation_object
                (sample_action_object 1%N) sample_situation_object
                sample_assessment_object sample_trigger_object
                sample_decision_object) as (_ & _ & _ & _ & _ & Hd).
    apply Hd. cbn. do 8 apply list_elem_of_further. apply list_elem_of_here.
  - destruct (@from_dict_missing_key sample_runtime sample_UUID_of_str
                sample_uuid_str_nonempty sample_fromisoformat_isoformat
                "context" sample_observation_object
                (sample_action_object 1%N) sample_situation_object
                sample_assessment_object sample_trigger_object
                sample_decision_object) as (_ & _ & Hs & _).
    apply Hs. cbn. do 7 apply list_elem_of_further. apply list_elem_of_here.
Defined.
